(** * torch_frame.data.dataset: the materialization pipeline of [Dataset]

    A shallow embedding of [src/torch_frame/data/dataset.py].  Python objects
    that the class mutates or aliases (the caller's list of column names, the
    [col_to_stype] dictionary, the [_col_stats] dictionary and the [Dataset]
    instances themselves) live in an explicit heap and are named by
    references; every method is a computation in a state-and-exception monad
    over that heap.  The collaborators whose code is in other modules of the
    package ([compute_col_stats] and the tensor mappers) are the fields of
    an interface class; the tensor bundle [TensorFrame] is a record.

    The file has the model first (Python values, pandas, the heap, the
    class), then two implementations of the collaborators and the example
    tables, then the facts about the model, the theorems for the claims of
    the specification, and the claims on the examples. *)

From Stdlib Require Import ZArith String List SpecFloat.
From stdpp Require Import base option list list_numbers strings gmap sorting.

Local Open Scope string_scope.
Local Open Scope list_scope.

(** ** Python values and exceptions *)

(** [torch_frame.stype]: the enumeration of semantic types.  Members other
    than [numerical] and [categorical] are kept by their [value] string. *)
Inductive stype :=
| numerical
| categorical
| other_stype (value : string).

Global Instance stype_eq_dec : EqDecision stype.
Proof. solve_decision. Defined.

Definition stype_value (s : stype) : string :=
  match s with
  | numerical => "numerical"
  | categorical => "categorical"
  | other_stype v => v
  end.

(** The semantic types that [_to_tensor_frame] has a mapper for. *)
Definition supported (s : stype) : bool :=
  match s with
  | numerical | categorical => true
  | other_stype _ => false
  end.

(** The text of an exception, kept structured. *)
Inductive message :=
| MissingColumns (missing_cols : gset string)
    (* "The column(s) '{missing_cols}' are specified but missing in the
       data frame" *)
| ListRemoveNotInList
    (* "list.remove(x): x not in list" *)
| CannotModifyPostMaterialization (func_name : string)
    (* "'{self}' cannot be modified via '{func.__name__}' post
       materialization" *)
| RequiresMaterialized (func_name : string)
    (* "'{func.__name__}' requires a materialized dataset. Please call
       `dataset.materialize(...)` first." *)
| UnableToProcessStype (value : string)
    (* "Unable to process the semantic type '{stype.value}'" *)
| SliceStepZero
    (* "slice step cannot be zero" *)
| FloatNaNToInteger
    (* "cannot convert float NaN to integer" *)
| FloatInfinityToInteger
    (* "cannot convert float infinity to integer" *)
| CannotUnpack
    (* "cannot unpack non-iterable object" *)
| OutOfBounds
    (* "positional indexers are out-of-bounds" *)
| SliceIndicesMustBeIntegers
    (* "slice indices must be integers or None" *)
| NotSubscriptable
    (* "'NoneType' object is not subscriptable" *).

Inductive exn :=
| ValueError (m : message)
| RuntimeError (m : message)
| NotImplementedError (m : message)
| OverflowError (m : message)
| TypeError (m : message)
| IndexError (m : message)
| KeyError (key : string)
| DanglingReference
    (* not a Python exception: a reference that names no object of the
       heap; it cannot arise on a heap built by the methods below *).

(** The error kinds of the specification, as the exceptions the code
    raises for them. *)
Definition MissingColumnError (missing_cols : gset string) : exn :=
  ValueError (MissingColumns missing_cols).
Definition AlreadyMaterializedError (func_name : string) : exn :=
  RuntimeError (CannotModifyPostMaterialization func_name).
Definition NotMaterializedError (func_name : string) : exn :=
  RuntimeError (RequiresMaterialized func_name).
Definition UnsupportedSemanticType (s : stype) : exn :=
  NotImplementedError (UnableToProcessStype (stype_value s)).

(** ** Python dictionaries

    A [dict] keeps its keys in insertion order and the order is what
    [_to_tensor_frame] iterates in, so a dictionary is an association list:
    assignment to an existing key keeps the key's position, assignment to a
    new key appends. *)
Module PyDict.
Section dict.
Context {K V : Type} `{EqDecision K}.

Fixpoint get (k : K) (d : list (K * V)) : option V :=
  match d with
  | [] => None
  | (k', v) :: d' => if decide (k = k') then Some v else get k d'
  end.

Fixpoint set (k : K) (v : V) (d : list (K * V)) : list (K * V) :=
  match d with
  | [] => [(k, v)]
  | (k', v') :: d' =>
      if decide (k = k') then (k, v) :: d' else (k', v') :: set k v d'
  end.

Definition keys (d : list (K * V)) : list K := d.*1.
End dict.

(** [d[k].append(x)] on a [defaultdict(list)]. *)
Definition append {K A : Type} `{EqDecision K}
    (k : K) (x : A) (d : list (K * list A)) : list (K * list A) :=
  match get k d with
  | Some xs => set k (xs ++ [x]) d
  | None => d ++ [(k, [x])]
  end.
End PyDict.

(** [list.remove(x)]: drops the first occurrence; [None] when there is
    none (Python raises [ValueError]). *)
Fixpoint list_remove (x : string) (l : list string) : option (list string) :=
  match l with
  | [] => None
  | y :: l' => if decide (x = y) then Some l' else cons y <$> list_remove x l'
  end.

(** ** Python floats, [round] and slices *)
Module PyFloat.
(** A Python [float] is an IEEE 754 binary64 number. *)
Definition prec : Z := 53.
Definition emax : Z := 1024.

(** [float(n)] for an [int] [n]: the nearest binary64 number. *)
Definition of_int (n : Z) : spec_float := binary_normalize prec emax n 0 false.

(** [x * n] for a float [x] and an int [n]. *)
Definition mul_int (x : spec_float) (n : Z) : spec_float :=
  SFmul prec emax x (of_int n).

(** [m * 2^e] rounded to the nearest integer, ties to the even one. *)
Definition round_half_even (m : positive) (e : Z) : Z :=
  match e with
  | Zneg p =>
      let d := Z.pow 2 (Zpos p) in
      let q := Z.div (Zpos m) d in
      let r := Z.modulo (Zpos m) d in
      match Z.compare (2 * r) d with
      | Lt => q
      | Gt => (q + 1)%Z
      | Eq => if Z.even q then q else (q + 1)%Z
      end
  | _ => (Zpos m * Z.pow 2 e)%Z
  end.

(** [round(x)] with one argument. *)
Definition round (x : spec_float) : exn + Z :=
  match x with
  | S754_zero _ => inr 0%Z
  | S754_infinity _ => inl (OverflowError FloatInfinityToInteger)
  | S754_nan => inl (ValueError FloatNaNToInteger)
  | S754_finite s m e =>
      let n := round_half_even m e in
      inr (if s then (- n)%Z else n)
  end.

(** The float nearest to [m * 2^e]. *)
Definition dyadic (m e : Z) : spec_float := binary_normalize prec emax m e false.

(** The literal [0.5]. *)
Definition half : spec_float := S754_finite false 4503599627370496 (-53).
End PyFloat.

(** A bound of a [slice] object as [index_select] can receive it. *)
Inductive bound :=
| BNone
| BInt (i : Z)
| BFloat (x : spec_float).

Module PySlice.
(** [slice(start, stop, step).indices(n)]: the bounds clipped to a
    sequence of length [n]. *)
Definition adjust (n step : Z) (b : option Z) (dflt_pos dflt_neg : Z) : Z :=
  let lower := if (step <? 0)%Z then (-1)%Z else 0%Z in
  let upper := if (step <? 0)%Z then (n - 1)%Z else n in
  match b with
  | None => if (step <? 0)%Z then dflt_neg else dflt_pos
  | Some i =>
      if (i <? 0)%Z then Z.max (i + n) lower else Z.min i upper
  end.

Definition indices (start stop step : option Z) (n : Z) : exn + (Z * Z * Z) :=
  let step := default 1%Z step in
  if decide (step = 0%Z) then inl (ValueError SliceStepZero)
  else
    let start' := adjust n step start 0%Z (n - 1)%Z in
    let stop' := adjust n step stop n (-1)%Z in
    inr (start', stop', step).

(** [len(range(start, stop, step))]. *)
Definition range_len (start stop step : Z) : Z :=
  if (0 <? step)%Z then
    if (start <? stop)%Z then ((stop - start - 1) / step + 1)%Z else 0%Z
  else
    if (stop <? start)%Z then ((start - stop - 1) / (- step) + 1)%Z else 0%Z.

(** [list(range(start, stop, step))]. *)
Definition range (start stop step : Z) : list Z :=
  (λ k, (start + k * step)%Z) <$> seqZ 0 (range_len start stop step).

(** The positions that [seq[start:stop:step]] selects in a sequence of
    length [n]. *)
Definition positions (start stop step : option Z) (n : nat)
    : exn + list nat :=
  match indices start stop step (Z.of_nat n) with
  | inl e => inl e
  | inr (a, b, s) => inr (Z.to_nat <$> range a b s)
  end.
End PySlice.

(** ** pandas: the data frame

    A cell holds a raw value, an [int] or a [str].  A frame is its column
    labels and its rows; [len(df)] is the number of rows. *)
Inductive cell :=
| PyInt (i : Z)
| PyStr (s : string).

Global Instance cell_eq_dec : EqDecision cell.
Proof. solve_decision. Defined.

Definition Series := list cell.

(** A list of labels of one type, as the index of a [Series] holds them
    and [Index.tolist()] gives them: the ints of an index of dtype
    [int64], or the strings of an index of dtype [object]. *)
Inductive Labels :=
| IntLabels (labels : list Z)
| StrLabels (labels : list string).

Definition Labels_tolist (index : Labels) : list cell :=
  match index with
  | IntLabels labels => PyInt <$> labels
  | StrLabels labels => PyStr <$> labels
  end.

Coercion Labels_tolist : Labels >-> list.

(** Python's [<=] on two values of one type: ints compare by value,
    strings lexicographically; an [int] and a [str] do not compare. *)
Definition cell_le (a b : cell) : Prop :=
  match a, b with
  | PyInt i, PyInt j => (i ≤ j)%Z
  | PyStr s, PyStr t => String.leb s t = true
  | _, _ => False
  end.

Record DataFrame := {
  columns : list string;
  rows : list (list cell);
}.

Module Pandas.
(** Position of the first column labelled [col]. *)
Fixpoint get_loc (col : string) (cols : list string) : option nat :=
  match cols with
  | [] => None
  | c :: cols' => if decide (col = c) then Some 0 else S <$> get_loc col cols'
  end.

(** [len(df)]. *)
Definition len (df : DataFrame) : nat := length (rows df).

(** [df[col]] for one label; a missing label raises [KeyError]. *)
Definition getitem (df : DataFrame) (col : string) : exn + Series :=
  match get_loc col (columns df) with
  | None => inl (KeyError col)
  | Some j => inr ((λ r, default (PyStr "") (r !! j)) <$> rows df)
  end.

(** The positions of a list of labels, [KeyError] at the first missing. *)
Fixpoint get_locs (cols : list string) (have : list string)
    : exn + list nat :=
  match cols with
  | [] => inr []
  | c :: cols' =>
      match get_loc c have with
      | None => inl (KeyError c)
      | Some j =>
          match get_locs cols' have with
          | inl e => inl e
          | inr js => inr (j :: js)
          end
      end
  end.

(** [df[cols]] for a list of labels: the projected frame. *)
Definition getitem_list (df : DataFrame) (cols : list string)
    : exn + DataFrame :=
  match get_locs cols (columns df) with
  | inl e => inl e
  | inr js =>
      inr {| columns := cols;
             rows := (λ r, (λ j, default (PyStr "") (r !! j)) <$> js)
                       <$> rows df |}
  end.

(** One integer of a positional indexer against a sequence of length
    [n]: a negative one counts from the end, one outside [-n, n) raises
    [IndexError]. *)
Definition position (n : nat) (i : Z) : exn + nat :=
  if decide (0 ≤ i < Z.of_nat n)%Z then inr (Z.to_nat i)
  else if decide (- Z.of_nat n ≤ i < 0)%Z then inr (Z.to_nat (i + Z.of_nat n))
  else inl (IndexError OutOfBounds).

Fixpoint positions (n : nat) (idx : list Z) : exn + list nat :=
  match idx with
  | [] => inr []
  | i :: idx' =>
      match position n i with
      | inl e => inl e
      | inr p =>
          match positions n idx' with
          | inl e => inl e
          | inr ps => inr (p :: ps)
          end
      end
  end.

(** [seq[ps]] for positions already resolved against [seq]. *)
Definition take {A : Type} (ps : list nat) (l : list A) : list A :=
  omap (λ p, l !! p) ps.

(** [pd.Series(index=index, data=value).sort_index()], as the pair of
    [ser.index.tolist()] and [ser.values.tolist()]: the labels in
    ascending order, ints by value and strings lexicographically, each
    with its datum. *)
Fixpoint insert_sorted {A : Type} (leb : A → A → bool) (x : A * Z)
    (l : list (A * Z)) : list (A * Z) :=
  match l with
  | [] => [x]
  | y :: l' =>
      if leb (fst x) (fst y) then x :: y :: l'
      else y :: insert_sorted leb x l'
  end.

Definition sort_pairs {A : Type} (leb : A → A → bool) (ser : list (A * Z))
    : list (A * Z) :=
  foldr (insert_sorted leb) [] ser.

Definition sort_index (index : Labels) (value : list Z) : Labels * list Z :=
  match index with
  | IntLabels labels =>
      let ser := sort_pairs Z.leb (zip labels value) in
      (IntLabels ser.*1, ser.*2)
  | StrLabels labels =>
      let ser := sort_pairs String.leb (zip labels value) in
      (StrLabels ser.*1, ser.*2)
  end.
End Pandas.

(** Modelled from the spec: [IndexSelectType] of [torch_frame.typing],
    the argument of [index_select]: a single integer, a sequence of
    integer row indices, or a slice; the code also takes a
    one-dimensional integer [Tensor]. *)
Inductive IndexSelectType :=
| IInt (i : Z)
| IList (idx : list Z)
| ISlice (start stop : bound) (step : option Z)
| ITensor (idx : list Z).

(** A bound of a slice that is used for indexing: a float is refused. *)
Definition bound_int (b : bound) : exn + option Z :=
  match b with
  | BNone => inr None
  | BInt i => inr (Some i)
  | BFloat _ => inl (TypeError SliceIndicesMustBeIntegers)
  end.

(** The positions an index selects in a sequence of [n] rows.  For a
    list, a slice and an array of integers the rule is that of
    [DataFrame.iloc] and of indexing a tensor along its first axis; a
    single integer is an index of the tensor bundle only, which selects
    the one row. *)
Definition index_positions (index : IndexSelectType) (n : nat) : exn + list nat :=
  match index with
  | IInt i =>
      match Pandas.position n i with
      | inl e => inl e
      | inr p => inr [p]
      end
  | IList idx | ITensor idx => Pandas.positions n idx
  | ISlice start stop step =>
      match bound_int start, bound_int stop with
      | inr a, inr b => PySlice.positions a b step n
      | inl e, _ | _, inl e => inl e
      end
  end.

(** ** Column statistics and tensors *)

(** Modelled from the spec: [StatType] of [torch_frame.data.stats], the
    kinds of statistic: the mean and the standard deviation of a
    numerical column, the (categories, counts) pair of a categorical
    one. *)
Inductive StatType := MEAN | STD | COUNT.

Global Instance StatType_eq_dec : EqDecision StatType.
Proof. solve_decision. Defined.

(** The value of one statistic: for [COUNT] the pair [(index, value)] of
    the categories, which are values of one type, and their numbers of
    occurrences. *)
Inductive StatValue :=
| CountStat (index : Labels) (value : list Z)
| FloatStat (x : spec_float).

(** [Dict[StatType, Any]]. *)
Abbreviation ColStats := (list (StatType * StatValue)).

Definition device := string.

(** Modelled from the spec: the collaborators of [Dataset] whose code is
    in [torch_frame.data.stats] and [torch_frame.data.mapper].
    [compute_col_stats] either returns the statistics of a column or fails
    with the unsupported-semantic-type error ([None]), which it does only
    for a type with no registered calculator; for a categorical column it
    produces the (categories, counts) pair under [COUNT].  A
    mapper's [forward] turns a column into a column tensor, a sequence of
    [telem] with one element per row. *)
Class Collaborators := {
  telem : Type;
  compute_col_stats : Series → stype → option ColStats;
  NumericalTensorMapper_forward : Series → option device → list telem;
  CategoricalTensorMapper_forward :
    Labels → Series → option device → list telem;
  NumericalTensorMapper_forward_length : ∀ ser dev,
    length (NumericalTensorMapper_forward ser dev) = length ser;
  CategoricalTensorMapper_forward_length : ∀ categories ser dev,
    length (CategoricalTensorMapper_forward categories ser dev) = length ser;
  compute_col_stats_supported : ∀ ser st,
    supported st = true → is_Some (compute_col_stats ser st);
  compute_col_stats_COUNT : ∀ ser cs,
    compute_col_stats ser categorical = Some cs →
    ∃ index value,
      PyDict.get COUNT cs = Some (CountStat index value) ∧
      length index = length value;
}.

Section dataset.
Context `{Collaborators}.

(** Modelled from the spec: [TensorFrame], the tensor bundle, whose class
    is in [torch_frame.data].  It holds one stacked feature tensor per
    semantic type (a list of rows), the column names aligned with the
    tensor's columns, and the optional target tensor; it is immutable, and
    indexing it slices every tensor along the row axis with the same index
    and gives a new bundle. *)
Record TensorFrame := {
  x_dict : list (stype * list (list telem));
  col_names_dict : list (stype * list string);
  y : option (list telem);
}.

Definition tensor_getitem {A : Type} (t : list A) (index : IndexSelectType)
    : exn + list A :=
  match index_positions index (length t) with
  | inl e => inl e
  | inr ps => inr (Pandas.take ps t)
  end.

Fixpoint x_dict_getitem (xd : list (stype * list (list telem)))
    (index : IndexSelectType) : exn + list (stype * list (list telem)) :=
  match xd with
  | [] => inr []
  | (s, x) :: xd' =>
      match tensor_getitem x index with
      | inl e => inl e
      | inr x' =>
          match x_dict_getitem xd' index with
          | inl e => inl e
          | inr r => inr ((s, x') :: r)
          end
      end
  end.

Definition TensorFrame_getitem (tf : TensorFrame) (index : IndexSelectType)
    : exn + TensorFrame :=
  match x_dict_getitem (x_dict tf) index with
  | inl e => inl e
  | inr xd =>
      match y tf with
      | None => inr {| x_dict := xd; col_names_dict := col_names_dict tf; y := None |}
      | Some t =>
          match tensor_getitem t index with
          | inl e => inl e
          | inr t' =>
              inr {| x_dict := xd; col_names_dict := col_names_dict tf;
                     y := Some t' |}
          end
      end
  end.

(** [torch.stack(xs, dim=1)] of column tensors of one length: the rows. *)
Fixpoint stack_dim1 (xs : list (list telem)) : list (list telem) :=
  match xs with
  | [] => []
  | [x] => (λ e, [e]) <$> x
  | x :: xs' => zip_with cons x (stack_dim1 xs')
  end.

(** The two mappers and their [forward]. *)
Inductive TensorMapper :=
| NumericalTensorMapper
| CategoricalTensorMapper (categories : Labels).

Definition TensorMapper_forward (mapper : TensorMapper) (ser : Series)
    (dev : option device) : list telem :=
  match mapper with
  | NumericalTensorMapper => NumericalTensorMapper_forward ser dev
  | CategoricalTensorMapper categories =>
      CategoricalTensorMapper_forward categories ser dev
  end.

(** ** The heap *)

(** A reference: the position of an object in its store. *)
Definition ref := nat.

(** The attributes of a [Dataset] instance.  [col_to_stype] and
    [_col_stats] hold references to dictionary objects; the frame and the
    tensor bundle are values. *)
Record Dataset := {
  df : DataFrame;
  col_to_stype : ref;
  target_col : option string;
  _is_materialized : bool;
  _col_stats : ref;
  _tensor_frame : option TensorFrame;
}.

Record Heap := {
  str_lists : list (list string);
  stype_dicts : list (list (string * stype));
  stats_dicts : list (list (string * ColStats));
  datasets : list Dataset;
}.

Definition empty_heap : Heap :=
  {| str_lists := []; stype_dicts := []; stats_dicts := []; datasets := [] |}.

(** ** The monad: a heap threaded through, and an exception or a value *)
Definition M (A : Type) : Type := Heap → (exn + A) * Heap.

Global Instance M_ret : MRet M := λ A x h, (inr x, h).
Global Instance M_bind : MBind M := λ A B f c h,
  match c h with
  | (inl e, h') => (inl e, h')
  | (inr x, h') => f x h'
  end.

Definition raise {A : Type} (e : exn) : M A := λ h, (inl e, h).

(** An exception of a pure computation is raised. *)
Definition lift {A : Type} (r : exn + A) : M A :=
  match r with
  | inl e => raise e
  | inr x => mret x
  end.

Definition deref {A : Type} (store : Heap → list A) (r : ref) : M A := λ h,
  match store h !! r with
  | Some x => (inr x, h)
  | None => (inl DanglingReference, h)
  end.

Definition get_list : ref → M (list string) := deref str_lists.
Definition get_stype_dict : ref → M (list (string * stype)) := deref stype_dicts.
Definition get_stats_dict : ref → M (list (string * ColStats)) := deref stats_dicts.
Definition get_dataset : ref → M Dataset := deref datasets.

(** The heap after an assignment to the object [r] names, and after the
    creation of an object. *)
Definition with_list (h : Heap) (r : ref) (l : list string) : Heap :=
  {| str_lists := <[r := l]> (str_lists h);
     stype_dicts := stype_dicts h;
     stats_dicts := stats_dicts h;
     datasets := datasets h |}.

Definition with_stats (h : Heap) (r : ref) (d : list (string * ColStats)) : Heap :=
  {| str_lists := str_lists h;
     stype_dicts := stype_dicts h;
     stats_dicts := <[r := d]> (stats_dicts h);
     datasets := datasets h |}.

Definition with_dataset (h : Heap) (r : ref) (d : Dataset) : Heap :=
  {| str_lists := str_lists h;
     stype_dicts := stype_dicts h;
     stats_dicts := stats_dicts h;
     datasets := <[r := d]> (datasets h) |}.

Definition add_list (h : Heap) (l : list string) : Heap :=
  {| str_lists := str_lists h ++ [l];
     stype_dicts := stype_dicts h;
     stats_dicts := stats_dicts h;
     datasets := datasets h |}.

Definition add_stype_dict (h : Heap) (d : list (string * stype)) : Heap :=
  {| str_lists := str_lists h;
     stype_dicts := stype_dicts h ++ [d];
     stats_dicts := stats_dicts h;
     datasets := datasets h |}.

Definition add_stats_dict (h : Heap) (d : list (string * ColStats)) : Heap :=
  {| str_lists := str_lists h;
     stype_dicts := stype_dicts h;
     stats_dicts := stats_dicts h ++ [d];
     datasets := datasets h |}.

Definition add_dataset (h : Heap) (d : Dataset) : Heap :=
  {| str_lists := str_lists h;
     stype_dicts := stype_dicts h;
     stats_dicts := stats_dicts h;
     datasets := datasets h ++ [d] |}.

Definition set_list (r : ref) (l : list string) : M unit := λ h,
  (inr tt, with_list h r l).
Definition set_stats_dict (r : ref) (d : list (string * ColStats)) : M unit := λ h,
  (inr tt, with_stats h r d).
Definition set_dataset (r : ref) (d : Dataset) : M unit := λ h,
  (inr tt, with_dataset h r d).

Definition new_list (l : list string) : M ref := λ h,
  (inr (length (str_lists h)), add_list h l).
Definition new_stype_dict (d : list (string * stype)) : M ref := λ h,
  (inr (length (stype_dicts h)), add_stype_dict h d).
Definition new_stats_dict (d : list (string * ColStats)) : M ref := λ h,
  (inr (length (stats_dicts h)), add_stats_dict h d).
Definition new_dataset (d : Dataset) : M ref := λ h,
  (inr (length (datasets h)), add_dataset h d).

(** [for x in l: body(x)]. *)
Fixpoint for_each {A : Type} (l : list A) (body : A → M unit) : M unit :=
  match l with
  | [] => mret tt
  | x :: l' => body x ≫= λ _, for_each l' body
  end.

(** A loop that also updates local variables [acc]. *)
Fixpoint for_fold {A S : Type} (l : list A) (acc : S) (body : S → A → M S)
    : M S :=
  match l with
  | [] => mret acc
  | x :: l' => acc' ← body acc x; for_fold l' acc' body
  end.

(** ** The class [Dataset] *)

Definition set_df (d : Dataset) (x : DataFrame) : Dataset :=
  {| df := x; col_to_stype := col_to_stype d; target_col := target_col d;
     _is_materialized := _is_materialized d; _col_stats := _col_stats d;
     _tensor_frame := _tensor_frame d |}.

Definition set_col_to_stype (d : Dataset) (x : ref) : Dataset :=
  {| df := df d; col_to_stype := x; target_col := target_col d;
     _is_materialized := _is_materialized d; _col_stats := _col_stats d;
     _tensor_frame := _tensor_frame d |}.

Definition set_is_materialized (d : Dataset) (x : bool) : Dataset :=
  {| df := df d; col_to_stype := col_to_stype d; target_col := target_col d;
     _is_materialized := x; _col_stats := _col_stats d;
     _tensor_frame := _tensor_frame d |}.

Definition set_tensor_frame (d : Dataset) (x : option TensorFrame) : Dataset :=
  {| df := df d; col_to_stype := col_to_stype d; target_col := target_col d;
     _is_materialized := _is_materialized d; _col_stats := _col_stats d;
     _tensor_frame := x |}.

(** [self.attr = x]. *)
Definition setattr {X : Type} (set : Dataset → X → Dataset) (self : ref) (x : X)
    : M unit :=
  d ← get_dataset self; set_dataset self (set d x).

(** [d[k]] on a dictionary with string keys. *)
Definition getitem {V : Type} (k : string) (d : list (string * V)) : M V :=
  match PyDict.get k d with
  | Some v => mret v
  | None => raise (KeyError k)
  end.

(** [is_materialized]. *)
Definition is_materialized (self : ref) : M bool :=
  d ← get_dataset self; mret (_is_materialized d).

(** The decorators. *)
Definition requires_pre_materialization {A : Type} (func_name : string)
    (func : ref → M A) (self : ref) : M A :=
  m ← is_materialized self;
  if m : bool then raise (RuntimeError (CannotModifyPostMaterialization func_name))
  else func self.

Definition requires_post_materialization {A : Type} (func_name : string)
    (func : ref → M A) (self : ref) : M A :=
  m ← is_materialized self;
  if negb m then raise (RuntimeError (RequiresMaterialized func_name))
  else func self.

(** [feat_cols], from the two attributes it reads. *)
Definition feat_cols_of (cts : list (string * stype)) (target : option string)
    : exn + list string :=
  let cols := PyDict.keys cts in
  match target with
  | None => inr cols
  | Some t =>
      match list_remove t cols with
      | Some cols' => inr cols'
      | None => inl (ValueError ListRemoveNotInList)
      end
  end.

Definition feat_cols (self : ref) : M (list string) :=
  d ← get_dataset self;
  cts ← get_stype_dict (col_to_stype d);
  lift (feat_cols_of cts (target_col d)).

(** [Dataset(df, col_to_stype, target_col)].  The instance under
    construction is out of the caller's reach until [__init__] returns, so
    it enters the heap when the check has passed. *)
Definition Dataset_init (df0 : DataFrame) (col_to_stype0 : ref)
    (target_col0 : option string) : M ref :=
  cts ← get_stype_dict col_to_stype0;
  feat ← lift (feat_cols_of cts target_col0);
  let cols := feat ++ match target_col0 with None => [] | Some t => [t] end in
  let missing_cols : gset string :=
    list_to_set cols ∖ list_to_set (columns df0) in
  if decide (0 < size missing_cols)
  then raise (ValueError (MissingColumns missing_cols))
  else
    stats ← new_stats_dict [];
    new_dataset {| df := df0; col_to_stype := col_to_stype0;
                   target_col := target_col0; _is_materialized := false;
                   _col_stats := stats; _tensor_frame := None |}.

(** [__len__]. *)
Definition len (self : ref) : M nat :=
  d ← get_dataset self; mret (Pandas.len (df d)).

(** The local variables of the loop of [_to_tensor_frame]. *)
Record locals := {
  xs_dict : list (stype * list (list telem));
  names_dict : list (stype * list string);
  y_out : option (list telem);
}.

(** The end of an iteration of the loop of [_to_tensor_frame]:
    [mapper.forward] on the column, and the result put under [y] or with
    the features. *)
Definition forward_and_route (d : Dataset) (dev : option device)
    (acc : locals) (col : string) (st : stype) (mapper : TensorMapper)
    : M locals :=
  ser ← lift (Pandas.getitem (df d) col);
  let out := TensorMapper_forward mapper ser dev in
  if decide (Some col = target_col d)
  then mret {| xs_dict := xs_dict acc; names_dict := names_dict acc;
               y_out := Some out |}
  else mret {| xs_dict := PyDict.append st out (xs_dict acc);
               names_dict := PyDict.append st col (names_dict acc);
               y_out := y_out acc |}.

(** One iteration of the loop of [_to_tensor_frame]. *)
Definition _to_tensor_frame_body (d : Dataset) (dev : option device)
    (acc : locals) (item : string * stype) : M locals :=
  let '(col, st) := item in
  mapper ←
    match st with
    | numerical => mret NumericalTensorMapper
    | categorical =>
        stats ← get_stats_dict (_col_stats d);
        cs ← getitem col stats;
        match PyDict.get COUNT cs with
        | None => raise (KeyError "StatType.COUNT")
        | Some (FloatStat _) => raise (TypeError CannotUnpack)
        | Some (CountStat index value) =>
            if decide (Some col = target_col d ∧ length index = 2)
            then
              let ser := Pandas.sort_index index value in
              let index := ser.1 in
              let value := ser.2 in
              stats ← get_stats_dict (_col_stats d);
              cs ← getitem col stats;
              set_stats_dict (_col_stats d)
                (PyDict.set col (PyDict.set COUNT (CountStat index value) cs)
                   stats);;
              mret (CategoricalTensorMapper index)
            else mret (CategoricalTensorMapper index)
        end
    | other_stype _ =>
        raise (NotImplementedError (UnableToProcessStype (stype_value st)))
    end;
  forward_and_route d dev acc col st mapper.

Definition _to_tensor_frame (self : ref) (dev : option device) : M TensorFrame :=
  d ← get_dataset self;
  cts ← get_stype_dict (col_to_stype d);
  acc ← for_fold cts {| xs_dict := []; names_dict := []; y_out := None |}
          (_to_tensor_frame_body d dev);
  let x_dict := (λ '(st, xs), (st, stack_dim1 xs)) <$> xs_dict acc in
  mret {| x_dict := x_dict; col_names_dict := names_dict acc; y := y_out acc |}.

(** [compute_col_stats] as a call that can fail. *)
Definition call_compute_col_stats (ser : Series) (st : stype) : M ColStats :=
  match compute_col_stats ser st with
  | Some cs => mret cs
  | None => raise (UnsupportedSemanticType st)
  end.

(** One iteration of the first loop of [materialize]:
    [self._col_stats[col] = compute_col_stats(self.df[col], stype)]. *)
Definition materialize_body (d : Dataset) (item : string * stype) : M unit :=
  let '(col, st) := item in
  ser ← lift (Pandas.getitem (df d) col);
  cs ← call_compute_col_stats ser st;
  stats ← get_stats_dict (_col_stats d);
  set_stats_dict (_col_stats d) (PyDict.set col cs stats).

Definition materialize (self : ref) (dev : option device) : M ref :=
  m ← is_materialized self;
  if m : bool then mret self
  else
    (* 1. Fill column statistics: *)
    d ← get_dataset self;
    cts ← get_stype_dict (col_to_stype d);
    for_each cts (materialize_body d);;
    (* 2. Create the TensorFrame: *)
    tf ← _to_tensor_frame self dev;
    setattr set_tensor_frame self (Some tf);;
    (* 3. Mark the dataset as materialized: *)
    setattr set_is_materialized self true;;
    mret self.

(** The two guarded properties. *)
Definition tensor_frame : ref → M (option TensorFrame) :=
  requires_post_materialization "tensor_frame"
    (λ self, d ← get_dataset self; mret (_tensor_frame d)).

(** [col_stats] returns the dictionary object itself, by reference. *)
Definition col_stats : ref → M ref :=
  requires_post_materialization "col_stats"
    (λ self, d ← get_dataset self; mret (_col_stats d)).

(** [copy.copy(self)]: a new instance with the same attribute values, the
    references among them included. *)
Definition copy_copy (self : ref) : M ref :=
  d ← get_dataset self; new_dataset d.

(** The first lines of [index_select]: an [int] becomes a one-element
    list, a float bound of a slice becomes [round(bound * len(self))]. *)
Definition resolve_bound (b : bound) (n : nat) : exn + bound :=
  match b with
  | BFloat x =>
      match PyFloat.round (PyFloat.mul_int x (Z.of_nat n)) with
      | inl e => inl e
      | inr i => inr (BInt i)
      end
  | _ => inr b
  end.

(** What [index] is once the first lines of [index_select] have run: a
    list, a slice or a [Tensor], and no [int] any more. *)
Inductive RowIndex :=
| RList (idx : list Z)
| RSlice (start stop : bound) (step : option Z)
| RTensor (idx : list Z).

(** A [RowIndex] as the argument of [TensorFrame.__getitem__]. *)
Definition as_index (index : RowIndex) : IndexSelectType :=
  match index with
  | RList idx => IList idx
  | RSlice start stop step => ISlice start stop step
  | RTensor idx => ITensor idx
  end.

Definition resolve_index (index : IndexSelectType) (n : nat)
    : exn + RowIndex :=
  match index with
  | IInt i => inr (RList [i])
  | IList idx => inr (RList idx)
  | ISlice start stop step =>
      match resolve_bound start n with
      | inl e => inl e
      | inr start' =>
          match resolve_bound stop n with
          | inl e => inl e
          | inr stop' => inr (RSlice start' stop' step)
          end
      end
  | ITensor idx => inr (RTensor idx)
  end.

(** [df.iloc[iloc]] for a list, a slice or the array of a [Tensor]: the
    frame of the selected rows. *)
Definition iloc (df0 : DataFrame) (index : RowIndex) : exn + DataFrame :=
  match index_positions (as_index index) (Pandas.len df0) with
  | inl e => inl e
  | inr ps => inr {| columns := columns df0; rows := Pandas.take ps (rows df0) |}
  end.

Definition index_select (index : IndexSelectType) : ref → M ref :=
  requires_post_materialization "index_select" (λ self,
    n ← len self;
    index ← lift (resolve_index index n);
    dataset ← copy_copy self;
    d ← get_dataset self;
    df' ← lift (iloc (df d) index);
    setattr set_df dataset df';;
    d ← get_dataset self;
    tf' ← match _tensor_frame d with
          | None => raise (TypeError NotSubscriptable)
          | Some tf => lift (TensorFrame_getitem tf (as_index index))
          end;
    setattr set_tensor_frame dataset (Some tf');;
    mret dataset).

(** Modelled from the spec: [ColumnSelectType] of [torch_frame.typing],
    the argument of [col_select]: a column name, or a sequence of column
    names, which is a reference to the caller's list. *)
Inductive ColumnSelectType :=
| CStr (col : string)
| CList (cols : ref).

Definition col_select (cols : ColumnSelectType) : ref → M ref :=
  requires_pre_materialization "col_select" (λ self,
    cols ← match cols with
           | CStr c => new_list [c]
           | CList r => mret r
           end;
    d ← get_dataset self;
    l ← get_list cols;
    match target_col d with
    | Some t => if decide (t ∈ l) then mret tt else set_list cols (l ++ [t])
    | None => mret tt
    end;;
    dataset ← copy_copy self;
    d ← get_dataset self;
    l ← get_list cols;
    df' ← lift (Pandas.getitem_list (df d) l);
    setattr set_df dataset df';;
    d ← get_dataset self;
    cts ← get_stype_dict (col_to_stype d);
    new ← for_fold l [] (λ acc col, st ← getitem col cts; mret (PyDict.set col st acc));
    r ← new_stype_dict new;
    setattr set_col_to_stype dataset r;;
    mret dataset).

(** ** The two loops of [materialize] as functions of the statistics

    Both loops touch the heap only at the dictionary [_col_stats] refers
    to.  [fill_stats] and [ttf_loop] compute, from the dictionary's content
    before a loop, the loop's outcome and the content after it. *)
Fixpoint fill_stats (df0 : DataFrame) (items : list (string * stype))
    (stats : list (string * ColStats)) : (exn + unit) * list (string * ColStats) :=
  match items with
  | [] => (inr tt, stats)
  | (col, st) :: items' =>
      match Pandas.getitem df0 col with
      | inl e => (inl e, stats)
      | inr ser =>
          match compute_col_stats ser st with
          | None => (inl (UnsupportedSemanticType st), stats)
          | Some cs => fill_stats df0 items' (PyDict.set col cs stats)
          end
      end
  end.

Definition ttf_finish (d : Dataset) (dev : option device) (acc : locals)
    (col : string) (st : stype) (mapper : TensorMapper)
    (stats : list (string * ColStats)) : (exn + locals) * list (string * ColStats) :=
  match Pandas.getitem (df d) col with
  | inl e => (inl e, stats)
  | inr ser =>
      let out := TensorMapper_forward mapper ser dev in
      (inr (if decide (Some col = target_col d)
            then {| xs_dict := xs_dict acc; names_dict := names_dict acc;
                    y_out := Some out |}
            else {| xs_dict := PyDict.append st out (xs_dict acc);
                    names_dict := PyDict.append st col (names_dict acc);
                    y_out := y_out acc |}),
       stats)
  end.

Definition ttf_step (d : Dataset) (dev : option device)
    (stats : list (string * ColStats)) (acc : locals) (item : string * stype)
    : (exn + locals) * list (string * ColStats) :=
  let '(col, st) := item in
  match st with
  | numerical => ttf_finish d dev acc col st NumericalTensorMapper stats
  | categorical =>
      match PyDict.get col stats with
      | None => (inl (KeyError col), stats)
      | Some cs =>
          match PyDict.get COUNT cs with
          | None => (inl (KeyError "StatType.COUNT"), stats)
          | Some (FloatStat _) => (inl (TypeError CannotUnpack), stats)
          | Some (CountStat index value) =>
              if decide (Some col = target_col d ∧ length index = 2)
              then
                let ser := Pandas.sort_index index value in
                ttf_finish d dev acc col st (CategoricalTensorMapper ser.1)
                  (PyDict.set col
                     (PyDict.set COUNT (CountStat ser.1 ser.2) cs) stats)
              else ttf_finish d dev acc col st (CategoricalTensorMapper index)
                     stats
          end
      end
  | other_stype _ => (inl (UnsupportedSemanticType st), stats)
  end.

Fixpoint ttf_loop (d : Dataset) (dev : option device)
    (items : list (string * stype)) (stats : list (string * ColStats))
    (acc : locals) : (exn + locals) * list (string * ColStats) :=
  match items with
  | [] => (inr acc, stats)
  | item :: items' =>
      match ttf_step d dev stats acc item with
      | (inl e, stats') => (inl e, stats')
      | (inr acc', stats') => ttf_loop d dev items' stats' acc'
      end
  end.

(** The bundle [_to_tensor_frame] builds from the loop's variables. *)
Definition bundle (acc : locals) : TensorFrame :=
  {| x_dict := (λ '(st, xs), (st, stack_dim1 xs)) <$> xs_dict acc;
     col_names_dict := names_dict acc;
     y := y_out acc |}.

Definition no_locals : locals :=
  {| xs_dict := []; names_dict := []; y_out := None |}.

(** [materialize] on a dataset that is not materialized yet, as one
    expression: what it returns or raises, and the heap it leaves. *)
Definition materialize_outcome (h : Heap) (self : ref) (d : Dataset)
    (dev : option device) (cts : list (string * stype))
    (stats : list (string * ColStats)) : (exn + ref) * Heap :=
  match fill_stats (df d) cts stats with
  | (inl e, stats1) => (inl e, with_stats h (_col_stats d) stats1)
  | (inr _, stats1) =>
      match ttf_loop d dev cts stats1 no_locals with
      | (inl e, stats2) => (inl e, with_stats h (_col_stats d) stats2)
      | (inr acc, stats2) =>
          (inr self,
           with_dataset (with_stats h (_col_stats d) stats2) self
             (set_is_materialized (set_tensor_frame d (Some (bundle acc)))
                true))
      end
  end.

(** ** Well-formed datasets

    What [Dataset_init] establishes and the methods keep: the two
    dictionary references name objects of the heap, the keys of
    [col_to_stype] are distinct (they are the keys of a [dict]) and are
    columns of the frame, and the target is one of them. *)
Record wf (h : Heap) (d : Dataset) (cts : list (string * stype)) : Prop := {
  wf_col_to_stype : stype_dicts h !! col_to_stype d = Some cts;
  wf_col_stats : is_Some (stats_dicts h !! _col_stats d);
  wf_keys : NoDup (PyDict.keys cts);
  wf_columns : ∀ c, c ∈ PyDict.keys cts → c ∈ columns (df d);
  wf_target : ∀ t, target_col d = Some t → t ∈ PyDict.keys cts;
}.

(** The dictionary has a (categories, counts) pair for column [c]. *)
Definition has_count (stats : list (string * ColStats)) (c : string) : Prop :=
  ∃ cs index value,
    PyDict.get c stats = Some cs ∧
    PyDict.get COUNT cs = Some (CountStat index value).

(** ** [index_select] and [col_select] as functions of the heap *)

(** [index_select] on a materialized dataset, as one expression. *)
Definition index_select_outcome (h : Heap) (d : Dataset)
    (index : IndexSelectType) : (exn + ref) * Heap :=
  match resolve_index index (Pandas.len (df d)) with
  | inl e => (inl e, h)
  | inr index' =>
      match iloc (df d) index' with
      | inl e => (inl e, add_dataset h d)
      | inr df' =>
          match _tensor_frame d with
          | None =>
              (inl (TypeError NotSubscriptable), add_dataset h (set_df d df'))
          | Some tf =>
              match TensorFrame_getitem tf (as_index index') with
              | inl e => (inl e, add_dataset h (set_df d df'))
              | inr tf' =>
                  (inr (length (datasets h)),
                   add_dataset h
                     (set_tensor_frame (set_df d df') (Some tf')))
              end
          end
      end
  end.

(** Every tensor of the bundle has [n] rows. *)
Definition aligned (tf : TensorFrame) (n : nat) : Prop :=
  Forall (λ sx, length sx.2 = n) (x_dict tf) ∧
  (∀ t, y tf = Some t → length t = n).

(** The loop variables of [_to_tensor_frame] hold column tensors of [n]
    rows, at least one per semantic type that has an entry. *)
Definition locals_aligned (n : nat) (acc : locals) : Prop :=
  Forall (λ sx, sx.2 ≠ [] ∧ Forall (λ x, length x = n) sx.2) (xs_dict acc) ∧
  (∀ t, y_out acc = Some t → length t = n).

(** The bundle whose tensors are the rows at the positions [ps]. *)
Definition select_rows (ps : list nat) (tf : TensorFrame) : TensorFrame :=
  {| x_dict := (λ sx, (sx.1, Pandas.take ps sx.2)) <$> x_dict tf;
     col_names_dict := col_names_dict tf;
     y := Pandas.take ps <$> y tf |}.

(** The bundle's tensors cut down to their first [k] rows. *)
Definition first_rows (k : nat) (tf : TensorFrame) : TensorFrame :=
  {| x_dict := (λ sx, (sx.1, take k sx.2)) <$> x_dict tf;
     col_names_dict := col_names_dict tf;
     y := take k <$> y tf |}.

(** Two instances hold a reference to one and the same dictionary. *)
Definition shares_mutable_state (d1 d2 : Dataset) : Prop :=
  col_to_stype d1 = col_to_stype d2 ∨ _col_stats d1 = _col_stats d2.

(** The dictionary comprehension of [col_select],
    [{col: self.col_to_stype[col] for col in cols}]. *)
Fixpoint project (cts : list (string * stype)) (cols : list string)
    (acc : list (string * stype)) : exn + list (string * stype) :=
  match cols with
  | [] => inr acc
  | c :: cols' =>
      match PyDict.get c cts with
      | None => inl (KeyError c)
      | Some st => project cts cols' (PyDict.set c st acc)
      end
  end.

(** The list [cols] names once the target has been appended to it. *)
Definition with_target (target : option string) (cols : list string)
    : list string :=
  match target with
  | Some t => if decide (t ∈ cols) then cols else cols ++ [t]
  | None => cols
  end.

(** [col_select] on a dataset that is not materialized, once [cols] is a
    reference [r] to a list with content [cols], as one expression. *)
Definition col_select_outcome (h : Heap) (d : Dataset)
    (cts : list (string * stype)) (r : ref) (cols : list string)
    : (exn + ref) * Heap :=
  let l := with_target (target_col d) cols in
  let h1 := with_list h r l in
  match Pandas.getitem_list (df d) l with
  | inl e => (inl e, add_dataset h1 d)
  | inr df' =>
      match project cts l [] with
      | inl e => (inl e, add_dataset h1 (set_df d df'))
      | inr cts' =>
          (inr (length (datasets h)),
           add_stype_dict
             (add_dataset h1
                (set_col_to_stype (set_df d df') (length (stype_dicts h))))
             cts')
      end
  end.

(** The columns a [col_select] argument asks for. *)
Definition arg_columns (h : Heap) (arg : ColumnSelectType)
    : option (list string) :=
  match arg with
  | CStr c => Some [c]
  | CList r => str_lists h !! r
  end.

End dataset.

(** ** The rest of the class: [__getitem__] and [shuffle] *)
Section dataset_more.
Context `{Collaborators}.

(** The key of [__getitem__]: a [str], a list of [str] (a reference to the
    caller's list, which may be empty), or an index of rows. *)
Inductive GetItemKey :=
| KStr (col : string)
| KStrList (cols : ref)
| KIndex (index : IndexSelectType).

(** [__getitem__]: a string, or a list that is not empty and starts with a
    string, selects columns; every other key, the empty list included,
    selects rows. *)
Definition Dataset_getitem (key : GetItemKey) (self : ref) : M ref :=
  match key with
  | KStr c => col_select (CStr c) self
  | KStrList r =>
      l ← get_list r;
      if decide (0 < length l) then col_select (CList r) self
      else index_select (IList []) self
  | KIndex index => index_select index self
  end.

(** [shuffle].  [perm] is the tensor [torch.randperm(len(self))] has
    drawn; the result is the dataset, with the permutation when
    [return_perm] is [True]. *)
Definition shuffle (perm : list Z) (return_perm : bool) (self : ref)
    : M (ref * option (list Z)) :=
  _ ← len self;
  dataset ← index_select (ITensor perm) self;
  mret (dataset, if return_perm then Some perm else None).

(** The names of the feature columns of semantic type [st], in the order
    of [col_to_stype]: every column of that type but the target. *)
Definition feature_names (cts : list (string * stype)) (target : option string)
    (st : stype) : list string :=
  (filter (λ item, item.2 = st ∧ Some item.1 ≠ target) cts).*1.

(** A list as the value of a [defaultdict(list)] entry: no entry for the
    empty list. *)
Definition entry {A : Type} (l : list A) : option (list A) :=
  match l with
  | [] => None
  | _ => Some l
  end.

(** Two dictionaries with the same keys in the same order, whose lists
    under a key are equally long. *)
Definition paired {A B : Type} (xd : list (stype * list A))
    (nd : list (stype * list B)) : Prop :=
  Forall2 (λ a b, a.1 = b.1 ∧ length a.2 = length b.2) xd nd.

(** The bundle's tensors without their first [k] rows. *)
Definition drop_rows (k : nat) (tf : TensorFrame) : TensorFrame :=
  {| x_dict := (λ sx, (sx.1, drop k sx.2)) <$> x_dict tf;
     col_names_dict := col_names_dict tf;
     y := drop k <$> y tf |}.

(** Where a slice bound [k] falls in a sequence of [n] elements: counted
    from the end if negative, and clipped to the sequence. *)
Definition clip (k : Z) (n : nat) : nat :=
  Z.to_nat (if (k <? 0)%Z then Z.max (k + Z.of_nat n) 0
            else Z.min k (Z.of_nat n)).

End dataset_more.

(** ** Reference collaborators

    Modelled from the spec: an implementation of the collaborators, whose
    code is in [torch_frame.data.stats] and [torch_frame.data.mapper], for
    running the methods on examples.  A column is read as values of one
    type: its ints if it holds ints only, and else the [str] of each of
    its values.  The statistics of a categorical column are its distinct
    values and their numbers of occurrences, most frequent first; a
    numerical column has its mean; no other type has a calculator.  The
    numerical mapper casts each value to a float; the categorical mapper
    gives each value its position in the categories and the reserved
    index [-1] to a value that is not among them. *)
Module Reference.
(** An element of a column tensor. *)
Inductive elem :=
| Float (x : spec_float)
| Long (i : Z).

(** The integer a string of decimal digits denotes. *)
Fixpoint parse_digits (acc : Z) (s : string) : Z :=
  match s with
  | EmptyString => acc
  | String a s' =>
      parse_digits (10 * acc + (Z.of_nat (Ascii.nat_of_ascii a) - 48))%Z s'
  end.

Definition to_float (c : cell) : spec_float :=
  match c with
  | PyInt i => PyFloat.of_int i
  | PyStr s => PyFloat.of_int (parse_digits 0 s)
  end.

(** [str(c)]. *)
Definition str (c : cell) : string :=
  match c with
  | PyInt i => pretty.pretty i
  | PyStr s => s
  end.

(** The ints of a column that holds ints only. *)
Fixpoint ints (ser : Series) : option (list Z) :=
  match ser with
  | [] => Some []
  | PyInt i :: ser' => cons i <$> ints ser'
  | PyStr _ :: _ => None
  end.

(** The column as values of one type. *)
Definition column (ser : Series) : Labels :=
  match ints ser with
  | Some values => IntLabels values
  | None => StrLabels (str <$> ser)
  end.

(** [ser.value_counts()]: the distinct values in order of first
    occurrence with their counts, then most frequent first. *)
Fixpoint bump {A : Type} `{EqDecision A} (c : A) (counts : list (A * Z))
    : list (A * Z) :=
  match counts with
  | [] => [(c, 1%Z)]
  | (c', n) :: counts' =>
      if decide (c = c') then (c', (n + 1)%Z) :: counts'
      else (c', n) :: bump c counts'
  end.

Fixpoint insert_desc {A : Type} (x : A * Z) (l : list (A * Z))
    : list (A * Z) :=
  match l with
  | [] => [x]
  | y :: l' =>
      if (snd y <? snd x)%Z then x :: y :: l' else y :: insert_desc x l'
  end.

Definition value_counts {A : Type} `{EqDecision A} (ser : list A)
    : list (A * Z) :=
  foldr insert_desc [] (foldl (λ counts c, bump c counts) [] ser).

Definition mean (ser : Series) : spec_float :=
  SFdiv PyFloat.prec PyFloat.emax
    (foldl (λ acc c, SFadd PyFloat.prec PyFloat.emax acc (to_float c))
       (S754_zero false) ser)
    (PyFloat.of_int (Z.of_nat (length ser))).

Definition count (ser : Series) : StatValue :=
  match column ser with
  | IntLabels values =>
      let counts := value_counts values in
      CountStat (IntLabels counts.*1) counts.*2
  | StrLabels values =>
      let counts := value_counts values in
      CountStat (StrLabels counts.*1) counts.*2
  end.

Definition stats (ser : Series) (st : stype) : option ColStats :=
  match st with
  | numerical => Some [(MEAN, FloatStat (mean ser))]
  | categorical => Some [(COUNT, count ser)]
  | other_stype _ => None
  end.

Definition numerical_forward (ser : Series) (dev : option device) : list elem :=
  (λ c, Float (to_float c)) <$> ser.

Fixpoint index_of (c : cell) (categories : list cell) : option Z :=
  match categories with
  | [] => None
  | c' :: categories' =>
      if decide (c = c') then Some 0%Z
      else Z.succ <$> index_of c categories'
  end.

Definition categorical_forward (categories : Labels) (ser : Series)
    (dev : option device) : list elem :=
  (λ c, Long (default (-1)%Z (index_of c categories)))
    <$> Labels_tolist (column ser).
End Reference.

(** The reference functions satisfy the laws of the interface. *)

Lemma Reference_stats_supported ser st :
  supported st = true → is_Some (Reference.stats ser st).
Proof. destruct st; by eauto. Qed.

Lemma Reference_stats_COUNT ser cs :
  Reference.stats ser categorical = Some cs →
  ∃ index value,
    PyDict.get COUNT cs = Some (CountStat index value) ∧
    length index = length value.
Proof.
  intros [= <-]. unfold Reference.count.
  destruct (Reference.column ser) as [values|values];
    eexists _, _; (split; [done|]); simpl; by rewrite !length_fmap.
Qed.

Lemma Reference_numerical_forward_length ser dev :
  length (Reference.numerical_forward ser dev) = length ser.
Proof. apply length_fmap. Qed.

Lemma Reference_ints_length ser values :
  Reference.ints ser = Some values → length values = length ser.
Proof.
  revert values. induction ser as [|[i|s] ser IH]; intros values; simpl.
  - by intros [= <-].
  - destruct (Reference.ints ser) as [values'|]; [|done].
    intros [= <-]. simpl. f_equal. by apply IH.
  - done.
Qed.

Lemma Reference_categorical_forward_length categories ser dev :
  length (Reference.categorical_forward categories ser dev) = length ser.
Proof.
  unfold Reference.categorical_forward, Reference.column.
  rewrite length_fmap.
  destruct (Reference.ints ser) as [values|] eqn:Hints; simpl;
    rewrite !length_fmap; [by apply Reference_ints_length|done].
Qed.

Global Instance reference_collaborators : Collaborators := {|
  telem := Reference.elem;
  compute_col_stats := Reference.stats;
  NumericalTensorMapper_forward := Reference.numerical_forward;
  CategoricalTensorMapper_forward := Reference.categorical_forward;
  NumericalTensorMapper_forward_length := Reference_numerical_forward_length;
  CategoricalTensorMapper_forward_length :=
    Reference_categorical_forward_length;
  compute_col_stats_supported := Reference_stats_supported;
  compute_col_stats_COUNT := Reference_stats_COUNT;
|}.

(** A second implementation, for which no type lacks a calculator: a
    type other than the two known ones has no statistics.  With it, an
    unsupported type is met by [_to_tensor_frame] only. *)
Definition lenient_stats (ser : Series) (st : stype) : option ColStats :=
  match st with
  | other_stype _ => Some []
  | _ => Reference.stats ser st
  end.

Lemma lenient_stats_supported ser st :
  supported st = true → is_Some (lenient_stats ser st).
Proof. destruct st; by eauto. Qed.

Lemma lenient_stats_COUNT ser cs :
  lenient_stats ser categorical = Some cs →
  ∃ index value,
    PyDict.get COUNT cs = Some (CountStat index value) ∧
    length index = length value.
Proof. apply Reference_stats_COUNT. Qed.

Definition lenient_collaborators : Collaborators := {|
  telem := Reference.elem;
  compute_col_stats := lenient_stats;
  NumericalTensorMapper_forward := Reference.numerical_forward;
  CategoricalTensorMapper_forward := Reference.categorical_forward;
  NumericalTensorMapper_forward_length := Reference_numerical_forward_length;
  CategoricalTensorMapper_forward_length :=
    Reference_categorical_forward_length;
  compute_col_stats_supported := lenient_stats_supported;
  compute_col_stats_COUNT := lenient_stats_COUNT;
|}.

(** ** Example tables

    The datasets the claims are run on below. *)

(** The scenario of the specification: three rows, a numerical and a
    categorical feature and a binary target. *)
Definition people : DataFrame :=
  {| columns := ["age"; "city"; "label"];
     rows := [[PyInt 25; PyStr "NY"; PyInt 0];
              [PyInt 30; PyStr "LA"; PyInt 1];
              [PyInt 45; PyStr "NY"; PyInt 0]] |}.

Definition people_types : list (string * stype) :=
  [("age", numerical); ("city", categorical); ("label", categorical)].

(** A heap holding only the caller's [col_to_stype] dictionary. *)
Definition heap_of (cts : list (string * stype)) : Heap :=
  {| str_lists := []; stype_dicts := [cts]; stats_dicts := []; datasets := [] |}.

Definition people_new : (exn + ref) * Heap :=
  Eval vm_compute in
    Dataset_init people 0 (Some "label") (heap_of people_types).

Definition people_materialized : (exn + ref) * Heap :=
  Eval vm_compute in
    (Dataset_init people 0 (Some "label") ≫= λ ds, materialize ds None)
      (heap_of people_types).

(** A table whose target has its more frequent category last in the
    order of strings. *)
Definition answers : DataFrame :=
  {| columns := ["age"; "answer"];
     rows := [[PyInt 25; PyStr "yes"]; [PyInt 30; PyStr "no"];
              [PyInt 45; PyStr "yes"]] |}.

Definition answers_types : list (string * stype) :=
  [("age", numerical); ("answer", categorical)].

Definition answers_new : (exn + ref) * Heap :=
  Eval vm_compute in
    Dataset_init answers 0 (Some "answer") (heap_of answers_types).

(** A table whose target has the int categories 10 and 2, the first the
    more frequent. *)
Definition scores : DataFrame :=
  {| columns := ["age"; "score"];
     rows := [[PyInt 25; PyInt 10]; [PyInt 30; PyInt 2]; [PyInt 45; PyInt 10]] |}.

Definition scores_types : list (string * stype) :=
  [("age", numerical); ("score", categorical)].

Definition scores_new : (exn + ref) * Heap :=
  Eval vm_compute in
    Dataset_init scores 0 (Some "score") (heap_of scores_types).

(** A table with a column of a type that has no mapper. *)
Definition notes_types : list (string * stype) :=
  [("age", numerical); ("city", other_stype "text_embedded");
   ("label", categorical)].

Definition notes_new : (exn + ref) * Heap :=
  Eval vm_compute in
    Dataset_init people 0 (Some "label") (heap_of notes_types).

(** A table of ten rows. *)
Definition ten : DataFrame :=
  Eval vm_compute in
    {| columns := ["x"; "y"];
       rows := (λ i, [PyInt (Z.of_nat i);
                      PyStr (if Nat.even i then "a" else "b")])
                 <$> seq 0 10 |}.

Definition ten_types : list (string * stype) :=
  [("x", numerical); ("y", categorical)].

Definition ten_materialized : (exn + ref) * Heap :=
  Eval vm_compute in
    (Dataset_init ten 0 (Some "y") ≫= λ ds, materialize ds None)
      (heap_of ten_types).

(** The instance a constructor call leaves in the heap. *)
Definition fresh_dataset (df0 : DataFrame) (target : string) : Dataset :=
  {| df := df0; col_to_stype := 0; target_col := Some target;
     _is_materialized := false; _col_stats := 0; _tensor_frame := None |}.

(** The materialized ten-row dataset and its bundle. *)
Definition ten_dataset : Dataset :=
  Eval vm_compute in
    default (fresh_dataset ten "y") (datasets ten_materialized.2 !! 0).

Definition ten_bundle : TensorFrame :=
  Eval vm_compute in
    default {| x_dict := []; col_names_dict := []; y := None |}
      (_tensor_frame ten_dataset).

(** The dataset [people], materialized, and its heap after
    [index_select([0])]. *)
Definition people_dataset : Dataset :=
  Eval vm_compute in
    default (fresh_dataset people "label") (datasets people_materialized.2 !! 0).

Definition people_selected : (exn + ref) * Heap :=
  Eval vm_compute in index_select (IList [0%Z]) 0 people_materialized.2.

(** The heap of [people] with a list the caller holds. *)
Definition people_with_list : Heap :=
  Eval vm_compute in add_list people_new.2 ["age"].

(** [people] after [col_select] with the caller's list. *)
Definition people_projected : (exn + ref) * Heap :=
  Eval vm_compute in col_select (CList 0) 0 people_with_list.

(** The heap of [people] with a list of all the columns, and with a list
    that names a column there is none of. *)
Definition people_with_all : Heap :=
  Eval vm_compute in add_list people_new.2 ["age"; "city"; "label"].

Definition people_with_unknown : Heap :=
  Eval vm_compute in add_list people_new.2 ["age"; "height"].

(** [ten] after [index_select([3, 3, -1])], and after
    [index_select([2, 0])] on the result of that. *)
Definition ten_selected : (exn + ref) * Heap :=
  Eval vm_compute in index_select (IList [3; 3; -1]%Z) 0 ten_materialized.2.

Definition ten_selected_twice : (exn + ref) * Heap :=
  Eval vm_compute in index_select (IList [2; 0]%Z) 1 ten_selected.2.

(** The heaps of [ten], materialized, and of [people], not materialized,
    with an empty list the caller holds, and the first with a list of one
    column. *)
Definition ten_with_empty : Heap :=
  Eval vm_compute in add_list ten_materialized.2 [].

Definition people_with_empty : Heap :=
  Eval vm_compute in add_list people_new.2 [].

Definition ten_with_list : Heap :=
  Eval vm_compute in add_list ten_materialized.2 ["x"].
(** * Facts *)

Section dict_facts.
Context {K V : Type} `{EqDecision K}.
Implicit Types (k : K) (v : V) (d : list (K * V)).

Lemma dict_get_set_eq k v d : PyDict.get k (PyDict.set k v d) = Some v.
Proof.
  induction d as [|[k' v'] d IH]; simpl.
  - by rewrite decide_True.
  - destruct (decide (k = k')) as [->|Hne]; simpl.
    + by rewrite decide_True.
    + by rewrite decide_False.
Qed.

Lemma dict_get_set_ne k k' v d :
  k ≠ k' → PyDict.get k' (PyDict.set k v d) = PyDict.get k' d.
Proof.
  intros Hne. induction d as [|[k0 v0] d IH]; simpl.
  - by rewrite decide_False.
  - destruct (decide (k = k0)) as [->|Hne0]; simpl.
    + by rewrite !decide_False.
    + by rewrite IH.
Qed.

Lemma dict_get_Some_keys k v d : PyDict.get k d = Some v → k ∈ PyDict.keys d.
Proof.
  induction d as [|[k0 v0] d IH]; simpl; [done|].
  destruct (decide (k = k0)) as [->|Hne]; intros Hg.
  - apply list_elem_of_here.
  - apply list_elem_of_further. by apply IH.
Qed.

Lemma dict_get_elem_of k v d :
  NoDup (PyDict.keys d) → (k, v) ∈ d → PyDict.get k d = Some v.
Proof.
  induction d as [|[k0 v0] d IH]; simpl; intros Hnd Hin.
  - by apply elem_of_nil in Hin.
  - apply NoDup_cons in Hnd as [Hk0 Hnd].
    apply elem_of_cons in Hin as [[= -> ->]|Hin].
    + by rewrite decide_True.
    + rewrite decide_False; [by apply IH|].
      intros ->. apply Hk0. unfold PyDict.keys in *.
      apply list_elem_of_fmap. by exists (k0, v).
Qed.

Lemma dict_get_Some_elem_of k v d : PyDict.get k d = Some v → (k, v) ∈ d.
Proof.
  induction d as [|[k0 v0] d IH]; simpl; [done|].
  destruct (decide (k = k0)) as [->|Hne]; intros Hg.
  - injection Hg as ->. apply list_elem_of_here.
  - apply list_elem_of_further. by apply IH.
Qed.

Lemma dict_keys_set_elem_of k k' v d :
  k' ∈ PyDict.keys (PyDict.set k v d) ↔ k' = k ∨ k' ∈ PyDict.keys d.
Proof.
  unfold PyDict.keys.
  induction d as [|[k0 v0] d IH]; simpl.
  - rewrite list_elem_of_singleton. rewrite elem_of_nil. tauto.
  - destruct (decide (k = k0)) as [->|Hne]; simpl.
    + rewrite !elem_of_cons. tauto.
    + rewrite !elem_of_cons, IH. tauto.
Qed.
End dict_facts.

(** ** Python's [round], slices and positional indexers on examples *)

Example half_is_a_half : PyFloat.half = PyFloat.dyadic 1 (-1).
Proof. vm_compute. reflexivity. Qed.

(** [round(0.5) == 0], [round(1.5) == 2], [round(2.5) == 2],
    [round(-3.5) == -4], [round(2.75) == 3]. *)
Example round_ties_to_even :
  PyFloat.round (PyFloat.dyadic 1 (-1)) = inr 0%Z ∧
  PyFloat.round (PyFloat.dyadic 3 (-1)) = inr 2%Z ∧
  PyFloat.round (PyFloat.dyadic 5 (-1)) = inr 2%Z ∧
  PyFloat.round (PyFloat.dyadic (-7) (-1)) = inr (-4)%Z ∧
  PyFloat.round (PyFloat.dyadic 11 (-2)) = inr 3%Z.
Proof. vm_compute. repeat split. Qed.

(** [round(0.15 * 10) == 2]: the float [0.15] is below 3/20, but its
    product with 10 rounds to the float [1.5]. *)
Example round_of_float_product :
  PyFloat.round (PyFloat.mul_int (S754_finite false 5404319552844595 (-55)) 10)
    = inr 2%Z.
Proof. vm_compute. reflexivity. Qed.

(** [list(range(5))[1::2]], [[-2:]], [[:-1]], [[::-1]], [[7:9]] and
    [[3:1:-1]]. *)
Example slices_of_five :
  PySlice.positions (Some 1%Z) None (Some 2%Z) 5 = inr [1; 3] ∧
  PySlice.positions (Some (-2)%Z) None None 5 = inr [3; 4] ∧
  PySlice.positions None (Some (-1)%Z) None 5 = inr [0; 1; 2; 3] ∧
  PySlice.positions None None (Some (-1)%Z) 5 = inr [4; 3; 2; 1; 0] ∧
  PySlice.positions (Some 7%Z) (Some 9%Z) None 5 = inr [] ∧
  PySlice.positions (Some 3%Z) (Some 1%Z) (Some (-1)%Z) 5 = inr [3; 2] ∧
  PySlice.positions None None (Some 0%Z) 5 = inl (ValueError SliceStepZero).
Proof. vm_compute. repeat split. Qed.

(** [df.iloc[[0, -1, 2]]] on three rows, and an index out of bounds. *)
Example positions_of_three :
  Pandas.positions 3 [0; -1; 2]%Z = inr [0; 2; 2] ∧
  Pandas.positions 3 [0; 3]%Z = inl (IndexError OutOfBounds) ∧
  Pandas.positions 3 [-4]%Z = inl (IndexError OutOfBounds).
Proof. vm_compute. repeat split. Qed.

(** [pd.Series(index=["yes", "no"], data=[2, 1]).sort_index()], and the
    same with the int labels 10 and 2. *)
Example sort_index_yes_no :
  Pandas.sort_index (StrLabels ["yes"; "no"]) [2; 1]%Z
    = (StrLabels ["no"; "yes"], [1; 2]%Z) ∧
  Pandas.sort_index (IntLabels [10; 2]%Z) [2; 1]%Z
    = (IntLabels [2; 10]%Z, [1; 2]%Z) ∧
  Pandas.sort_index (StrLabels ["10"; "2"]) [2; 1]%Z
    = (StrLabels ["10"; "2"], [2; 1]%Z).
Proof. repeat split. Qed.

(** ** [sort_index] sorts *)

Section sort_pairs.
Context {A : Type} (leb : A → A → bool).
Hypothesis leb_total : ∀ a b, leb a b = true ∨ leb b a = true.

Lemma insert_sorted_Permutation x l : Pandas.insert_sorted leb x l ≡ₚ x :: l.
Proof.
  induction l as [|y l IH]; simpl; [done|].
  destruct (leb x.1 y.1); [done|].
  rewrite IH. apply Permutation_swap.
Qed.

Lemma sort_pairs_Permutation l : Pandas.sort_pairs leb l ≡ₚ l.
Proof.
  induction l as [|x l IH]; simpl; [done|].
  unfold Pandas.sort_pairs in IH. by rewrite insert_sorted_Permutation, IH.
Qed.

Lemma insert_sorted_HdRel x y l :
  leb y.1 x.1 = true →
  HdRel (λ a b, leb a.1 b.1 = true) y l →
  HdRel (λ a b, leb a.1 b.1 = true) y (Pandas.insert_sorted leb x l).
Proof.
  intros Hyx Hl. destruct l as [|z l]; simpl.
  - by constructor.
  - destruct (leb x.1 z.1); constructor; [done|].
    by inversion Hl.
Qed.

Lemma insert_sorted_Sorted x l :
  Sorted (λ a b, leb a.1 b.1 = true) l →
  Sorted (λ a b, leb a.1 b.1 = true) (Pandas.insert_sorted leb x l).
Proof.
  induction 1 as [|y l Hl IH Hhd]; simpl.
  - by repeat constructor.
  - destruct (leb x.1 y.1) eqn:Hxy.
    + constructor; [by constructor|]. by constructor.
    + constructor; [done|]. apply insert_sorted_HdRel; [|done].
      destruct (leb_total x.1 y.1); congruence.
Qed.

Lemma sort_pairs_Sorted l :
  Sorted (λ a b, leb a.1 b.1 = true) (Pandas.sort_pairs leb l).
Proof.
  induction l as [|x l IH]; simpl; [constructor|].
  by apply insert_sorted_Sorted.
Qed.

Lemma Sorted_labels (l : list (A * Z)) :
  Sorted (λ a b, leb a.1 b.1 = true) l → Sorted (λ a b, leb a b = true) l.*1.
Proof.
  induction 1 as [|y l Hl IH Hhd]; simpl; constructor; [done|].
  destruct Hhd; simpl; by constructor.
Qed.
End sort_pairs.

Lemma Sorted_fmap_labels {A : Type} (f : A → cell) (leb : A → A → bool)
    (l : list A) :
  (∀ a b, leb a b = true → cell_le (f a) (f b)) →
  Sorted (λ a b, leb a b = true) l → Sorted cell_le (f <$> l).
Proof.
  intros Hle. induction 1 as [|y l Hl IH Hhd]; simpl; constructor; [done|].
  destruct Hhd; simpl; constructor. by apply Hle.
Qed.

Lemma zip_fmap_labels {A : Type} (f : A → cell) (l : list (A * Z)) :
  zip (f <$> l.*1) l.*2 = prod_map f id <$> l.
Proof.
  induction l as [|[a z] l IH]; [done|].
  cbn [fmap list_fmap fst snd zip zip_with prod_map] in *. by rewrite IH.
Qed.

Lemma zip_fmap_l {A : Type} (f : A → cell) (l : list A) (value : list Z) :
  zip (f <$> l) value = prod_map f id <$> zip l value.
Proof.
  revert value. induction l as [|a l IH]; intros [|z value]; [done..|].
  cbn [fmap list_fmap zip zip_with prod_map fst snd] in *.
  f_equal. apply IH.
Qed.

(** What [sort_index] gives: the same pairs, the labels ascending. *)
Lemma sort_index_Permutation (index : Labels) value :
  zip (Pandas.sort_index index value).1 (Pandas.sort_index index value).2
    ≡ₚ zip index value.
Proof.
  destruct index as [labels|labels]; simpl;
    rewrite zip_fmap_labels, zip_fmap_l;
    apply fmap_Permutation, sort_pairs_Permutation.
Qed.

Lemma sort_index_Sorted (index : Labels) value :
  Sorted cell_le (Pandas.sort_index index value).1.
Proof.
  destruct index as [labels|labels]; simpl.
  - apply (Sorted_fmap_labels PyInt Z.leb); [intros a b; simpl; lia|].
    apply Sorted_labels, sort_pairs_Sorted. intros a b. lia.
  - apply (Sorted_fmap_labels PyStr String.leb); [by intros a b|].
    apply Sorted_labels, sort_pairs_Sorted. intros a b.
    destruct (String.leb_total a b); auto.
Qed.

Lemma sort_index_length (index : Labels) value :
  length index = length value →
  length (Pandas.sort_index index value).1 = length index.
Proof.
  intros Hlen. destruct index as [labels|labels]; simpl in *;
    rewrite !length_fmap in *;
    rewrite (Permutation_length (sort_pairs_Permutation _ _));
    by rewrite length_zip_with_l_eq.
Qed.

Section dataset_facts.
Context `{Collaborators}.

(** ** Reasoning about computations *)

Lemma bind_run {A B : Type} (c : M A) (f : A → M B) h x h' :
  c h = (inr x, h') → (c ≫= f) h = f x h'.
Proof. intros Hc. unfold mbind, M_bind. by rewrite Hc. Qed.

Lemma bind_raise {A B : Type} (c : M A) (f : A → M B) h e h' :
  c h = (inl e, h') → (c ≫= f) h = (inl e, h').
Proof. intros Hc. unfold mbind, M_bind. by rewrite Hc. Qed.

Lemma bind_inr {A B : Type} (c : M A) (f : A → M B) h y h' :
  (c ≫= f) h = (inr y, h') →
  ∃ x h1, c h = (inr x, h1) ∧ f x h1 = (inr y, h').
Proof.
  unfold mbind, M_bind. destruct (c h) as [[e|x] h1]; [done|]. eauto.
Qed.

Lemma get_dataset_run h self d :
  datasets h !! self = Some d → get_dataset self h = (inr d, h).
Proof. intros Hd. unfold get_dataset, deref. by rewrite Hd. Qed.

Lemma get_dataset_inr h self d h' :
  get_dataset self h = (inr d, h') → datasets h !! self = Some d ∧ h' = h.
Proof.
  unfold get_dataset, deref.
  destruct (datasets h !! self); [by intros [= -> ->]|done].
Qed.

Lemma is_materialized_run h self d :
  datasets h !! self = Some d →
  is_materialized self h = (inr (_is_materialized d), h).
Proof.
  intros Hd. unfold is_materialized.
  by rewrite (bind_run _ _ _ _ _ (get_dataset_run _ _ _ Hd)).
Qed.

Lemma with_stats_id h r d : stats_dicts h !! r = Some d → with_stats h r d = h.
Proof.
  intros Hd. destruct h. unfold with_stats. simpl in *.
  by rewrite list_insert_id.
Qed.

Lemma with_stats_twice h r d d' :
  with_stats (with_stats h r d) r d' = with_stats h r d'.
Proof. unfold with_stats. simpl. by rewrite list_insert_insert_eq. Qed.

Lemma with_stats_lookup h r d d' :
  stats_dicts h !! r = Some d → stats_dicts (with_stats h r d') !! r = Some d'.
Proof.
  intros Hd. simpl. apply list_lookup_insert_eq. by eapply lookup_lt_Some.
Qed.

(** The guards, run. *)
Lemma requires_post_run {A : Type} name (func : ref → M A) h self d :
  datasets h !! self = Some d →
  requires_post_materialization name func self h =
    if _is_materialized d then func self h
    else (inl (NotMaterializedError name), h).
Proof.
  intros Hd. unfold requires_post_materialization.
  rewrite (bind_run _ _ _ _ _ (is_materialized_run _ _ _ Hd)).
  by destruct (_is_materialized d).
Qed.

Lemma requires_pre_run {A : Type} name (func : ref → M A) h self d :
  datasets h !! self = Some d →
  requires_pre_materialization name func self h =
    if _is_materialized d then (inl (AlreadyMaterializedError name), h)
    else func self h.
Proof.
  intros Hd. unfold requires_pre_materialization.
  rewrite (bind_run _ _ _ _ _ (is_materialized_run _ _ _ Hd)).
  by destruct (_is_materialized d).
Qed.

Lemma materialize_materialized h self d dev :
  datasets h !! self = Some d → _is_materialized d = true →
  materialize self dev h = (inr self, h).
Proof.
  intros Hd Hm. unfold materialize.
  rewrite (bind_run _ _ _ _ _ (is_materialized_run _ _ _ Hd)).
  by rewrite Hm.
Qed.

Lemma get_stats_dict_run h r stats :
  stats_dicts h !! r = Some stats → get_stats_dict r h = (inr stats, h).
Proof. intros Hs. unfold get_stats_dict, deref. by rewrite Hs. Qed.

Lemma materialize_body_run d item h stats :
  stats_dicts h !! _col_stats d = Some stats →
  materialize_body d item h =
    ((fill_stats (df d) [item] stats).1,
     with_stats h (_col_stats d) (fill_stats (df d) [item] stats).2).
Proof.
  intros Hs. destruct item as [col st]. unfold materialize_body. simpl.
  unfold mbind, M_bind, lift.
  destruct (Pandas.getitem (df d) col) as [e|ser]; simpl.
  { by rewrite with_stats_id. }
  unfold call_compute_col_stats.
  destruct (compute_col_stats ser st) as [cs|]; simpl.
  - by rewrite (get_stats_dict_run _ _ _ Hs).
  - by rewrite with_stats_id.
Qed.

Lemma fill_stats_cons df0 item items stats :
  fill_stats df0 (item :: items) stats =
    match fill_stats df0 [item] stats with
    | (inl e, stats') => (inl e, stats')
    | (inr _, stats') => fill_stats df0 items stats'
    end.
Proof.
  destruct item as [col st]. simpl.
  destruct (Pandas.getitem df0 col); [done|].
  by destruct (compute_col_stats _ _).
Qed.

Lemma for_each_materialize_body d items : ∀ h stats,
  stats_dicts h !! _col_stats d = Some stats →
  for_each items (materialize_body d) h =
    ((fill_stats (df d) items stats).1,
     with_stats h (_col_stats d) (fill_stats (df d) items stats).2).
Proof.
  induction items as [|item items IH]; intros h stats Hs.
  { simpl. by rewrite with_stats_id. }
  rewrite fill_stats_cons. cbn [for_each]. unfold mbind, M_bind.
  rewrite (materialize_body_run _ _ _ _ Hs).
  destruct (fill_stats (df d) [item] stats) as [[e|[]] stats1]; [done|].
  cbn [fst snd].
  rewrite (IH _ stats1) by by eapply with_stats_lookup.
  by rewrite with_stats_twice.
Qed.

Lemma forward_and_route_run d dev acc col st mapper (h : Heap) stats :
  forward_and_route d dev acc col st mapper h =
    ((ttf_finish d dev acc col st mapper stats).1, h) ∧
  (ttf_finish d dev acc col st mapper stats).2 = stats.
Proof.
  unfold forward_and_route, ttf_finish, mbind, M_bind, lift.
  destruct (Pandas.getitem (df d) col) as [e|ser]; [done|]. simpl.
  by destruct (decide (Some col = target_col d)).
Qed.

Lemma _to_tensor_frame_body_run d dev acc item h stats :
  stats_dicts h !! _col_stats d = Some stats →
  _to_tensor_frame_body d dev acc item h =
    ((ttf_step d dev stats acc item).1,
     with_stats h (_col_stats d) (ttf_step d dev stats acc item).2).
Proof.
  intros Hs. destruct item as [col st].
  pose proof (with_stats_id _ _ _ Hs) as Hid.
  unfold _to_tensor_frame_body, ttf_step.
  destruct st as [| |v].
  - unfold mbind, M_bind, mret, M_ret.
    destruct (forward_and_route_run d dev acc col numerical
                NumericalTensorMapper h stats) as [-> ->].
    by rewrite Hid.
  - unfold mbind, M_bind, getitem.
    rewrite (get_stats_dict_run _ _ _ Hs).
    destruct (PyDict.get col stats) as [cs|] eqn:Hcs; simpl;
      [|by rewrite Hid].
    destruct (PyDict.get COUNT cs) as [[index value|x]|]; simpl;
      [|by rewrite Hid..].
    destruct (decide (Some col = target_col d ∧ length index = 2)).
    + rewrite (get_stats_dict_run _ _ _ Hs), Hcs. simpl.
      match goal with
      | |- context [forward_and_route d dev acc col categorical ?m ?h'] =>
          destruct (forward_and_route_run d dev acc col categorical m h'
            (PyDict.set col
               (PyDict.set COUNT
                  (CountStat (Pandas.sort_index index value).1
                     (Pandas.sort_index index value).2) cs) stats))
            as [-> ->]
      end.
      done.
    + simpl.
      destruct (forward_and_route_run d dev acc col categorical
                  (CategoricalTensorMapper index) h stats) as [-> ->].
      by rewrite Hid.
  - simpl. unfold mbind, M_bind, raise. by rewrite Hid.
Qed.

Lemma for_fold_to_tensor_frame_body d dev items : ∀ h stats acc,
  stats_dicts h !! _col_stats d = Some stats →
  for_fold items acc (_to_tensor_frame_body d dev) h =
    ((ttf_loop d dev items stats acc).1,
     with_stats h (_col_stats d) (ttf_loop d dev items stats acc).2).
Proof.
  induction items as [|item items IH]; intros h stats acc Hs.
  { simpl. by rewrite with_stats_id. }
  cbn [for_fold ttf_loop]. unfold mbind, M_bind.
  rewrite (_to_tensor_frame_body_run _ _ _ _ _ _ Hs).
  destruct (ttf_step d dev stats acc item) as [[e|acc'] stats1]; [done|].
  cbn [fst snd].
  rewrite (IH _ stats1) by by eapply with_stats_lookup.
  by rewrite with_stats_twice.
Qed.

Lemma setattr_run {X : Type} (set : Dataset → X → Dataset) h self d x :
  datasets h !! self = Some d →
  setattr set self x h = (inr tt, with_dataset h self (set d x)).
Proof.
  intros Hd. unfold setattr.
  by rewrite (bind_run _ _ _ _ _ (get_dataset_run _ _ _ Hd)).
Qed.

Lemma with_dataset_lookup h r d d' :
  datasets h !! r = Some d → datasets (with_dataset h r d') !! r = Some d'.
Proof.
  intros Hd. simpl. apply list_lookup_insert_eq. by eapply lookup_lt_Some.
Qed.

Lemma with_dataset_twice h r d d' :
  with_dataset (with_dataset h r d) r d' = with_dataset h r d'.
Proof. unfold with_dataset. simpl. by rewrite list_insert_insert_eq. Qed.

Lemma get_stype_dict_run h r cts :
  stype_dicts h !! r = Some cts → get_stype_dict r h = (inr cts, h).
Proof. intros Hs. unfold get_stype_dict, deref. by rewrite Hs. Qed.

Lemma materialize_run h self d dev cts stats :
  datasets h !! self = Some d →
  _is_materialized d = false →
  stype_dicts h !! col_to_stype d = Some cts →
  stats_dicts h !! _col_stats d = Some stats →
  materialize self dev h = materialize_outcome h self d dev cts stats.
Proof.
  intros Hd Hm Hc Hs. unfold materialize, materialize_outcome.
  rewrite (bind_run _ _ _ _ _ (is_materialized_run _ _ _ Hd)), Hm.
  rewrite (bind_run _ _ _ _ _ (get_dataset_run _ _ _ Hd)).
  rewrite (bind_run _ _ _ _ _ (get_stype_dict_run _ _ _ Hc)).
  unfold mbind at 1. unfold M_bind at 1.
  rewrite (for_each_materialize_body _ _ _ _ Hs).
  destruct (fill_stats (df d) cts stats) as [[e|[]] stats1]; [done|].
  cbn [fst snd].
  set (h1 := with_stats h (_col_stats d) stats1).
  assert (datasets h1 !! self = Some d) as Hd1 by done.
  assert (stype_dicts h1 !! col_to_stype d = Some cts) as Hc1 by done.
  assert (stats_dicts h1 !! _col_stats d = Some stats1) as Hs1
    by by eapply with_stats_lookup.
  unfold mbind at 1. unfold M_bind at 1. unfold _to_tensor_frame.
  rewrite (bind_run _ _ _ _ _ (get_dataset_run _ _ _ Hd1)).
  rewrite (bind_run _ _ _ _ _ (get_stype_dict_run _ _ _ Hc1)).
  unfold mbind at 1. unfold M_bind at 1.
  rewrite (for_fold_to_tensor_frame_body _ _ _ _ _ _ Hs1).
  unfold h1. rewrite with_stats_twice.
  destruct (ttf_loop d dev cts stats1 _) as [[e|acc] stats2]; [done|].
  cbn [fst snd]. unfold mret at 1. unfold M_ret at 1.
  set (h2 := with_stats h (_col_stats d) stats2).
  assert (datasets h2 !! self = Some d) as Hd2 by done.
  rewrite (bind_run _ _ _ _ _ (setattr_run _ _ _ _ _ Hd2)).
  rewrite (bind_run _ _ _ _ _
             (setattr_run _ _ _ _ _ (with_dataset_lookup _ _ _ _ Hd2))).
  by rewrite with_dataset_twice.
Qed.

Lemma get_loc_is_Some col cols : col ∈ cols → is_Some (Pandas.get_loc col cols).
Proof.
  induction cols as [|c cols IH]; intros Hin.
  - by apply elem_of_nil in Hin.
  - simpl. destruct (decide (col = c)); [by eexists|].
    apply elem_of_cons in Hin as [?|Hin]; [done|].
    destruct (IH Hin) as [j ->]. by eexists.
Qed.

Lemma get_loc_Some_elem_of col cols j :
  Pandas.get_loc col cols = Some j → col ∈ cols.
Proof.
  revert j. induction cols as [|c cols IH]; intros j; simpl; [done|].
  destruct (decide (col = c)) as [->|]; [intros; apply list_elem_of_here|].
  destruct (Pandas.get_loc col cols) eqn:Hg; [|done].
  intros _. apply list_elem_of_further. by eapply IH.
Qed.

Lemma getitem_column df0 col :
  col ∈ columns df0 → ∃ ser, Pandas.getitem df0 col = inr ser.
Proof.
  intros Hin. unfold Pandas.getitem.
  destruct (get_loc_is_Some _ _ Hin) as [j ->]. by eexists.
Qed.

(** *** The first loop *)

Lemma fill_stats_get_other df0 items : ∀ stats r stats' c,
  fill_stats df0 items stats = (r, stats') →
  c ∉ PyDict.keys items →
  PyDict.get c stats' = PyDict.get c stats.
Proof.
  induction items as [|[col st] items IH]; intros stats r stats' c; simpl.
  { by intros [= _ ->]. }
  intros Hf Hc. apply not_elem_of_cons in Hc as [Hne Hc].
  destruct (Pandas.getitem df0 col) as [e|ser]; [by injection Hf as _ ->|].
  destruct (compute_col_stats ser st) as [cs|]; [|by injection Hf as _ ->].
  rewrite (IH _ _ _ _ Hf Hc). by apply dict_get_set_ne.
Qed.

Lemma fill_stats_ok df0 items : ∀ stats,
  (∀ c s, (c, s) ∈ items → c ∈ columns df0 ∧ supported s = true) →
  ∃ stats', fill_stats df0 items stats = (inr tt, stats').
Proof.
  induction items as [|[col st] items IH]; intros stats Hall; simpl.
  { by eexists. }
  destruct (Hall col st) as [Hcol Hsup]; [apply list_elem_of_here|].
  destruct (getitem_column _ _ Hcol) as [ser ->].
  destruct (compute_col_stats_supported ser st Hsup) as [cs ->].
  apply IH. intros c s Hin. apply Hall. by apply list_elem_of_further.
Qed.

Lemma fill_stats_raises df0 items : ∀ stats e stats',
  (∀ c, c ∈ PyDict.keys items → c ∈ columns df0) →
  fill_stats df0 items stats = (inl e, stats') →
  ∃ c s, (c, s) ∈ items ∧ supported s = false ∧
         e = UnsupportedSemanticType s.
Proof.
  induction items as [|[col st] items IH]; intros stats e stats' Hcols; simpl.
  { done. }
  destruct (getitem_column df0 col) as [ser ->];
    [apply Hcols, list_elem_of_here|].
  destruct (compute_col_stats ser st) as [cs|] eqn:Hcs.
  - intros Hf. destruct (IH _ _ _ (λ c Hc, Hcols c (list_elem_of_further _ _ _ Hc)) Hf)
      as (c & s & Hin & Hs & He).
    exists c, s. split; [by apply list_elem_of_further|done].
  - intros [= <- <-]. exists col, st. split; [apply list_elem_of_here|].
    split; [|done]. destruct (supported st) eqn:Hsup; [|done].
    destruct (compute_col_stats_supported ser st Hsup) as [cs Hcs'].
    congruence.
Qed.

Lemma fill_stats_get df0 items : ∀ stats stats' c s,
  fill_stats df0 items stats = (inr tt, stats') →
  NoDup (PyDict.keys items) →
  (c, s) ∈ items →
  ∃ ser, Pandas.getitem df0 c = inr ser ∧
         PyDict.get c stats' = compute_col_stats ser s ∧
         is_Some (compute_col_stats ser s).
Proof.
  induction items as [|[col st] items IH]; intros stats stats' c s; simpl.
  { intros _ _ Hin. by apply elem_of_nil in Hin. }
  intros Hf Hnd Hin. apply NoDup_cons in Hnd as [Hcol Hnd].
  destruct (Pandas.getitem df0 col) as [e|ser] eqn:Hser; [done|].
  destruct (compute_col_stats ser st) as [cs|] eqn:Hcs; [|done].
  apply elem_of_cons in Hin as [[= -> ->]|Hin].
  - exists ser. split; [done|]. rewrite Hcs. split; [|by eexists].
    rewrite (fill_stats_get_other _ _ _ _ _ _ Hf Hcol).
    apply dict_get_set_eq.
  - by eapply IH.
Qed.

(** *** The second loop *)

Lemma ttf_finish_stats d dev acc col st mapper stats :
  (ttf_finish d dev acc col st mapper stats).2 = stats.
Proof. unfold ttf_finish. by destruct (Pandas.getitem (df d) col). Qed.

Lemma ttf_finish_ok d dev acc col st mapper stats :
  col ∈ columns (df d) →
  ∃ acc', ttf_finish d dev acc col st mapper stats = (inr acc', stats).
Proof.
  intros Hcol. unfold ttf_finish.
  destruct (getitem_column _ _ Hcol) as [ser ->]. by eexists.
Qed.

Lemma ttf_finish_inl d dev acc col st mapper stats e stats' :
  col ∈ columns (df d) →
  ttf_finish d dev acc col st mapper stats ≠ (inl e, stats').
Proof.
  intros Hcol. by destruct (ttf_finish_ok d dev acc col st mapper stats Hcol)
    as [acc' ->].
Qed.

Lemma ttf_step_has_count d dev stats acc item r stats' c :
  ttf_step d dev stats acc item = (r, stats') →
  has_count stats c → has_count stats' c.
Proof.
  destruct item as [col st]. unfold ttf_step. intros Hstep Hc.
  destruct st as [| |v].
  - pose proof (ttf_finish_stats d dev acc col numerical
                  NumericalTensorMapper stats) as Hst.
    rewrite Hstep in Hst. simpl in Hst. by subst.
  - destruct (PyDict.get col stats) as [cs|] eqn:Hcs;
      [|by injection Hstep as _ <-].
    destruct (PyDict.get COUNT cs) as [[index value|x]|] eqn:Hcount;
      [|by injection Hstep as _ <-..].
    destruct (decide (Some col = target_col d ∧ length index = 2)).
    + match type of Hstep with
      | ttf_finish _ _ _ _ _ ?m ?s = _ =>
          pose proof (ttf_finish_stats d dev acc col categorical m s) as Hst
      end.
      rewrite Hstep in Hst. simpl in Hst. subst stats'.
      destruct (decide (col = c)) as [->|Hne].
      * eexists _, _, _. split; [apply dict_get_set_eq|].
        apply dict_get_set_eq.
      * destruct Hc as (cs' & i & v & Hg & Hcnt).
        exists cs', i, v. split; [|done]. by rewrite dict_get_set_ne.
    + pose proof (ttf_finish_stats d dev acc col categorical
                    (CategoricalTensorMapper index) stats) as Hst.
      rewrite Hstep in Hst. simpl in Hst. by subst.
  - by injection Hstep as _ <-.
Qed.

(** A step raises only at a column whose type has no mapper... *)
Lemma ttf_step_inl d dev stats acc col st e stats' :
  col ∈ columns (df d) →
  (st = categorical → has_count stats col) →
  ttf_step d dev stats acc (col, st) = (inl e, stats') →
  supported st = false ∧ e = UnsupportedSemanticType st.
Proof.
  intros Hcol Hcount. unfold ttf_step. destruct st as [| |v].
  - intros Hf. by apply ttf_finish_inl in Hf.
  - destruct (Hcount eq_refl) as (cs & index & value & -> & ->).
    destruct (decide (Some col = target_col d ∧ length index = 2));
      intros Hf; by apply ttf_finish_inl in Hf.
  - by intros [= <- <-].
Qed.

(** ... and at such a column it does raise. *)
Lemma ttf_step_inr d dev stats acc col st acc' stats' :
  ttf_step d dev stats acc (col, st) = (inr acc', stats') →
  supported st = true.
Proof. unfold ttf_step. by destruct st. Qed.

Lemma ttf_loop_outcome d dev items : ∀ stats acc,
  (∀ c, c ∈ PyDict.keys items → c ∈ columns (df d)) →
  (∀ c, (c, categorical) ∈ items → has_count stats c) →
  match ttf_loop d dev items stats acc with
  | (inl e, _) =>
      ∃ c s, (c, s) ∈ items ∧ supported s = false ∧
             e = UnsupportedSemanticType s
  | (inr _, _) => ∀ c s, (c, s) ∈ items → supported s = true
  end.
Proof.
  induction items as [|[col st] items IH]; intros stats acc Hcols Hcount.
  { simpl. intros c s Hin. by apply elem_of_nil in Hin. }
  cbn [ttf_loop].
  destruct (ttf_step d dev stats acc (col, st)) as [[e|acc1] stats1] eqn:Hstep.
  - apply ttf_step_inl in Hstep as [Hsup ->].
    + exists col, st. split; [apply list_elem_of_here|done].
    + apply Hcols, list_elem_of_here.
    + intros ->. apply Hcount, list_elem_of_here.
  - specialize (IH stats1 acc1).
    destruct (ttf_loop d dev items stats1 acc1) as [[e|acc2] stats2].
    + destruct IH as (c & s & Hin & Hs & He).
      * intros c Hc. by apply Hcols, list_elem_of_further.
      * intros c Hc. eapply ttf_step_has_count; [done|].
        by apply Hcount, list_elem_of_further.
      * exists c, s. split; [by apply list_elem_of_further|done].
    + intros c s [[= -> ->]|Hin]%elem_of_cons.
      * by eapply ttf_step_inr.
      * eapply IH; [| |done].
        -- intros c' Hc. by apply Hcols, list_elem_of_further.
        -- intros c' Hc. eapply ttf_step_has_count; [done|].
           by apply Hcount, list_elem_of_further.
Qed.

(** Columns other than the target leave the statistics and [y] alone. *)
Lemma ttf_step_not_target d dev stats acc col st acc' stats' :
  Some col ≠ target_col d →
  ttf_step d dev stats acc (col, st) = (inr acc', stats') →
  stats' = stats ∧ y_out acc' = y_out acc.
Proof.
  intros Hne. unfold ttf_step.
  assert (∀ m, ttf_finish d dev acc col st m stats = (inr acc', stats') →
               stats' = stats ∧ y_out acc' = y_out acc) as Hfin.
  { intros m. unfold ttf_finish.
    destruct (Pandas.getitem (df d) col); [done|].
    rewrite decide_False by done. by intros [= <- <-]. }
  destruct st as [| |v]; [apply Hfin| |done].
  destruct (PyDict.get col stats) as [cs|]; [|done].
  destruct (PyDict.get COUNT cs) as [[index value|x]|]; [|done..].
  rewrite decide_False by (by intros [? _]). apply Hfin.
Qed.

Lemma ttf_loop_not_target d dev items : ∀ stats acc acc' stats',
  (∀ c, c ∈ PyDict.keys items → Some c ≠ target_col d) →
  ttf_loop d dev items stats acc = (inr acc', stats') →
  stats' = stats ∧ y_out acc' = y_out acc.
Proof.
  induction items as [|[col st] items IH]; intros stats acc acc' stats' Hne.
  { simpl. by intros [= <- <-]. }
  cbn [ttf_loop].
  destruct (ttf_step d dev stats acc (col, st)) as [[e|acc1] stats1] eqn:Hstep;
    [done|].
  intros Hloop.
  apply ttf_step_not_target in Hstep as [-> <-];
    [|apply Hne, list_elem_of_here].
  eapply IH; [|done]. intros c Hc. by apply Hne, list_elem_of_further.
Qed.

(** The binary categorical target: its pair is re-sorted and stored, and
    the mapper is built from the sorted categories. *)
Lemma ttf_step_target d dev stats acc t cs index value ser :
  target_col d = Some t →
  PyDict.get t stats = Some cs →
  PyDict.get COUNT cs = Some (CountStat index value) →
  length index = 2 →
  Pandas.getitem (df d) t = inr ser →
  let sorted := Pandas.sort_index index value in
  ttf_step d dev stats acc (t, categorical) =
    (inr {| xs_dict := xs_dict acc; names_dict := names_dict acc;
            y_out := Some (CategoricalTensorMapper_forward sorted.1 ser dev) |},
     PyDict.set t (PyDict.set COUNT (CountStat sorted.1 sorted.2) cs) stats).
Proof.
  intros Ht Hcs Hcount Hlen Hser. simpl. unfold ttf_step.
  rewrite Hcs, Hcount. rewrite decide_True by by rewrite Ht.
  unfold ttf_finish. rewrite Hser. by rewrite decide_True by by rewrite Ht.
Qed.


Lemma ttf_loop_app d dev items1 items2 : ∀ stats acc,
  ttf_loop d dev (items1 ++ items2) stats acc =
    match ttf_loop d dev items1 stats acc with
    | (inl e, stats') => (inl e, stats')
    | (inr acc', stats') => ttf_loop d dev items2 stats' acc'
    end.
Proof.
  induction items1 as [|item items1 IH]; intros stats acc; [done|].
  cbn [app ttf_loop].
  by destruct (ttf_step d dev stats acc item) as [[e|acc1] stats1].
Qed.

(** After the first loop every categorical column has its pair. *)
Lemma fill_stats_has_count df0 items stats stats' c :
  fill_stats df0 items stats = (inr tt, stats') →
  NoDup (PyDict.keys items) →
  (c, categorical) ∈ items →
  has_count stats' c.
Proof.
  intros Hf Hnd Hin.
  destruct (fill_stats_get _ _ _ _ _ _ Hf Hnd Hin) as (ser & _ & Hg & [cs Hcs]).
  destruct (compute_col_stats_COUNT _ _ Hcs) as (index & value & Hcount & _).
  exists cs, index, value. by rewrite Hg, Hcs.
Qed.

Lemma elem_of_keys (cts : list (string * stype)) c s :
  (c, s) ∈ cts → c ∈ PyDict.keys cts.
Proof. intros Hin. apply list_elem_of_fmap. by exists (c, s). Qed.

(** The accessors on a materialized dataset. *)
Lemma tensor_frame_run h self d :
  datasets h !! self = Some d → _is_materialized d = true →
  tensor_frame self h = (inr (_tensor_frame d), h).
Proof.
  intros Hd Hm. unfold tensor_frame.
  rewrite (requires_post_run _ _ _ _ _ Hd), Hm.
  by rewrite (bind_run _ _ _ _ _ (get_dataset_run _ _ _ Hd)).
Qed.

Lemma col_stats_run h self d :
  datasets h !! self = Some d → _is_materialized d = true →
  col_stats self h = (inr (_col_stats d), h).
Proof.
  intros Hd Hm. unfold col_stats.
  rewrite (requires_post_run _ _ _ _ _ Hd), Hm.
  by rewrite (bind_run _ _ _ _ _ (get_dataset_run _ _ _ Hd)).
Qed.

(** *** [index_select] *)

Lemma add_dataset_lookup h d self d0 :
  datasets h !! self = Some d0 → datasets (add_dataset h d) !! self = Some d0.
Proof. intros Hd. simpl. by apply lookup_app_l_Some. Qed.

Lemma add_dataset_lookup_new h d :
  datasets (add_dataset h d) !! length (datasets h) = Some d.
Proof. simpl. by rewrite lookup_app_r, Nat.sub_diag. Qed.

Lemma with_dataset_add h d d' :
  with_dataset (add_dataset h d) (length (datasets h)) d' = add_dataset h d'.
Proof.
  unfold with_dataset, add_dataset. simpl. f_equal.
  rewrite insert_app_r_alt, Nat.sub_diag by done. done.
Qed.

Lemma copy_copy_run h self d :
  datasets h !! self = Some d →
  copy_copy self h = (inr (length (datasets h)), add_dataset h d).
Proof.
  intros Hd. unfold copy_copy.
  by rewrite (bind_run _ _ _ _ _ (get_dataset_run _ _ _ Hd)).
Qed.

Lemma len_run h self d :
  datasets h !! self = Some d → len self h = (inr (Pandas.len (df d)), h).
Proof.
  intros Hd. unfold len.
  by rewrite (bind_run _ _ _ _ _ (get_dataset_run _ _ _ Hd)).
Qed.

Lemma lift_run {A : Type} (r : exn + A) (h : Heap) : lift r h = (r, h).
Proof. by destruct r. Qed.

Lemma index_select_run h self d index :
  datasets h !! self = Some d →
  _is_materialized d = true →
  index_select index self h = index_select_outcome h d index.
Proof.
  intros Hd Hmat. unfold index_select, index_select_outcome.
  rewrite (requires_post_run _ _ _ _ _ Hd), Hmat.
  rewrite (bind_run _ _ _ _ _ (len_run _ _ _ Hd)).
  unfold mbind at 1. unfold M_bind at 1. rewrite lift_run.
  destruct (resolve_index index (Pandas.len (df d))) as [e|index']; [done|].
  rewrite (bind_run _ _ _ _ _ (copy_copy_run _ _ _ Hd)).
  pose proof (add_dataset_lookup h d _ _ Hd) as Hd1.
  rewrite (bind_run _ _ _ _ _ (get_dataset_run _ _ _ Hd1)).
  unfold mbind at 1. unfold M_bind at 1. rewrite lift_run.
  destruct (iloc (df d) index') as [e|df']; [done|].
  rewrite (bind_run _ _ _ _ _
             (setattr_run _ _ _ _ _ (add_dataset_lookup_new h d))).
  rewrite with_dataset_add.
  pose proof (add_dataset_lookup h (set_df d df') _ _ Hd) as Hd2.
  rewrite (bind_run _ _ _ _ _ (get_dataset_run _ _ _ Hd2)).
  unfold mbind at 1. unfold M_bind at 1.
  destruct (_tensor_frame d) as [tf|]; [|done].
  rewrite lift_run.
  destruct (TensorFrame_getitem tf (as_index index')) as [e|tf']; [done|].
  rewrite (bind_run _ _ _ _ _
             (setattr_run _ _ _ _ _ (add_dataset_lookup_new h _))).
  by rewrite with_dataset_add.
Qed.

Lemma positions_inr n idx : ∀ ps,
  Pandas.positions n idx = inr ps →
  length ps = length idx ∧ Forall (λ p, p < n) ps.
Proof.
  induction idx as [|i idx IH]; intros ps; simpl.
  { by intros [= <-]. }
  destruct (Pandas.position n i) as [e|p] eqn:Hp; [done|].
  destruct (Pandas.positions n idx) as [e|ps'] eqn:Hps; [done|].
  intros [= <-]. destruct (IH _ eq_refl) as [Hlen Hall].
  split; [by simpl; f_equal|]. constructor; [|done].
  unfold Pandas.position in Hp. repeat case_decide; simplify_eq; lia.
Qed.

Lemma positions_in_range n idx :
  Forall (λ i, - Z.of_nat n ≤ i < Z.of_nat n)%Z idx →
  ∃ ps, Pandas.positions n idx = inr ps.
Proof.
  induction 1 as [|i idx Hi _ [ps IH]]; simpl; [by eexists|].
  unfold Pandas.position. rewrite IH.
  repeat case_decide; eauto; lia.
Qed.

Lemma take_length {A : Type} (l : list A) ps :
  Forall (λ p, p < length l) ps → length (Pandas.take ps l) = length ps.
Proof.
  unfold Pandas.take. induction 1 as [|p ps Hp _ IH]; simpl; [done|].
  destruct (lookup_lt_is_Some_2 l p Hp) as [x ->]. simpl. by f_equal.
Qed.

Lemma x_dict_getitem_aligned (xd : list (stype * list (list telem))) index n ps :
  index_positions index n = inr ps →
  Forall (λ sx, length sx.2 = n) xd →
  x_dict_getitem xd index = inr ((λ sx, (sx.1, Pandas.take ps sx.2)) <$> xd).
Proof.
  intros Hps. induction 1 as [|[s x] xd Hx _ IH]; simpl; [done|].
  unfold tensor_getitem. simpl in Hx. by rewrite Hx, Hps, IH.
Qed.

Lemma TensorFrame_getitem_aligned tf index n ps :
  index_positions index n = inr ps →
  aligned tf n →
  TensorFrame_getitem tf index = inr (select_rows ps tf).
Proof.
  intros Hps [Hx Hy]. unfold TensorFrame_getitem, select_rows.
  rewrite (x_dict_getitem_aligned _ _ _ _ Hps Hx).
  destruct (y tf) as [t|]; [|done]. simpl.
  unfold tensor_getitem. by rewrite (Hy t eq_refl), Hps.
Qed.

Lemma take_S_fmap {A : Type} (x : A) (l : list A) ps :
  Pandas.take (S <$> ps) (x :: l) = Pandas.take ps l.
Proof.
  unfold Pandas.take. induction ps as [|p ps IH]; [done|].
  cbn [fmap list_fmap omap list_omap] in *. rewrite IH. done.
Qed.

Lemma take_seq {A : Type} (l : list A) k :
  (k ≤ length l)%nat → Pandas.take (seq 0 k) l = take k l.
Proof.
  revert l. induction k as [|k IH]; intros l Hk; [done|].
  destruct l as [|x l]; simpl in *; [lia|].
  rewrite <-fmap_S_seq.
  change (Pandas.take (0 :: (S <$> seq 0 k)) (x :: l))
    with (x :: Pandas.take (S <$> seq 0 k) (x :: l)).
  rewrite take_S_fmap, IH by lia. done.
Qed.

Lemma select_rows_seq tf n k :
  aligned tf n → (k ≤ n)%nat → select_rows (seq 0 k) tf = first_rows k tf.
Proof.
  intros [Hx Hy] Hk. unfold select_rows, first_rows. f_equal.
  - apply list_eq_Forall2, Forall2_fmap, Forall_Forall2_diag.
    eapply Forall_impl; [exact Hx|]. intros [s x] Hlen. simpl in *.
    rewrite take_seq by lia. done.
  - destruct (y tf) as [t|]; [|done]. simpl.
    rewrite take_seq; [done|]. rewrite (Hy t eq_refl). lia.
Qed.

(** [round(0.5 * 10)] is [5]. *)
Lemma round_half_of_ten :
  PyFloat.round (PyFloat.mul_int PyFloat.half 10) = inr 5%Z.
Proof. vm_compute. reflexivity. Qed.

(** *** [col_select] *)

Lemma get_list_run h r l :
  str_lists h !! r = Some l → get_list r h = (inr l, h).
Proof. intros Hl. unfold get_list, deref. by rewrite Hl. Qed.

Lemma with_list_id h r l : str_lists h !! r = Some l → with_list h r l = h.
Proof.
  intros Hl. destruct h. unfold with_list. simpl in *.
  by rewrite list_insert_id.
Qed.

Lemma with_list_lookup h r l l' :
  str_lists h !! r = Some l → str_lists (with_list h r l') !! r = Some l'.
Proof.
  intros Hl. simpl. apply list_lookup_insert_eq. by eapply lookup_lt_Some.
Qed.

Lemma for_fold_project cts cols : ∀ acc (h : Heap),
  for_fold cols acc
    (λ acc col, st ← getitem col cts; mret (PyDict.set col st acc)) h =
  (project cts cols acc, h).
Proof.
  induction cols as [|c cols IH]; intros acc h; [done|].
  cbn [for_fold project]. unfold mbind at 1 2. unfold M_bind at 1 2.
  unfold getitem.
  destruct (PyDict.get c cts) as [st|]; [|done]. simpl. apply IH.
Qed.

(** The part of [col_select] after [cols] has become a list. *)
Lemma col_select_list_run h self d cts r cols :
  datasets h !! self = Some d →
  stype_dicts h !! col_to_stype d = Some cts →
  str_lists h !! r = Some cols →
  (d0 ← get_dataset self;
   l ← get_list r;
   match target_col d0 with
   | Some t => if decide (t ∈ l) then mret tt else set_list r (l ++ [t])
   | None => mret tt
   end;;
   dataset ← copy_copy self;
   d1 ← get_dataset self;
   l' ← get_list r;
   df' ← lift (Pandas.getitem_list (df d1) l');
   setattr set_df dataset df';;
   d2 ← get_dataset self;
   cts0 ← get_stype_dict (col_to_stype d2);
   new ← for_fold l' []
           (λ acc col, st ← getitem col cts0; mret (PyDict.set col st acc));
   r' ← new_stype_dict new;
   setattr set_col_to_stype dataset r';;
   mret dataset) h = col_select_outcome h d cts r cols.
Proof.
  intros Hd Hcts Hl. unfold col_select_outcome.
  rewrite (bind_run _ _ _ _ _ (get_dataset_run _ _ _ Hd)).
  rewrite (bind_run _ _ _ _ _ (get_list_run _ _ _ Hl)).
  set (l := with_target (target_col d) cols).
  set (h1 := with_list h r l).
  assert (match target_col d with
          | Some t => if decide (t ∈ cols) then mret tt
                      else set_list r (cols ++ [t])
          | None => mret tt
          end h = (inr tt, h1)) as Hstep.
  { unfold h1, l, with_target. destruct (target_col d) as [t|].
    - destruct (decide (t ∈ cols)); [|done]. by rewrite with_list_id.
    - by rewrite with_list_id. }
  rewrite (bind_run _ _ _ _ _ Hstep).
  assert (datasets h1 !! self = Some d) as Hd1 by done.
  assert (str_lists h1 !! r = Some l) as Hl1 by by eapply with_list_lookup.
  rewrite (bind_run _ _ _ _ _ (copy_copy_run _ _ _ Hd1)).
  pose proof (add_dataset_lookup h1 d _ _ Hd1) as Hd2.
  rewrite (bind_run _ _ _ _ _ (get_dataset_run _ _ _ Hd2)).
  rewrite (bind_run (get_list r) _ _ l (add_dataset h1 d))
    by by apply get_list_run.
  unfold mbind at 1. unfold M_bind at 1. rewrite lift_run.
  destruct (Pandas.getitem_list (df d) l) as [e|df']; [done|].
  rewrite (bind_run _ _ _ _ _
             (setattr_run _ _ _ _ _ (add_dataset_lookup_new h1 d))).
  rewrite with_dataset_add.
  pose proof (add_dataset_lookup h1 (set_df d df') _ _ Hd1) as Hd3.
  rewrite (bind_run _ _ _ _ _ (get_dataset_run _ _ _ Hd3)).
  rewrite (bind_run (get_stype_dict (col_to_stype d)) _ _ cts
             (add_dataset h1 (set_df d df')))
    by by apply get_stype_dict_run.
  unfold mbind at 1. unfold M_bind at 1. rewrite for_fold_project.
  destruct (project cts l []) as [e|cts']; [done|].
  unfold mbind at 1. unfold M_bind at 1. unfold new_stype_dict at 1.
  rewrite (bind_run _ _ (add_stype_dict (add_dataset h1 (set_df d df')) cts')
             tt (with_dataset
                   (add_stype_dict (add_dataset h1 (set_df d df')) cts')
                   (length (datasets h))
                   (set_col_to_stype (set_df d df') (length (stype_dicts h))))).
  2:{ apply setattr_run. apply (add_dataset_lookup_new h1). }
  unfold mret, M_ret. f_equal.
  unfold with_dataset, add_stype_dict, add_dataset. simpl. f_equal.
  by rewrite insert_app_r_alt, Nat.sub_diag.
Qed.

Lemma col_select_run h self d cts arg cols :
  datasets h !! self = Some d →
  _is_materialized d = false →
  stype_dicts h !! col_to_stype d = Some cts →
  arg_columns h arg = Some cols →
  col_select arg self h =
    match arg with
    | CStr c =>
        col_select_outcome (add_list h [c]) d cts (length (str_lists h)) cols
    | CList r => col_select_outcome h d cts r cols
    end.
Proof.
  intros Hd Hmat Hcts Harg. unfold col_select.
  rewrite (requires_pre_run _ _ _ _ _ Hd), Hmat.
  destruct arg as [c|r]; simpl in Harg.
  - injection Harg as <-.
    rewrite (bind_run (new_list [c]) _ h (length (str_lists h))
               (add_list h [c])) by done.
    apply col_select_list_run; [done..|].
    simpl. by rewrite lookup_app_r, Nat.sub_diag.
  - rewrite (bind_run (mret r) _ h r h) by done.
    by apply col_select_list_run.
Qed.

Lemma dict_get_is_Some (cts : list (string * stype)) c :
  c ∈ PyDict.keys cts → is_Some (PyDict.get c cts).
Proof.
  unfold PyDict.keys. induction cts as [|[c0 s0] cts IH]; simpl; intros Hin.
  - by apply elem_of_nil in Hin.
  - destruct (decide (c = c0)); [by eexists|].
    apply elem_of_cons in Hin as [?|Hin]; [done|]. by apply IH.
Qed.

Lemma project_ok cts cols : ∀ acc,
  (∀ c, c ∈ cols → c ∈ PyDict.keys cts) →
  ∃ cts', project cts cols acc = inr cts'.
Proof.
  induction cols as [|c cols IH]; intros acc Hall; simpl; [by eexists|].
  destruct (dict_get_is_Some cts c) as [st ->];
    [apply Hall, list_elem_of_here|].
  apply IH. intros c' Hc'. by apply Hall, list_elem_of_further.
Qed.

Lemma project_keys cts cols : ∀ acc cts' c,
  project cts cols acc = inr cts' →
  c ∈ PyDict.keys cts' ↔ c ∈ cols ∨ c ∈ PyDict.keys acc.
Proof.
  induction cols as [|c0 cols IH]; intros acc cts' c; simpl.
  { intros [= <-]. rewrite elem_of_nil. tauto. }
  destruct (PyDict.get c0 cts) as [st|]; [|done].
  intros Hp. rewrite (IH _ _ _ Hp), dict_keys_set_elem_of, elem_of_cons.
  tauto.
Qed.

Lemma project_get cts cols : ∀ acc cts' c,
  project cts cols acc = inr cts' →
  (c ∈ PyDict.keys acc → PyDict.get c acc = PyDict.get c cts) →
  c ∈ PyDict.keys cts' →
  PyDict.get c cts' = PyDict.get c cts.
Proof.
  induction cols as [|c0 cols IH]; intros acc cts' c; simpl.
  { intros [= <-]. auto. }
  destruct (PyDict.get c0 cts) as [st|] eqn:Hst; [|done].
  intros Hp Hacc. apply (IH _ _ _ Hp).
  rewrite dict_keys_set_elem_of. destruct (decide (c0 = c)) as [->|Hne].
  - intros _. by rewrite dict_get_set_eq.
  - rewrite dict_get_set_ne by done. intros [?|?]; [done|]. by apply Hacc.
Qed.

Lemma get_locs_ok cols have :
  (∀ c, c ∈ cols → c ∈ have) → ∃ js, Pandas.get_locs cols have = inr js.
Proof.
  induction cols as [|c cols IH]; intros Hall; simpl; [by eexists|].
  destruct (get_loc_is_Some c have) as [j ->];
    [apply Hall, list_elem_of_here|].
  destruct IH as [js ->]; [|by eexists].
  intros c' Hc'. by apply Hall, list_elem_of_further.
Qed.

Lemma getitem_list_ok df0 cols :
  (∀ c, c ∈ cols → c ∈ columns df0) →
  ∃ df', Pandas.getitem_list df0 cols = inr df' ∧ columns df' = cols.
Proof.
  intros Hall. unfold Pandas.getitem_list.
  destruct (get_locs_ok _ _ Hall) as [js ->]. by eexists.
Qed.

(** *** [Dataset_init] *)

Lemma list_remove_Some x l : ∀ l',
  list_remove x l = Some l' → ∀ c, c ∈ l ↔ c = x ∨ c ∈ l'.
Proof.
  induction l as [|y l IH]; intros l'; simpl; [done|].
  destruct (decide (x = y)) as [->|Hne].
  - intros [= <-] c. by rewrite elem_of_cons.
  - destruct (list_remove x l) as [l0|]; [|done]. simpl.
    intros [= <-] c. rewrite !elem_of_cons, (IH _ eq_refl). tauto.
Qed.

Lemma list_remove_is_Some x l : x ∈ l → is_Some (list_remove x l).
Proof.
  induction l as [|y l IH]; simpl; intros Hin.
  - by apply elem_of_nil in Hin.
  - destruct (decide (x = y)); [by eexists|].
    apply elem_of_cons in Hin as [?|Hin]; [done|].
    destruct (IH Hin) as [l' ->]. by eexists.
Qed.

Lemma list_remove_None x l : x ∉ l → list_remove x l = None.
Proof.
  induction l as [|y l IH]; simpl; [done|].
  intros [Hne Hnin]%not_elem_of_cons.
  rewrite decide_False by done. by rewrite IH.
Qed.

(** The columns the check of [__init__] looks at, as a set: the keys of
    [col_to_stype] when the target is one of them. *)
Lemma checked_columns cts target feat :
  feat_cols_of cts target = inr feat →
  list_to_set (C := gset string)
    (feat ++ match target with None => [] | Some t => [t] end)
  = list_to_set (PyDict.keys cts).
Proof.
  unfold feat_cols_of. destruct target as [t|].
  - destruct (list_remove t (PyDict.keys cts)) as [l'|] eqn:Hrm; [|done].
    intros [= <-]. apply set_eq. intros c.
    rewrite !elem_of_list_to_set, elem_of_app, list_elem_of_singleton.
    rewrite (list_remove_Some _ _ _ Hrm c). tauto.
  - intros [= <-]. by rewrite app_nil_r.
Qed.

Lemma Dataset_init_run h df0 r cts target :
  stype_dicts h !! r = Some cts →
  Dataset_init df0 r target h =
    match feat_cols_of cts target with
    | inl e => (inl e, h)
    | inr _ =>
        let missing : gset string :=
          list_to_set (PyDict.keys cts) ∖ list_to_set (columns df0) in
        if decide (0 < size missing)
        then (inl (MissingColumnError missing), h)
        else (inr (length (datasets h)),
              add_dataset (add_stats_dict h [])
                {| df := df0; col_to_stype := r; target_col := target;
                   _is_materialized := false;
                   _col_stats := length (stats_dicts h);
                   _tensor_frame := None |})
    end.
Proof.
  intros Hcts. unfold Dataset_init.
  rewrite (bind_run _ _ _ _ _ (get_stype_dict_run _ _ _ Hcts)).
  unfold mbind at 1. unfold M_bind at 1. rewrite lift_run.
  destruct (feat_cols_of cts target) as [e|feat] eqn:Hfeat; [done|].
  rewrite (checked_columns _ _ _ Hfeat). simpl.
  by destruct (decide (0 < size _)).
Qed.

(** The constructor makes well-formed datasets. *)
Lemma Dataset_init_wf h df0 r cts target self h' :
  stype_dicts h !! r = Some cts →
  NoDup (PyDict.keys cts) →
  Dataset_init df0 r target h = (inr self, h') →
  ∃ d, datasets h' !! self = Some d ∧ wf h' d cts ∧
       _is_materialized d = false ∧ df d = df0 ∧ target_col d = target.
Proof.
  intros Hcts Hnd. rewrite (Dataset_init_run _ _ _ _ _ Hcts).
  destruct (feat_cols_of cts target) as [e|feat] eqn:Hfeat; [done|].
  simpl. destruct (decide (0 < size _)) as [|Hsize]; [done|].
  intros [= <- <-]. eexists.
  split; [apply (add_dataset_lookup_new (add_stats_dict h []))|].
  split; [|done]. split; simpl.
  - done.
  - rewrite lookup_app_r, Nat.sub_diag by done. by eexists.
  - done.
  - intros c Hc. destruct (decide (c ∈ columns df0)) as [|Hnin]; [done|].
    exfalso. apply Hsize.
    match goal with |- 0 < size ?X => assert (size X ≠ 0); [|lia] end.
    rewrite size_non_empty_iff. intros Hempty.
    apply (not_elem_of_empty (C := gset string) c). rewrite <-Hempty.
    rewrite elem_of_difference, !elem_of_list_to_set. done.
  - intros t ->. unfold feat_cols_of in Hfeat.
    destruct (decide (t ∈ PyDict.keys cts)) as [|Hnin]; [done|].
    by rewrite (list_remove_None _ _ Hnin) in Hfeat.
Qed.

(** *** The bundle has the rows of the frame *)

Lemma stack_dim1_length xs n :
  xs ≠ [] → Forall (λ x, length x = n) xs → length (stack_dim1 xs) = n.
Proof.
  intros Hne Hall. induction Hall as [|x xs Hx Hall IH]; [done|].
  destruct xs as [|x' xs].
  - simpl. by rewrite length_fmap.
  - change (stack_dim1 (x :: x' :: xs))
      with (zip_with cons x (stack_dim1 (x' :: xs))).
    rewrite length_zip_with, IH by done. lia.
Qed.

Lemma getitem_length df0 col ser :
  Pandas.getitem df0 col = inr ser → length ser = Pandas.len df0.
Proof.
  unfold Pandas.getitem, Pandas.len.
  destruct (Pandas.get_loc col (columns df0)); [|done].
  intros [= <-]. apply length_fmap.
Qed.

Lemma TensorMapper_forward_length mapper ser dev :
  length (TensorMapper_forward mapper ser dev) = length ser.
Proof.
  destruct mapper; simpl;
    [apply NumericalTensorMapper_forward_length
    |apply CategoricalTensorMapper_forward_length].
Qed.

Lemma dict_append_aligned n (st : stype) (out : list telem) xd :
  length out = n →
  Forall (λ sx : stype * list (list telem),
            sx.2 ≠ [] ∧ Forall (λ x, length x = n) sx.2) xd →
  Forall (λ sx : stype * list (list telem),
            sx.2 ≠ [] ∧ Forall (λ x, length x = n) sx.2)
    (PyDict.append st out xd).
Proof.
  intros Hout Hxd. unfold PyDict.append.
  destruct (PyDict.get st xd) as [xs|] eqn:Hget.
  - apply dict_get_Some_elem_of in Hget as Hin.
    pose proof (proj1 (Forall_forall _ _) Hxd _ Hin) as [Hne Hxs].
    simpl in *. clear Hget Hin.
    induction Hxd as [|[s0 xs0] xd H0 Hxd IH]; simpl.
    + repeat constructor; simpl; [by destruct xs|].
      apply Forall_app. split; [done|by repeat constructor].
    + destruct (decide (st = s0)).
      * constructor; [|done]. simpl. split; [by destruct xs|].
        apply Forall_app. split; [done|by repeat constructor].
      * constructor; [done|]. apply IH.
  - apply Forall_app. split; [done|]. by repeat constructor.
Qed.

Lemma ttf_finish_aligned d dev acc col st mapper stats acc' stats' :
  locals_aligned (Pandas.len (df d)) acc →
  ttf_finish d dev acc col st mapper stats = (inr acc', stats') →
  locals_aligned (Pandas.len (df d)) acc'.
Proof.
  intros [Hxs Hy]. unfold ttf_finish.
  destruct (Pandas.getitem (df d) col) as [e|ser] eqn:Hser; [done|].
  apply getitem_length in Hser.
  assert (length (TensorMapper_forward mapper ser dev) = Pandas.len (df d))
    as Hout by by rewrite TensorMapper_forward_length.
  destruct (decide (Some col = target_col d)); intros [= <- <-]; split; simpl.
  - done.
  - by intros t [= <-].
  - by apply dict_append_aligned.
  - done.
Qed.

Lemma ttf_step_aligned d dev stats acc item acc' stats' :
  locals_aligned (Pandas.len (df d)) acc →
  ttf_step d dev stats acc item = (inr acc', stats') →
  locals_aligned (Pandas.len (df d)) acc'.
Proof.
  intros Hacc. destruct item as [col st]. unfold ttf_step.
  destruct st as [| |v]; [by apply ttf_finish_aligned| |done].
  destruct (PyDict.get col stats) as [cs|]; [|done].
  destruct (PyDict.get COUNT cs) as [[index value|x]|]; [|done..].
  destruct (decide (Some col = target_col d ∧ length index = 2));
    by apply ttf_finish_aligned.
Qed.

Lemma ttf_loop_aligned d dev items : ∀ stats acc acc' stats',
  locals_aligned (Pandas.len (df d)) acc →
  ttf_loop d dev items stats acc = (inr acc', stats') →
  locals_aligned (Pandas.len (df d)) acc'.
Proof.
  induction items as [|item items IH]; intros stats acc acc' stats' Hacc.
  { simpl. by intros [= <- <-]. }
  cbn [ttf_loop].
  destruct (ttf_step d dev stats acc item) as [[e|acc1] stats1] eqn:Hstep;
    [done|].
  apply IH. by eapply ttf_step_aligned.
Qed.

Lemma bundle_aligned n acc : locals_aligned n acc → aligned (bundle acc) n.
Proof.
  intros [Hxs Hy]. split; [|done]. simpl.
  apply Forall_fmap. eapply Forall_impl; [exact Hxs|].
  intros [st xs] [Hne Hall]. simpl in *. by apply stack_dim1_length.
Qed.

(** Once materialized, the bundle has as many rows as the frame. *)
Lemma materialize_aligned h self d dev cts h1 :
  datasets h !! self = Some d →
  _is_materialized d = false →
  stype_dicts h !! col_to_stype d = Some cts →
  is_Some (stats_dicts h !! _col_stats d) →
  materialize self dev h = (inr self, h1) →
  ∃ d1 tf,
    datasets h1 !! self = Some d1 ∧
    df d1 = df d ∧
    _is_materialized d1 = true ∧
    _tensor_frame d1 = Some tf ∧
    aligned tf (Pandas.len (df d1)).
Proof.
  intros Hd Hmat Hcts [stats Hstats].
  rewrite (materialize_run _ _ _ _ _ _ Hd Hmat Hcts Hstats).
  unfold materialize_outcome.
  destruct (fill_stats (df d) cts stats) as [[e|[]] stats1]; [done|].
  destruct (ttf_loop d dev cts stats1 no_locals) as [[e|acc] stats2] eqn:Hloop;
    [done|].
  intros [= <-]. eexists _, (bundle acc).
  split; [by eapply with_dataset_lookup|].
  split; [done|]. split; [done|]. split; [done|]. simpl.
  apply bundle_aligned. eapply ttf_loop_aligned; [|done].
  split; [constructor|done].
Qed.

Lemma index_positions_lt index n ps :
  index_positions index n = inr ps → Forall (λ p, p < n) ps.
Proof.
  destruct index as [i|idx|start stop step|idx]; simpl.
  - destruct (Pandas.position n i) as [e|p] eqn:Hp; [done|].
    intros [= <-]. constructor; [|constructor].
    unfold Pandas.position in Hp. repeat case_decide; simplify_eq; lia.
  - intros Hps. by apply positions_inr in Hps as [_ ?].
  - destruct (bound_int start) as [e|a]; [by destruct (bound_int stop)|].
    destruct (bound_int stop) as [e|b]; [done|].
    unfold PySlice.positions, PySlice.indices.
    destruct (decide (default 1%Z step = 0%Z)) as [|Hstep]; [done|].
    intros [= <-]. apply Forall_fmap, Forall_fmap, Forall_forall.
    intros k Hk. simpl.
    apply list_elem_of_lookup in Hk as [i Hi].
    apply lookup_seqZ in Hi as [-> Hi].
    revert Hi. unfold PySlice.range_len, PySlice.adjust.
    set (s := default 1%Z step) in *.
    set (m := Z.of_nat n).
    assert (0 ≤ m)%Z as Hm by lia.
    assert (∀ lo hi st : Z, 0 < st → lo < hi →
              ∀ j : Z, 0 ≤ j < (hi - lo - 1) / st + 1 →
              lo ≤ lo + j * st < hi)%Z as Hup.
    { intros lo hi st Hst Hlt j [Hj0 Hj].
      assert (j * st ≤ hi - lo - 1)%Z; [|nia].
      assert (j ≤ (hi - lo - 1) / st)%Z as Hj' by lia.
      pose proof (Z.mul_div_le (hi - lo - 1) st Hst). nia. }
    destruct (Z.ltb_spec 0 s) as [Hpos|Hneg].
    + rewrite (proj2 (Z.ltb_ge s 0)) by lia.
      match goal with |- context [(?a <? ?b)%Z] =>
        destruct (Z.ltb_spec a b) as [Hlt|Hge] end; [|lia].
      intros Hi.
      match type of Hlt with (?lo < ?hi)%Z =>
        pose proof (Hup lo hi s Hpos Hlt (0 + Z.of_nat i)%Z) as Hr;
        assert (0 ≤ lo ∧ hi ≤ m)%Z as [Hlo Hhi]
      end.
      { destruct a as [a|], b as [b|]; repeat case_match; lia. }
      lia.
    + assert (s < 0)%Z as Hs by lia.
      rewrite (proj2 (Z.ltb_lt s 0)) by lia.
      match goal with |- context [(?a <? ?b)%Z] =>
        destruct (Z.ltb_spec a b) as [Hlt|Hge] end; [|lia].
      intros Hi.
      match type of Hlt with (?lo < ?hi)%Z =>
        pose proof (Hup lo hi (- s)%Z ltac:(lia) Hlt (0 + Z.of_nat i)%Z) as Hr;
        assert (-1 ≤ lo ∧ hi ≤ m - 1)%Z as [Hlo Hhi]
      end.
      { destruct a as [a|], b as [b|]; repeat case_match; lia. }
      lia.
  - intros Hps. by apply positions_inr in Hps as [_ ?].
Qed.

Lemma select_rows_aligned tf n ps :
  aligned tf n → Forall (λ p, p < n) ps →
  aligned (select_rows ps tf) (length ps).
Proof.
  intros [Hx Hy] Hps. split; simpl.
  - apply Forall_fmap. eapply Forall_impl; [exact Hx|].
    intros [st x] Hlen. simpl in *. apply take_length. by rewrite Hlen.
  - destruct (y tf) as [t|]; [|done]. simpl. intros t' [= <-].
    apply take_length. by rewrite (Hy t eq_refl).
Qed.

(** [index_select] keeps frame and bundle in step. *)
Lemma index_select_aligned h self d tf index r h' :
  datasets h !! self = Some d →
  _is_materialized d = true →
  _tensor_frame d = Some tf →
  aligned tf (Pandas.len (df d)) →
  index_select index self h = (inr r, h') →
  ∃ d' tf',
    datasets h' !! r = Some d' ∧
    _is_materialized d' = true ∧
    _tensor_frame d' = Some tf' ∧
    aligned tf' (Pandas.len (df d')).
Proof.
  intros Hd Hmat Htf Hal. rewrite (index_select_run _ _ _ _ Hd Hmat).
  unfold index_select_outcome, iloc. rewrite Htf.
  destruct (resolve_index index (Pandas.len (df d))) as [e|index']; [done|].
  destruct (index_positions (as_index index') (Pandas.len (df d)))
    as [e|ps] eqn:Hps;
    [done|].
  rewrite (TensorFrame_getitem_aligned tf _ _ _ Hps Hal).
  intros [= <- <-]. eexists _, _.
  split; [apply add_dataset_lookup_new|]. simpl.
  split; [done|]. split; [done|].
  pose proof (index_positions_lt _ _ _ Hps) as Hlt.
  unfold Pandas.len. simpl. rewrite take_length by done.
  by eapply select_rows_aligned.
Qed.

(** [index_select] on a materialized dataset whose bundle has the
    frame's rows: the outcome in terms of the selected positions. *)
Lemma index_select_positions h self d tf index :
  datasets h !! self = Some d →
  _is_materialized d = true →
  _tensor_frame d = Some tf →
  aligned tf (Pandas.len (df d)) →
  index_select index self h =
    match resolve_index index (Pandas.len (df d)) with
    | inl e => (inl e, h)
    | inr index' =>
        match index_positions (as_index index') (Pandas.len (df d)) with
        | inl e => (inl e, add_dataset h d)
        | inr ps =>
            (inr (length (datasets h)),
             add_dataset h
               (set_tensor_frame
                  (set_df d {| columns := columns (df d);
                               rows := Pandas.take ps (rows (df d)) |})
                  (Some (select_rows ps tf))))
        end
    end.
Proof.
  intros Hd Hmat Htf Hal. rewrite (index_select_run _ _ _ _ Hd Hmat).
  unfold index_select_outcome, iloc. rewrite Htf.
  destruct (resolve_index index (Pandas.len (df d))) as [e|index']; [done|].
  destruct (index_positions (as_index index') (Pandas.len (df d)))
    as [e|ps] eqn:Hps;
    [done|].
  by rewrite (TensorFrame_getitem_aligned tf _ _ _ Hps Hal).
Qed.

(** * The claims of the specification *)

(** What [materialize] leaves when it returns: the instance it was called
    on, marked as materialized. *)
Lemma materialize_inr h self dev r h1 :
  materialize self dev h = (inr r, h1) →
  r = self ∧ ∃ d1, datasets h1 !! self = Some d1 ∧ _is_materialized d1 = true.
Proof.
  unfold materialize. intros Hm.
  apply bind_inr in Hm as (m & h0 & Hism & Hm).
  unfold is_materialized in Hism.
  apply bind_inr in Hism as (d & h0' & Hd & Hret).
  apply get_dataset_inr in Hd as [Hd ->]. injection Hret as <- <-.
  destruct (_is_materialized d) eqn:Hmat.
  { injection Hm as <- <-. eauto. }
  apply bind_inr in Hm as (d' & ha & _ & Hm).
  apply bind_inr in Hm as (cts & hb & _ & Hm).
  apply bind_inr in Hm as ([] & hc & _ & Hm).
  apply bind_inr in Hm as (tf & hd & _ & Hm).
  apply bind_inr in Hm as ([] & he & _ & Hm).
  apply bind_inr in Hm as ([] & hf & Hset & Hm).
  injection Hm as <- <-. split; [done|].
  unfold setattr in Hset.
  apply bind_inr in Hset as (de & he' & Hde & Hset).
  apply get_dataset_inr in Hde as [Hde ->].
  injection Hset as <-.
  eexists. split; [by eapply with_dataset_lookup|done].
Qed.

(** C2: [materialize] is idempotent.  When a call of [materialize] has
    returned, it has returned the instance it was called on, and a second
    call (with any device) returns that same instance and leaves the whole
    heap as it is: nothing is recomputed, and the tensor bundle and the
    column statistics read after the second call are those read after the
    first. *)
Theorem materialize_idempotent h self dev dev' r h1 :
  materialize self dev h = (inr r, h1) →
  r = self ∧
  materialize self dev' h1 = (inr self, h1) ∧
  (∀ h2 r2, materialize self dev' h1 = (r2, h2) →
     tensor_frame self h2 = tensor_frame self h1 ∧
     col_stats self h2 = col_stats self h1).
Proof.
  intros Hm. apply materialize_inr in Hm as (-> & d1 & Hd1 & Hmat).
  split; [done|].
  rewrite (materialize_materialized _ _ _ _ Hd1 Hmat).
  split; [done|]. by intros h2 r2 [= _ <-].
Qed.

(** C4: the materialization guards.  On a materialized dataset (as
    [materialize] leaves it) [col_select] raises the already-materialized
    error and the heap, the dataset included, is unchanged; on a dataset
    that is not materialized [index_select], [tensor_frame] and
    [col_stats] raise the not-materialized error. *)
Theorem materialization_guards h self d :
  datasets h !! self = Some d →
  (_is_materialized d = true →
     ∀ cols, col_select cols self h =
               (inl (AlreadyMaterializedError "col_select"), h)) ∧
  (_is_materialized d = false →
     (∀ index, index_select index self h =
                 (inl (NotMaterializedError "index_select"), h)) ∧
     tensor_frame self h = (inl (NotMaterializedError "tensor_frame"), h) ∧
     col_stats self h = (inl (NotMaterializedError "col_stats"), h)) ∧
  (∀ dev r h1 cols,
     materialize self dev h = (inr r, h1) →
     col_select cols self h1 =
       (inl (AlreadyMaterializedError "col_select"), h1)).
Proof.
  intros Hd. split; [|split].
  - intros Hmat cols. unfold col_select.
    by rewrite (requires_pre_run _ _ _ _ _ Hd), Hmat.
  - intros Hmat. unfold index_select, tensor_frame, col_stats.
    rewrite !(requires_post_run _ _ _ _ _ Hd), Hmat. split; [|done].
    intros index. by rewrite (requires_post_run _ _ _ _ _ Hd), Hmat.
  - intros dev r h1 cols Hm.
    apply materialize_inr in Hm as (-> & d1 & Hd1 & Hmat).
    unfold col_select. by rewrite (requires_pre_run _ _ _ _ _ Hd1), Hmat.
Qed.

(** C3: an unsupported semantic type aborts the materialization.  On a
    well-formed dataset that is not materialized and has a column whose
    semantic type is neither numerical nor categorical, [materialize]
    raises the unsupported-semantic-type error for such a type of one of
    the columns; the instances of the heap are as before the call, so the
    dataset is still not materialized, and [tensor_frame] and [col_stats]
    raise the not-materialized error instead of exposing anything. *)
Theorem materialize_unsupported h self d cts dev c s :
  datasets h !! self = Some d →
  _is_materialized d = false →
  wf h d cts →
  (c, s) ∈ cts →
  supported s = false →
  ∃ s' h',
    materialize self dev h = (inl (UnsupportedSemanticType s'), h') ∧
    supported s' = false ∧
    s' ∈ cts.*2 ∧
    datasets h' = datasets h ∧
    is_materialized self h' = (inr false, h') ∧
    tensor_frame self h' = (inl (NotMaterializedError "tensor_frame"), h') ∧
    col_stats self h' = (inl (NotMaterializedError "col_stats"), h').
Proof.
  intros Hd Hmat [Hcts [stats Hstats] Hnd Hcols Htarget] Hin Hs.
  rewrite (materialize_run _ _ _ _ _ _ Hd Hmat Hcts Hstats).
  unfold materialize_outcome.
  assert (∀ stats' : list (string * ColStats),
    let h' := with_stats h (_col_stats d) stats' in
    datasets h' = datasets h ∧
    is_materialized self h' = (inr false, h') ∧
    tensor_frame self h' = (inl (NotMaterializedError "tensor_frame"), h') ∧
    col_stats self h' = (inl (NotMaterializedError "col_stats"), h'))
    as Hafter.
  { intros stats' h'. assert (datasets h' !! self = Some d) as Hd' by done.
    split; [done|]. rewrite (is_materialized_run _ _ _ Hd'), Hmat.
    split; [done|]. unfold tensor_frame, col_stats.
    by rewrite !(requires_post_run _ _ _ _ _ Hd'), Hmat. }
  destruct (fill_stats (df d) cts stats) as [[e|[]] stats1] eqn:Hfill.
  - apply fill_stats_raises in Hfill as (c' & s' & Hin' & Hs' & ->); [|done].
    exists s', (with_stats h (_col_stats d) stats1).
    split; [done|]. split; [done|]. split; [|apply Hafter].
    apply list_elem_of_fmap. by exists (c', s').
  - pose proof (ttf_loop_outcome d dev cts stats1 no_locals Hcols) as Hloop.
    destruct (ttf_loop d dev cts stats1 no_locals) as [[e|acc] stats2].
    + destruct Hloop as (c' & s' & Hin' & Hs' & ->).
      { intros c0 Hc0. by eapply fill_stats_has_count. }
      exists s', (with_stats h (_col_stats d) stats2).
      split; [done|]. split; [done|]. split; [|apply Hafter].
      apply list_elem_of_fmap. by exists (c', s').
    + rewrite (Hloop (λ c0 Hc0, fill_stats_has_count _ _ _ _ _ Hfill Hnd Hc0)
                 c s Hin) in Hs.
      done.
Qed.

(** C1: the binary categorical target.  On a well-formed dataset that is
    not materialized, whose columns all have a supported type and whose
    target is categorical with two categories, [materialize] returns, and
    afterwards the pair stored for the target under [COUNT] in the
    dictionary [col_stats] gives is the computed pair re-ordered so that
    the categories ascend in the order of their values, ints by value and
    strings lexicographically, whatever their frequencies; the target
    tensor of the bundle is the categorical mapper's output for the
    mapper built from exactly that stored sequence of categories. *)
Theorem binary_target_sorted h self d cts dev t ser cs index value :
  datasets h !! self = Some d →
  _is_materialized d = false →
  wf h d cts →
  (∀ c s, (c, s) ∈ cts → supported s = true) →
  target_col d = Some t →
  PyDict.get t cts = Some categorical →
  Pandas.getitem (df d) t = inr ser →
  compute_col_stats ser categorical = Some cs →
  PyDict.get COUNT cs = Some (CountStat index value) →
  length index = 2 →
  ∃ h1 tf stats1 cs1 index1 value1,
    materialize self dev h = (inr self, h1) ∧
    col_stats self h1 = (inr (_col_stats d), h1) ∧
    stats_dicts h1 !! _col_stats d = Some stats1 ∧
    PyDict.get t stats1 = Some cs1 ∧
    PyDict.get COUNT cs1 = Some (CountStat index1 value1) ∧
    length index1 = 2 ∧
    Sorted cell_le index1 ∧
    zip index1 value1 ≡ₚ zip index value ∧
    tensor_frame self h1 = (inr (Some tf), h1) ∧
    y tf = Some (CategoricalTensorMapper_forward index1 ser dev).
Proof.
  intros Hd Hmat [Hcts [stats Hstats] Hnd Hcols Htarget] Hsup Ht Htc Hser Hcs
    Hcount Hlen.
  rewrite (materialize_run _ _ _ _ _ _ Hd Hmat Hcts Hstats).
  unfold materialize_outcome.
  destruct (fill_stats_ok (df d) cts stats) as [stats1 Hfill].
  { intros c s Hin. split; [|by eapply Hsup].
    by eapply Hcols, elem_of_keys. }
  rewrite Hfill.
  pose proof (ttf_loop_outcome d dev cts stats1 no_locals Hcols
    (λ c0 Hc0, fill_stats_has_count _ _ _ _ _ Hfill Hnd Hc0)) as Hloop.
  destruct (ttf_loop d dev cts stats1 no_locals) as [[e|acc] stats2] eqn:Hrun.
  { destruct Hloop as (c' & s' & Hin' & Hs' & _).
    rewrite (Hsup _ _ Hin') in Hs'. done. }
  clear Hloop.
  (* the target's entry after the first loop *)
  apply dict_get_Some_elem_of in Htc as Hin.
  destruct (fill_stats_get _ _ _ _ _ _ Hfill Hnd Hin) as (ser' & Hser' & Hg & _).
  rewrite Hser in Hser'. injection Hser' as <-. rewrite Hcs in Hg.
  (* the loop before, at and after the target *)
  apply list_elem_of_split in Hin as (pre & post & ->).
  unfold PyDict.keys in Hnd. rewrite fmap_app, fmap_cons in Hnd.
  apply NoDup_app in Hnd as (_ & Hpre & [Hpost _]%NoDup_cons). simpl in *.
  rewrite ttf_loop_app in Hrun.
  destruct (ttf_loop d dev pre stats1 no_locals) as [[e|acc1] stats'] eqn:Hrun1;
    [done|].
  apply ttf_loop_not_target in Hrun1 as [-> _].
  2:{ intros c Hc. rewrite Ht. intros [= ->].
      apply (Hpre t Hc), list_elem_of_here. }
  cbn [ttf_loop] in Hrun.
  rewrite (ttf_step_target _ _ _ _ _ _ _ _ _ Ht Hg Hcount Hlen Hser) in Hrun.
  apply ttf_loop_not_target in Hrun as [-> Hy].
  2:{ intros c Hc. rewrite Ht. by intros [= ->]. }
  simpl in Hy.
  set (sorted := Pandas.sort_index index value) in *.
  set (stats2 := PyDict.set t _ stats1).
  set (d1 := set_is_materialized (set_tensor_frame d (Some (bundle acc))) true).
  set (h1 := with_dataset (with_stats h (_col_stats d) stats2) self d1).
  assert (datasets h1 !! self = Some d1) as Hd1
    by by eapply with_dataset_lookup.
  exists h1, (bundle acc), stats2,
    (PyDict.set COUNT (CountStat sorted.1 sorted.2) cs), sorted.1, sorted.2.
  split; [done|].
  split; [by rewrite (col_stats_run _ _ _ Hd1)|].
  split; [by eapply with_stats_lookup|].
  split; [apply dict_get_set_eq|].
  split; [apply dict_get_set_eq|].
  destruct (compute_col_stats_COUNT _ _ Hcs) as (i & v & Hcount' & Hlens).
  rewrite Hcount in Hcount'. injection Hcount' as <- <-.
  split; [by unfold sorted; rewrite sort_index_length|].
  split; [apply sort_index_Sorted|].
  split; [apply sort_index_Permutation|].
  split; [by rewrite (tensor_frame_run _ _ _ Hd1)|].
  done.
Qed.

(** C5: the row count of a selection.  On a materialized dataset, the
    dataset [index_select] returns for a list of integer indices has as
    many rows as the list has entries, repeats included, and the one it
    returns for a single integer has one row.  It does return, for a list
    and for a single integer, when the bundle's tensors have the rows of
    the frame and every index is within [-n, n) for the [n] rows of the
    frame; for a single integer [i] within these bounds the one row of
    the result is the row at position [i mod n]. *)
Theorem index_select_len h self d idx :
  datasets h !! self = Some d →
  _is_materialized d = true →
  (∀ r h', index_select (IList idx) self h = (inr r, h') →
           len r h' = (inr (length idx), h')) ∧
  (∀ i r h', index_select (IInt i) self h = (inr r, h') →
             len r h' = (inr 1, h')) ∧
  (∀ tf, _tensor_frame d = Some tf →
         aligned tf (Pandas.len (df d)) →
         Forall (λ i, - Z.of_nat (Pandas.len (df d)) ≤ i
                      < Z.of_nat (Pandas.len (df d)))%Z idx →
         ∃ r h', index_select (IList idx) self h = (inr r, h') ∧
                 len r h' = (inr (length idx), h')) ∧
  (∀ tf i, _tensor_frame d = Some tf →
           aligned tf (Pandas.len (df d)) →
           (- Z.of_nat (Pandas.len (df d)) ≤ i
            < Z.of_nat (Pandas.len (df d)))%Z →
           ∃ r h' d' row,
             index_select (IInt i) self h = (inr r, h') ∧
             len r h' = (inr 1, h') ∧
             datasets h' !! r = Some d' ∧
             rows (df d) !! Z.to_nat (i mod Z.of_nat (Pandas.len (df d)))
               = Some row ∧
             rows (df d') = [row]).
Proof.
  intros Hd Hmat.
  assert (∀ idx r h',
    index_select_outcome h d (IList idx) = (inr r, h') →
    len r h' = (inr (length idx), h')) as Hlist.
  { clear idx. intros idx r h'. unfold index_select_outcome. simpl.
    unfold iloc. simpl.
    destruct (Pandas.positions (Pandas.len (df d)) idx) as [e|ps] eqn:Hps;
      [done|].
    destruct (_tensor_frame d) as [tf|]; [|done].
    destruct (TensorFrame_getitem tf (IList idx)) as [e|tf']; [done|].
    intros [= <- <-].
    rewrite (len_run _ _ _ (add_dataset_lookup_new h _)). simpl.
    apply positions_inr in Hps as [<- Hall].
    unfold Pandas.len. simpl. by rewrite take_length. }
  split; [|split; [|split]].
  - intros r h'. rewrite (index_select_run _ _ _ _ Hd Hmat). apply Hlist.
  - intros i r h'. rewrite (index_select_run _ _ _ _ Hd Hmat).
    apply (Hlist [i]).
  - intros tf Htf Hal Hidx.
    rewrite (index_select_run _ _ _ _ Hd Hmat).
    destruct (positions_in_range _ _ Hidx) as [ps Hps].
    assert (index_select_outcome h d (IList idx) =
            (inr (length (datasets h)),
             add_dataset h
               (set_tensor_frame
                  (set_df d {| columns := columns (df d);
                               rows := Pandas.take ps (rows (df d)) |})
                  (Some (select_rows ps tf))))) as Hout.
    { unfold index_select_outcome, iloc. simpl. rewrite Hps, Htf.
      by rewrite (TensorFrame_getitem_aligned tf (IList idx) _ ps Hps Hal). }
    rewrite Hout. eexists _, _. split; [done|]. by apply Hlist.
  - intros tf i Htf Hal Hi.
    assert (Pandas.position (Pandas.len (df d)) i
            = inr (Z.to_nat (i mod Z.of_nat (Pandas.len (df d))))) as Hp.
    { unfold Pandas.position. repeat case_decide; [| |lia].
      - by rewrite Z.mod_small by lia.
      - rewrite <-(Z.mod_add i 1 (Z.of_nat (Pandas.len (df d)))) by lia.
        rewrite Z.mod_small by lia. do 2 f_equal. lia. }
    destruct (lookup_lt_is_Some_2 (rows (df d))
                (Z.to_nat (i mod Z.of_nat (Pandas.len (df d))))) as [row Hrow].
    { unfold Pandas.len in *.
      pose proof (Z.mod_pos_bound i (Z.of_nat (length (rows (df d))))). lia. }
    rewrite (index_select_positions _ _ _ _ _ Hd Hmat Htf Hal).
    cbn [resolve_index as_index index_positions Pandas.positions].
    rewrite Hp.
    eexists _, _, _, row. split; [done|].
    rewrite (len_run _ _ _ (add_dataset_lookup_new h _)).
    assert (Pandas.take [Z.to_nat (i mod Z.of_nat (Pandas.len (df d)))]
              (rows (df d)) = [row]) as Htake.
    { unfold Pandas.take. cbn [omap list_omap]. by rewrite Hrow. }
    split.
    { unfold Pandas.len at 1.
      cbn [df set_tensor_frame set_df rows]. by rewrite Htake. }
    split; [apply add_dataset_lookup_new|].
    split; [done|]. cbn [df set_tensor_frame set_df rows]. exact Htake.
Qed.

(** C6: fractional slice bounds.  On a materialized dataset of [n] rows,
    [index_select] on a slice with a float bound [x] does what it does on
    the slice with the integer [round(x * n)] in its place, for the stop
    and for the start bound.  On a dataset of 10 rows whose bundle has
    those 10 rows, [index_select(slice(None, 0.5))] returns a new dataset
    whose frame and whose tensors are the first five rows, rows 0 to 4,
    of the original's. *)
Theorem index_select_fractional_slice h self d :
  datasets h !! self = Some d →
  _is_materialized d = true →
  (∀ x i start step,
     PyFloat.round (PyFloat.mul_int x (Z.of_nat (Pandas.len (df d)))) = inr i →
     index_select (ISlice start (BFloat x) step) self h =
     index_select (ISlice start (BInt i) step) self h) ∧
  (∀ x i stop step,
     PyFloat.round (PyFloat.mul_int x (Z.of_nat (Pandas.len (df d)))) = inr i →
     index_select (ISlice (BFloat x) stop step) self h =
     index_select (ISlice (BInt i) stop step) self h) ∧
  (∀ tf,
     Pandas.len (df d) = 10 →
     _tensor_frame d = Some tf →
     aligned tf 10 →
     ∃ r h' d',
       index_select (ISlice BNone (BFloat PyFloat.half) None) self h
         = (inr r, h') ∧
       datasets h' !! r = Some d' ∧
       columns (df d') = columns (df d) ∧
       rows (df d') = take 5 (rows (df d)) ∧
       _tensor_frame d' = Some (first_rows 5 tf)).
Proof.
  intros Hd Hmat. split; [|split].
  - intros x i start step Hround.
    rewrite !(index_select_run _ _ _ _ Hd Hmat).
    unfold index_select_outcome, resolve_index, resolve_bound at 2 4.
    by rewrite Hround.
  - intros x i stop step Hround.
    rewrite !(index_select_run _ _ _ _ Hd Hmat).
    unfold index_select_outcome, resolve_index, resolve_bound at 1 3.
    by rewrite Hround.
  - intros tf Hlen Htf Hal.
    rewrite (index_select_run _ _ _ _ Hd Hmat).
    unfold index_select_outcome, resolve_index, resolve_bound.
    rewrite Hlen. change (Z.of_nat 10) with 10%Z.
    rewrite round_half_of_ten.
    assert (index_positions (ISlice BNone (BInt 5) None) 10 = inr (seq 0 5))
      as Hps by (vm_compute; reflexivity).
    unfold iloc. cbn [as_index]. rewrite Hlen, Hps, Htf.
    rewrite (TensorFrame_getitem_aligned tf _ 10 _ Hps Hal).
    eexists _, _, _. split; [done|].
    split; [apply add_dataset_lookup_new|].
    cbn [df set_tensor_frame set_df columns rows _tensor_frame].
    split; [done|]. split.
    + apply take_seq. unfold Pandas.len in Hlen. lia.
    + f_equal. eapply select_rows_seq; [done|lia].
Qed.

(** C7 (amended): [index_select] makes a shallow copy.  When it returns
    on a materialized dataset, the instance it returns is a new one, and
    no object that existed before the call has changed: the lists, the
    dictionaries and every dataset of the heap, the original with its
    frame, its column types, its statistics and its bundle among them,
    are as they were.  The new instance has a frame and a bundle of its
    own: the frame with the columns of the original's and the rows at the
    positions the index selects, and the bundle that indexing the
    original's bundle with the same index gives.  But its [col_to_stype]
    and its [_col_stats] are references to the very dictionaries of the
    original. *)
Theorem index_select_shallow_copy h self d index r h' :
  datasets h !! self = Some d →
  _is_materialized d = true →
  index_select index self h = (inr r, h') →
  r = length (datasets h) ∧
  str_lists h' = str_lists h ∧
  stype_dicts h' = stype_dicts h ∧
  stats_dicts h' = stats_dicts h ∧
  (∀ l d0, datasets h !! l = Some d0 → datasets h' !! l = Some d0) ∧
  ∃ d',
    datasets h' = datasets h ++ [d'] ∧
    col_to_stype d' = col_to_stype d ∧
    _col_stats d' = _col_stats d ∧
    target_col d' = target_col d ∧
    _is_materialized d' = true ∧
    shares_mutable_state d d' ∧
    ∃ index' ps tf tf',
      resolve_index index (Pandas.len (df d)) = inr index' ∧
      index_positions (as_index index') (Pandas.len (df d)) = inr ps ∧
      df d' = {| columns := columns (df d);
                 rows := Pandas.take ps (rows (df d)) |} ∧
      _tensor_frame d = Some tf ∧
      TensorFrame_getitem tf (as_index index') = inr tf' ∧
      _tensor_frame d' = Some tf'.
Proof.
  intros Hd Hmat. rewrite (index_select_run _ _ _ _ Hd Hmat).
  unfold index_select_outcome, iloc.
  destruct (resolve_index index (Pandas.len (df d))) as [e|index']; [done|].
  destruct (index_positions (as_index index') (Pandas.len (df d)))
    as [e|ps] eqn:Hps; [done|].
  destruct (_tensor_frame d) as [tf|]; [|done].
  destruct (TensorFrame_getitem tf (as_index index')) as [e|tf'] eqn:Htf';
    [done|].
  intros [= <- <-]. simpl. repeat (split; [done|]).
  split; [intros l d0 Hl; by apply lookup_app_l_Some|].
  eexists. split; [done|]. simpl. repeat (split; [done|]).
  split; [by left|]. by exists index', ps, tf, tf'.
Qed.

(** C8: [col_select] keeps the target.  On a well-formed dataset that is
    not materialized and has a target, for requested columns that are
    keys of [col_to_stype] and do not include the target, [col_select]
    returns a new dataset, not materialized and with the same target,
    whose [col_to_stype] is a dictionary with exactly the requested
    columns and the target as keys, each with the type it has in the
    original; for one requested column [c] it is
    [{c: its type, target: its type}]. *)
Theorem col_select_keeps_target h self d cts arg cols t :
  datasets h !! self = Some d →
  _is_materialized d = false →
  wf h d cts →
  target_col d = Some t →
  arg_columns h arg = Some cols →
  t ∉ cols →
  (∀ c, c ∈ cols → c ∈ PyDict.keys cts) →
  ∃ r h' d' cts',
    col_select arg self h = (inr r, h') ∧
    datasets h' !! r = Some d' ∧
    stype_dicts h' !! col_to_stype d' = Some cts' ∧
    (∀ c, c ∈ PyDict.keys cts' ↔ c ∈ cols ∨ c = t) ∧
    (∀ c, c ∈ PyDict.keys cts' → PyDict.get c cts' = PyDict.get c cts) ∧
    (∀ c, cols = [c] →
       ∃ st stt, PyDict.get c cts = Some st ∧ PyDict.get t cts = Some stt ∧
                 cts' = [(c, st); (t, stt)]) ∧
    target_col d' = Some t ∧
    _is_materialized d' = false.
Proof.
  intros Hd Hmat [Hcts _ Hnd Hcols Htarget] Ht Harg Hnin Hreq.
  rewrite (col_select_run _ _ _ _ _ _ Hd Hmat Hcts Harg).
  assert (∀ h0 r0, stype_dicts h0 = stype_dicts h → datasets h0 = datasets h →
    ∃ r h' d' cts',
      col_select_outcome h0 d cts r0 cols = (inr r, h') ∧
      datasets h' !! r = Some d' ∧
      stype_dicts h' !! col_to_stype d' = Some cts' ∧
      (∀ c, c ∈ PyDict.keys cts' ↔ c ∈ cols ∨ c = t) ∧
      (∀ c, c ∈ PyDict.keys cts' → PyDict.get c cts' = PyDict.get c cts) ∧
      (∀ c, cols = [c] →
         ∃ st stt, PyDict.get c cts = Some st ∧ PyDict.get t cts = Some stt ∧
                   cts' = [(c, st); (t, stt)]) ∧
      target_col d' = Some t ∧
      _is_materialized d' = false) as Hgen.
  { intros h0 r0 Hst Hds. unfold col_select_outcome, with_target.
    rewrite Ht, decide_False by done.
    assert (∀ c, c ∈ cols ++ [t] → c ∈ PyDict.keys cts) as Hall.
    { intros c [Hc|Hc%list_elem_of_singleton]%elem_of_app; [by apply Hreq|].
      subst c. by apply Htarget. }
    destruct (getitem_list_ok (df d) (cols ++ [t])) as (df' & -> & _).
    { intros c Hc. by apply Hcols, Hall. }
    destruct (project_ok cts (cols ++ [t]) [] Hall) as [cts' Hp].
    rewrite Hp. eexists _, _, _, cts'. split; [done|].
    split; [simpl; rewrite Hds; by rewrite lookup_app_r, Nat.sub_diag|].
    split; [simpl; rewrite Hst; by rewrite lookup_app_r, Nat.sub_diag|].
    split.
    { intros c. rewrite (project_keys _ _ _ _ c Hp), elem_of_app.
      rewrite list_elem_of_singleton. unfold PyDict.keys. simpl.
      rewrite elem_of_nil. tauto. }
    split.
    { intros c. apply (project_get _ _ _ _ c Hp). unfold PyDict.keys. simpl.
      by intros ?%elem_of_nil. }
    split; [|done].
    intros c ->. simpl in Hp.
    destruct (dict_get_is_Some cts c) as [st Hst'];
      [apply Hreq, list_elem_of_here|].
    destruct (dict_get_is_Some cts t) as [stt Hstt]; [by apply Htarget|].
    rewrite Hst', Hstt in Hp. rewrite decide_False in Hp.
    - injection Hp as <-. by exists st, stt.
    - intros ->. apply Hnin, list_elem_of_here. }
  destruct arg as [c|r0]; by apply Hgen.
Qed.

(** C10: [col_select] appends the target to the caller's list.  On a
    dataset that is not materialized and has a target, a call of
    [col_select] with a reference to a list that does not contain the
    target leaves that very list object with the target appended, whether
    the call then returns or raises. *)
Theorem col_select_appends_target h self d cts r cols t :
  datasets h !! self = Some d →
  _is_materialized d = false →
  stype_dicts h !! col_to_stype d = Some cts →
  target_col d = Some t →
  str_lists h !! r = Some cols →
  t ∉ cols →
  ∀ res h', col_select (CList r) self h = (res, h') →
            str_lists h' !! r = Some (cols ++ [t]).
Proof.
  intros Hd Hmat Hcts Ht Hl Hnin res h'.
  rewrite (col_select_run _ _ _ _ (CList r) cols Hd Hmat Hcts Hl).
  unfold col_select_outcome, with_target. rewrite Ht, decide_False by done.
  pose proof (with_list_lookup h r cols (cols ++ [t]) Hl) as Hl'.
  destruct (Pandas.getitem_list (df d) (cols ++ [t])) as [e|df'].
  { by intros [= _ <-]. }
  destruct (project cts (cols ++ [t]) []) as [e|cts']; by intros [= _ <-].
Qed.

(** C9 (amended): the check of the constructor.  When the target, if one
    is given, is a key of [col_to_stype]: the constructor computes the set
    of those keys that are not columns of the frame; if the set is not
    empty it raises the missing-column error carrying exactly that set and
    the heap is as before, no instance having been made; if the set is
    empty it returns a new instance, not materialized, with an empty
    statistics dictionary of its own and no bundle. *)
Theorem Dataset_init_checks_columns h df0 r cts target :
  stype_dicts h !! r = Some cts →
  (∀ t, target = Some t → t ∈ PyDict.keys cts) →
  let missing : gset string :=
    list_to_set (PyDict.keys cts) ∖ list_to_set (columns df0) in
  (∀ c, c ∈ missing ↔
        (c ∈ PyDict.keys cts ∨ target = Some c) ∧ c ∉ columns df0) ∧
  (missing ≠ ∅ →
   Dataset_init df0 r target h = (inl (MissingColumnError missing), h)) ∧
  (missing = ∅ →
   Dataset_init df0 r target h =
     (inr (length (datasets h)),
      add_dataset (add_stats_dict h [])
        {| df := df0; col_to_stype := r; target_col := target;
           _is_materialized := false; _col_stats := length (stats_dicts h);
           _tensor_frame := None |})).
Proof.
  intros Hcts Htarget missing.
  assert (∃ feat, feat_cols_of cts target = inr feat) as [feat Hfeat].
  { unfold feat_cols_of. destruct target as [t|]; [|by eexists].
    destruct (list_remove_is_Some t (PyDict.keys cts)) as [l' ->];
      [by apply Htarget|by eexists]. }
  pose proof (Dataset_init_run h df0 r cts target Hcts) as Hrun.
  rewrite Hfeat in Hrun. cbv zeta in Hrun. fold missing in Hrun.
  split; [|split].
  - intros c. unfold missing.
    rewrite elem_of_difference, !elem_of_list_to_set.
    split; [tauto|]. intros [[?|Hc] ?]; [done|]. split; [|done].
    by apply Htarget.
  - intros Hne. rewrite Hrun. rewrite decide_True; [done|].
    assert (size missing ≠ 0); [|lia].
    rewrite size_non_empty_iff. by intros ?%leibniz_equiv.
  - intros Hempty. rewrite Hrun. rewrite decide_False; [done|].
    rewrite Hempty, size_empty. lia.
Qed.

(** * Further properties of the class *)

(** ** [feat_cols] *)

Lemma filter_ne_id (x : string) (l : list string) :
  x ∉ l → filter (λ c, Some c ≠ Some x) l = l.
Proof.
  induction l as [|y l IH]; [done|].
  intros [Hne Hnin]%not_elem_of_cons.
  rewrite filter_cons_True by congruence. by rewrite IH.
Qed.

Lemma list_remove_filter (x : string) (l : list string) :
  NoDup l → x ∈ l →
  list_remove x l = Some (filter (λ c, Some c ≠ Some x) l).
Proof.
  induction l as [|y l IH]; intros Hnd Hin.
  { by apply elem_of_nil in Hin. }
  apply NoDup_cons in Hnd as [Hy Hnd]. simpl.
  destruct (decide (x = y)) as [->|Hne].
  - rewrite filter_cons_False by (intros Hc; by apply Hc).
    by rewrite filter_ne_id.
  - apply elem_of_cons in Hin as [?|Hin]; [done|].
    rewrite filter_cons_True by congruence.
    by rewrite (IH Hnd Hin).
Qed.

(** X1: the feature columns.  On a well-formed dataset [feat_cols] does
    not raise: it returns the keys of [col_to_stype] in their order with
    the target left out, and it changes nothing (the list it removes the
    target from is a copy of the keys). *)
Theorem feat_cols_are_the_other_keys h self d cts :
  datasets h !! self = Some d →
  wf h d cts →
  feat_cols self h =
    (inr (filter (λ c, Some c ≠ target_col d) (PyDict.keys cts)), h).
Proof.
  intros Hd [Hcts _ Hnd _ Htarget]. unfold feat_cols.
  rewrite (bind_run _ _ _ _ _ (get_dataset_run _ _ _ Hd)).
  rewrite (bind_run _ _ _ _ _ (get_stype_dict_run _ _ _ Hcts)).
  rewrite lift_run. unfold feat_cols_of.
  destruct (target_col d) as [t|].
  - by rewrite (list_remove_filter _ _ Hnd (Htarget t eq_refl)).
  - f_equal. f_equal. symmetry. clear.
    induction (PyDict.keys cts) as [|c l IH]; [done|].
    rewrite filter_cons_True by done. by rewrite IH.
Qed.

(** ** [materialize] *)

(** X2: when [materialize] returns.  On a well-formed dataset that is not
    materialized, [materialize] returns (the dataset itself) exactly when
    every column of [col_to_stype] has the numerical or the categorical
    type. *)
Theorem materialize_returns_iff_supported h self d cts dev :
  datasets h !! self = Some d →
  _is_materialized d = false →
  wf h d cts →
  (∃ h1, materialize self dev h = (inr self, h1)) ↔
  (∀ c s, (c, s) ∈ cts → supported s = true).
Proof.
  intros Hd Hmat [Hcts [stats Hstats] Hnd Hcols Htarget].
  rewrite (materialize_run _ _ _ _ _ _ Hd Hmat Hcts Hstats).
  unfold materialize_outcome. split.
  - intros [h1 Hrun].
    destruct (fill_stats (df d) cts stats) as [[e|[]] stats1] eqn:Hfill;
      [done|].
    pose proof (ttf_loop_outcome d dev cts stats1 no_locals Hcols
      (λ c0 Hc0, fill_stats_has_count _ _ _ _ _ Hfill Hnd Hc0)) as Hloop.
    by destruct (ttf_loop d dev cts stats1 no_locals) as [[e|acc] stats2].
  - intros Hsup.
    destruct (fill_stats_ok (df d) cts stats) as [stats1 Hfill].
    { intros c s Hin. split; [|by eapply Hsup].
      by eapply Hcols, elem_of_keys. }
    rewrite Hfill.
    pose proof (ttf_loop_outcome d dev cts stats1 no_locals Hcols
      (λ c0 Hc0, fill_stats_has_count _ _ _ _ _ Hfill Hnd Hc0)) as Hloop.
    destruct (ttf_loop d dev cts stats1 no_locals) as [[e|acc] stats2].
    + destruct Hloop as (c' & s' & Hin' & Hs' & _).
      rewrite (Hsup _ _ Hin') in Hs'. done.
    + by eexists.
Qed.

(** X3: what [materialize] touches.  Whether it returns or raises,
    [materialize] on a dataset that is not materialized changes no list,
    no [col_to_stype] dictionary, no statistics dictionary but the one
    the dataset refers to, and no other dataset; the dataset keeps its
    frame, its column types, its target and its statistics reference. *)
Theorem materialize_frame h self d cts dev res h1 :
  datasets h !! self = Some d →
  _is_materialized d = false →
  wf h d cts →
  materialize self dev h = (res, h1) →
  str_lists h1 = str_lists h ∧
  stype_dicts h1 = stype_dicts h ∧
  (∀ r, r ≠ _col_stats d → stats_dicts h1 !! r = stats_dicts h !! r) ∧
  (∀ l, l ≠ self → datasets h1 !! l = datasets h !! l) ∧
  ∃ d1, datasets h1 !! self = Some d1 ∧
        df d1 = df d ∧
        col_to_stype d1 = col_to_stype d ∧
        target_col d1 = target_col d ∧
        _col_stats d1 = _col_stats d.
Proof.
  intros Hd Hmat [Hcts [stats Hstats] _ _ _].
  rewrite (materialize_run _ _ _ _ _ _ Hd Hmat Hcts Hstats).
  unfold materialize_outcome.
  assert (∀ stats' : list (string * ColStats),
    ∀ r, r ≠ _col_stats d →
      stats_dicts (with_stats h (_col_stats d) stats') !! r
        = stats_dicts h !! r) as Hother.
  { intros stats' r Hr. simpl. by rewrite list_lookup_insert_ne. }
  destruct (fill_stats (df d) cts stats) as [[e|[]] stats1].
  { intros [= <- <-]. repeat (split; [done || by apply Hother|]).
    by exists d. }
  destruct (ttf_loop d dev cts stats1 no_locals) as [[e|acc] stats2].
  { intros [= <- <-]. repeat (split; [done || by apply Hother|]).
    by exists d. }
  intros [= <- <-]. split; [done|]. split; [done|].
  split; [by apply Hother|].
  split.
  { intros l Hl. simpl. by rewrite list_lookup_insert_ne. }
  eexists. split; [by eapply with_dataset_lookup|done].
Qed.

(** *** The loop of [_to_tensor_frame], one step read backwards *)

Lemma dict_get_app {K V : Type} `{EqDecision K} (k : K) (d1 d2 : list (K * V)) :
  PyDict.get k (d1 ++ d2) =
    match PyDict.get k d1 with
    | Some v => Some v
    | None => PyDict.get k d2
    end.
Proof.
  induction d1 as [|[k0 v0] d1 IH]; simpl; [done|].
  by destruct (decide (k = k0)).
Qed.

Lemma dict_get_append {K A : Type} `{EqDecision K} (k k' : K) (x : A)
    (d : list (K * list A)) :
  PyDict.get k' (PyDict.append k x d) =
    if decide (k = k') then Some (default [] (PyDict.get k d) ++ [x])
    else PyDict.get k' d.
Proof.
  unfold PyDict.append. destruct (PyDict.get k d) as [xs|] eqn:Hk.
  - destruct (decide (k = k')) as [<-|Hne].
    + by rewrite dict_get_set_eq.
    + by rewrite dict_get_set_ne.
  - rewrite dict_get_app. simpl. destruct (decide (k = k')) as [<-|Hne].
    + rewrite Hk. by rewrite decide_True.
    + rewrite decide_False by done. by destruct (PyDict.get k' d).
Qed.

Lemma ttf_finish_inv d dev acc col st mapper stats acc' stats' :
  ttf_finish d dev acc col st mapper stats = (inr acc', stats') →
  stats' = stats ∧
  ∃ ser,
    Pandas.getitem (df d) col = inr ser ∧
    acc' =
      if decide (Some col = target_col d)
      then {| xs_dict := xs_dict acc; names_dict := names_dict acc;
              y_out := Some (TensorMapper_forward mapper ser dev) |}
      else {| xs_dict :=
                PyDict.append st (TensorMapper_forward mapper ser dev)
                  (xs_dict acc);
              names_dict := PyDict.append st col (names_dict acc);
              y_out := y_out acc |}.
Proof.
  unfold ttf_finish. destruct (Pandas.getitem (df d) col) as [e|ser]; [done|].
  intros [= <- <-]. split; [done|]. by exists ser.
Qed.

(** A step that does not raise: the column went through a mapper to [y] or
    to the features of its type, and the statistics are as before unless
    the column is the categorical target with two categories. *)
Lemma ttf_step_inv d dev stats acc col st acc' stats' :
  ttf_step d dev stats acc (col, st) = (inr acc', stats') →
  (∃ mapper ser,
     Pandas.getitem (df d) col = inr ser ∧
     acc' =
       if decide (Some col = target_col d)
       then {| xs_dict := xs_dict acc; names_dict := names_dict acc;
               y_out := Some (TensorMapper_forward mapper ser dev) |}
       else {| xs_dict :=
                 PyDict.append st (TensorMapper_forward mapper ser dev)
                   (xs_dict acc);
               names_dict := PyDict.append st col (names_dict acc);
               y_out := y_out acc |}) ∧
  (stats' = stats ∨
   Some col = target_col d ∧ st = categorical ∧
   ∃ cs index value,
     PyDict.get col stats = Some cs ∧
     PyDict.get COUNT cs = Some (CountStat index value) ∧
     length index = 2 ∧
     stats' =
       PyDict.set col
         (PyDict.set COUNT
            (CountStat (Pandas.sort_index index value).1
               (Pandas.sort_index index value).2) cs) stats).
Proof.
  unfold ttf_step. destruct st as [| |v]; [| |done].
  - intros [-> [ser Hser]]%ttf_finish_inv. split; [|by left]. eauto.
  - destruct (PyDict.get col stats) as [cs|] eqn:Hcs; [|done].
    destruct (PyDict.get COUNT cs) as [[index value|x]|] eqn:Hcount;
      [|done..].
    destruct (decide (Some col = target_col d ∧ length index = 2))
      as [[Ht Hlen]|_].
    + intros [-> [ser Hser]]%ttf_finish_inv. split; [eauto|].
      right. split; [done|]. split; [done|]. by exists cs, index, value.
    + intros [-> [ser Hser]]%ttf_finish_inv. split; [eauto|]. by left.
Qed.

(** *** The names of the feature columns *)

Lemma feature_names_snoc cts target col st0 st :
  feature_names (cts ++ [(col, st0)]) target st =
    feature_names cts target st ++
      (if decide (st0 = st ∧ Some col ≠ target) then [col] else []).
Proof.
  unfold feature_names. rewrite filter_app, fmap_app. f_equal.
  rewrite filter_cons. simpl.
  destruct (decide (st0 = st ∧ Some col ≠ target)); by rewrite filter_nil.
Qed.

Lemma entry_snoc {A : Type} (l : list A) x : entry (l ++ [x]) = Some (l ++ [x]).
Proof. by destruct l. Qed.

Lemma default_entry {A : Type} (l : list A) : default [] (entry l) = l.
Proof. by destruct l. Qed.

Lemma ttf_loop_names d dev items : ∀ seen stats acc acc' stats',
  (∀ st, PyDict.get st (names_dict acc)
         = entry (feature_names seen (target_col d) st)) →
  ttf_loop d dev items stats acc = (inr acc', stats') →
  ∀ st, PyDict.get st (names_dict acc')
        = entry (feature_names (seen ++ items) (target_col d) st).
Proof.
  induction items as [|[col st0] items IH];
    intros seen stats acc acc' stats' Hinv.
  { simpl. intros [= <- <-]. by rewrite app_nil_r. }
  cbn [ttf_loop].
  destruct (ttf_step d dev stats acc (col, st0)) as [[e|acc1] stats1] eqn:Hstep;
    [done|].
  intros Hloop.
  apply ttf_step_inv in Hstep as [(mapper & ser & _ & Hacc1) _].
  rewrite (cons_middle _ seen items), app_assoc.
  apply (IH _ _ _ _ _) with (2 := Hloop).
  intros st. rewrite feature_names_snoc. subst acc1.
  destruct (decide (Some col = target_col d)) as [Ht|Ht]; simpl.
  - rewrite decide_False by (by intros [_ ?]). by rewrite app_nil_r.
  - rewrite dict_get_append, Hinv, default_entry.
    destruct (decide (st0 = st)) as [->|Hne].
    + rewrite decide_True by done. by rewrite entry_snoc.
    + rewrite decide_False by (by intros [? _]). by rewrite app_nil_r.
Qed.

(** What a returned [materialize] has computed: the statistics after the
    first loop, the loop variables and the statistics after the second. *)
Lemma materialize_inr_outcome h self d cts stats dev h1 :
  datasets h !! self = Some d →
  _is_materialized d = false →
  stype_dicts h !! col_to_stype d = Some cts →
  stats_dicts h !! _col_stats d = Some stats →
  materialize self dev h = (inr self, h1) →
  ∃ stats1 acc stats2,
    fill_stats (df d) cts stats = (inr tt, stats1) ∧
    ttf_loop d dev cts stats1 no_locals = (inr acc, stats2) ∧
    tensor_frame self h1 = (inr (Some (bundle acc)), h1) ∧
    col_stats self h1 = (inr (_col_stats d), h1) ∧
    stats_dicts h1 !! _col_stats d = Some stats2.
Proof.
  intros Hd Hmat Hcts Hstats.
  rewrite (materialize_run _ _ _ _ _ _ Hd Hmat Hcts Hstats).
  unfold materialize_outcome.
  destruct (fill_stats (df d) cts stats) as [[e|[]] stats1]; [done|].
  destruct (ttf_loop d dev cts stats1 no_locals) as [[e|acc] stats2] eqn:Hloop;
    [done|].
  intros [= <-]. exists stats1, acc, stats2.
  set (d1 := set_is_materialized (set_tensor_frame d (Some (bundle acc))) true).
  set (h1 := with_dataset (with_stats h (_col_stats d) stats2) self d1).
  assert (datasets h1 !! self = Some d1) as Hd1
    by by eapply with_dataset_lookup.
  split; [done|]. split; [done|].
  split; [by rewrite (tensor_frame_run _ _ _ Hd1)|].
  split; [by rewrite (col_stats_run _ _ _ Hd1)|].
  by eapply with_stats_lookup.
Qed.

(** X4: the column names of the bundle.  When [materialize] has
    returned, [col_names_dict] has, for each semantic type, the columns of
    [col_to_stype] of that type other than the target, in the order of
    [col_to_stype], and no entry for a type without such a column. *)
Theorem materialize_col_names h self d cts dev h1 :
  datasets h !! self = Some d →
  _is_materialized d = false →
  wf h d cts →
  materialize self dev h = (inr self, h1) →
  ∃ tf,
    tensor_frame self h1 = (inr (Some tf), h1) ∧
    ∀ st, PyDict.get st (col_names_dict tf)
          = entry (feature_names cts (target_col d) st).
Proof.
  intros Hd Hmat [Hcts [stats Hstats] _ _ _] Hrun.
  destruct (materialize_inr_outcome _ _ _ _ _ _ _ Hd Hmat Hcts Hstats Hrun)
    as (stats1 & acc & stats2 & _ & Hloop & Htf & _).
  exists (bundle acc). split; [done|].
  intros st. simpl.
  by apply (ttf_loop_names d dev cts [] stats1 no_locals acc stats2).
Qed.

(** *** The feature tensors go with the names *)

Lemma paired_get {A B : Type} (xd : list (stype * list A))
    (nd : list (stype * list B)) st :
  paired xd nd →
  match PyDict.get st xd, PyDict.get st nd with
  | Some xs, Some ns => length xs = length ns
  | None, None => True
  | _, _ => False
  end.
Proof.
  induction 1 as [|[s1 xs] [s2 ns] xd nd [Hk Hlen] _ IH]; simpl in *; [done|].
  subst s2. by destruct (decide (st = s1)).
Qed.

Lemma paired_set {A B : Type} (xd : list (stype * list A))
    (nd : list (stype * list B)) st xs ns :
  paired xd nd → length xs = length ns →
  paired (PyDict.set st xs xd) (PyDict.set st ns nd).
Proof.
  intros Hp Hlen.
  induction Hp as [|[s1 xs1] [s2 ns1] xd nd [Hk Hl] Hp IH]; simpl in *.
  { by repeat constructor. }
  subst s2. destruct (decide (st = s1)); by constructor.
Qed.

Lemma paired_append {A B : Type} (xd : list (stype * list A))
    (nd : list (stype * list B)) st x c :
  paired xd nd → paired (PyDict.append st x xd) (PyDict.append st c nd).
Proof.
  intros Hp. pose proof (paired_get xd nd st Hp) as Hget.
  unfold PyDict.append.
  destruct (PyDict.get st xd) as [xs|], (PyDict.get st nd) as [ns|];
    try done.
  - apply paired_set; [done|]. rewrite !length_app. simpl. lia.
  - apply Forall2_app; [done|]. by repeat constructor.
Qed.

Lemma ttf_loop_paired d dev items : ∀ stats acc acc' stats',
  paired (xs_dict acc) (names_dict acc) →
  ttf_loop d dev items stats acc = (inr acc', stats') →
  paired (xs_dict acc') (names_dict acc').
Proof.
  induction items as [|[col st0] items IH]; intros stats acc acc' stats' Hp.
  { simpl. by intros [= <- <-]. }
  cbn [ttf_loop].
  destruct (ttf_step d dev stats acc (col, st0)) as [[e|acc1] stats1] eqn:Hstep;
    [done|].
  apply IH.
  apply ttf_step_inv in Hstep as [(mapper & ser & _ & ->) _].
  destruct (decide (Some col = target_col d)); simpl; [done|].
  by apply paired_append.
Qed.

Lemma dict_get_fmap_values {K A B : Type} `{EqDecision K} (f : A → B) (k : K)
    (d : list (K * A)) :
  PyDict.get k ((λ '(k', v), (k', f v)) <$> d) = f <$> PyDict.get k d.
Proof.
  induction d as [|[k0 v0] d IH]; simpl; [done|].
  by destruct (decide (k = k0)).
Qed.

Lemma zip_with_cons_length (x : list telem) (l : list (list telem)) k :
  Forall (λ row, length row = k) l →
  Forall (λ row, length row = S k) (zip_with cons x l).
Proof.
  intros Hl. revert x. induction Hl as [|row l Hrow _ IH]; intros [|e x];
    simpl; try constructor; [by simpl; f_equal|apply IH].
Qed.

Lemma stack_dim1_row_length (xs : list (list telem)) :
  Forall (λ row, length row = length xs) (stack_dim1 xs).
Proof.
  induction xs as [|x xs IH]; [constructor|].
  destruct xs as [|x' xs].
  - simpl. apply Forall_fmap, Forall_forall. by intros e _.
  - change (stack_dim1 (x :: x' :: xs))
      with (zip_with cons x (stack_dim1 (x' :: xs))).
    by apply zip_with_cons_length.
Qed.

(** X5: the shape of the feature tensors.  When [materialize] has
    returned, [x_dict] and [col_names_dict] have the same semantic types
    in the same order, and the tensor of a type has one row per row of the
    frame and one column per name listed for the type. *)
Theorem materialize_x_dict_shape h self d cts dev h1 :
  datasets h !! self = Some d →
  _is_materialized d = false →
  wf h d cts →
  materialize self dev h = (inr self, h1) →
  ∃ tf,
    tensor_frame self h1 = (inr (Some tf), h1) ∧
    (x_dict tf).*1 = (col_names_dict tf).*1 ∧
    ∀ st names,
      PyDict.get st (col_names_dict tf) = Some names →
      ∃ x, PyDict.get st (x_dict tf) = Some x ∧
           length x = Pandas.len (df d) ∧
           Forall (λ row, length row = length names) x.
Proof.
  intros Hd Hmat [Hcts [stats Hstats] _ _ _] Hrun.
  destruct (materialize_inr_outcome _ _ _ _ _ _ _ Hd Hmat Hcts Hstats Hrun)
    as (stats1 & acc & stats2 & _ & Hloop & Htf & _).
  exists (bundle acc). split; [done|].
  assert (paired (xs_dict acc) (names_dict acc)) as Hp.
  { eapply ttf_loop_paired; [|done]. constructor. }
  assert (locals_aligned (Pandas.len (df d)) acc) as [Hal _].
  { eapply ttf_loop_aligned; [|done]. split; [constructor|done]. }
  split.
  - simpl. clear -Hp.
    induction Hp as [|[s1 xs] [s2 ns] xd nd [Hk _] _ IH]; [done|].
    cbn [fmap list_fmap fst] in *. by rewrite Hk, IH.
  - intros st names Hnames. simpl in *.
    pose proof (paired_get _ _ st Hp) as Hget. rewrite Hnames in Hget.
    destruct (PyDict.get st (xs_dict acc)) as [xs|] eqn:Hxs; [|done].
    exists (stack_dim1 xs).
    split; [by rewrite dict_get_fmap_values, Hxs|].
    apply dict_get_Some_elem_of in Hxs.
    pose proof (proj1 (Forall_forall _ _) Hal _ Hxs) as [Hne Hcols].
    simpl in *. split; [by apply stack_dim1_length|].
    rewrite <-Hget. apply stack_dim1_row_length.
Qed.

(** *** The target tensor *)

Lemma ttf_loop_y d dev items : ∀ stats acc acc' stats',
  ttf_loop d dev items stats acc = (inr acc', stats') →
  is_Some (y_out acc') ↔
  is_Some (y_out acc) ∨ ∃ c, c ∈ PyDict.keys items ∧ Some c = target_col d.
Proof.
  induction items as [|[col st0] items IH]; intros stats acc acc' stats'.
  { simpl. intros [= <- <-]. split; [by left|].
    intros [?|(c & Hc & _)]; [done|]. by apply elem_of_nil in Hc. }
  cbn [ttf_loop].
  destruct (ttf_step d dev stats acc (col, st0)) as [[e|acc1] stats1] eqn:Hstep;
    [done|].
  intros Hloop. rewrite (IH _ _ _ _ Hloop).
  apply ttf_step_inv in Hstep as [(mapper & ser & _ & ->) _].
  unfold PyDict.keys. simpl.
  destruct (decide (Some col = target_col d)) as [Ht|Ht]; simpl.
  - split; [|by left]. intros _. right. exists col.
    split; [apply list_elem_of_here|done].
  - split.
    + intros [?|(c & Hc & Hct)]; [by left|]. right. exists c.
      split; [by apply list_elem_of_further|done].
    + intros [?|(c & Hc & Hct)]; [by left|]. right. exists c.
      apply elem_of_cons in Hc as [->|Hc]; [done|]. done.
Qed.

(** X6: the target tensor.  When [materialize] has returned on a
    well-formed dataset, the bundle has a target tensor [y] exactly when
    the dataset has a target column, and [y] has one element per row of
    the frame. *)
Theorem materialize_target_tensor h self d cts dev h1 :
  datasets h !! self = Some d →
  _is_materialized d = false →
  wf h d cts →
  materialize self dev h = (inr self, h1) →
  ∃ tf,
    tensor_frame self h1 = (inr (Some tf), h1) ∧
    (is_Some (y tf) ↔ is_Some (target_col d)) ∧
    (∀ t, y tf = Some t → length t = Pandas.len (df d)).
Proof.
  intros Hd Hmat [Hcts [stats Hstats] _ _ Htarget] Hrun.
  destruct (materialize_inr_outcome _ _ _ _ _ _ _ Hd Hmat Hcts Hstats Hrun)
    as (stats1 & acc & stats2 & _ & Hloop & Htf & _).
  exists (bundle acc). split; [done|]. simpl. split.
  - rewrite (ttf_loop_y _ _ _ _ _ _ _ Hloop). simpl. split.
    + intros [[? [=]]|(c & _ & <-)]. by eexists.
    + intros [t Ht]. right. exists t. split; [by apply Htarget|done].
  - assert (locals_aligned (Pandas.len (df d)) acc) as [_ Hy]; [|done].
    eapply ttf_loop_aligned; [|done]. split; [constructor|done].
Qed.

(** *** The statistics that are stored *)

Lemma ttf_loop_keeps_entry d dev items : ∀ stats acc acc' stats' c cs,
  ttf_loop d dev items stats acc = (inr acc', stats') →
  PyDict.get c stats = Some cs →
  (∀ index value,
     (c, categorical) ∈ items → Some c = target_col d →
     PyDict.get COUNT cs = Some (CountStat index value) →
     length index ≠ 2) →
  PyDict.get c stats' = Some cs.
Proof.
  induction items as [|[col st0] items IH];
    intros stats acc acc' stats' c cs.
  { simpl. by intros [= <- <-]. }
  cbn [ttf_loop].
  destruct (ttf_step d dev stats acc (col, st0)) as [[e|acc1] stats1] eqn:Hstep;
    [done|].
  intros Hloop Hget Hnot.
  apply (IH _ _ _ _ _ _ Hloop).
  - apply ttf_step_inv in Hstep as [_ [->|Hwrite]]; [done|].
    destruct Hwrite as (Ht & -> & cs0 & index & value & Hcs0 & Hcount & Hlen
                        & ->).
    destruct (decide (col = c)) as [->|Hne].
    + rewrite Hget in Hcs0. injection Hcs0 as <-.
      destruct (Hnot index value); [apply list_elem_of_here|done..].
    + by rewrite dict_get_set_ne.
  - intros index value Hin. apply Hnot. by apply list_elem_of_further.
Qed.

Lemma keys_functional (cts : list (string * stype)) c s1 s2 :
  NoDup (PyDict.keys cts) → (c, s1) ∈ cts → (c, s2) ∈ cts → s1 = s2.
Proof.
  intros Hnd H1 H2.
  apply (dict_get_elem_of _ _ _ Hnd) in H1.
  apply (dict_get_elem_of _ _ _ Hnd) in H2. congruence.
Qed.

(** X7: the stored statistics.  When [materialize] has returned on a
    well-formed dataset, the dictionary [col_stats] gives has, for every
    column of [col_to_stype], the statistics [compute_col_stats] computes
    for the column and its type, unchanged: the only entry that is
    rewritten is that of a categorical target with two categories.  A
    categorical feature column, and a target with another number of
    categories, keep the order [compute_col_stats] has given them. *)
Theorem materialize_col_stats_entries h self d cts dev h1 :
  datasets h !! self = Some d →
  _is_materialized d = false →
  wf h d cts →
  materialize self dev h = (inr self, h1) →
  ∃ stats2,
    col_stats self h1 = (inr (_col_stats d), h1) ∧
    stats_dicts h1 !! _col_stats d = Some stats2 ∧
    ∀ c st, (c, st) ∈ cts →
      ∃ ser cs,
        Pandas.getitem (df d) c = inr ser ∧
        compute_col_stats ser st = Some cs ∧
        ((Some c = target_col d ∧ st = categorical ∧
          ∃ index value,
            PyDict.get COUNT cs = Some (CountStat index value) ∧
            length index = 2) ∨
         PyDict.get c stats2 = Some cs).
Proof.
  intros Hd Hmat [Hcts [stats Hstats] Hnd _ _] Hrun.
  destruct (materialize_inr_outcome _ _ _ _ _ _ _ Hd Hmat Hcts Hstats Hrun)
    as (stats1 & acc & stats2 & Hfill & Hloop & _ & Hcs & Hstats2).
  exists stats2. split; [done|]. split; [done|].
  intros c st Hin.
  destruct (fill_stats_get _ _ _ _ _ _ Hfill Hnd Hin)
    as (ser & Hser & Hg & [cs Hcompute]).
  exists ser, cs. split; [done|]. split; [done|].
  rewrite Hcompute in Hg.
  destruct (decide (Some c = target_col d)) as [Ht|Ht].
  2:{ right. apply (ttf_loop_keeps_entry _ _ _ _ _ _ _ _ _ Hloop Hg).
      by intros. }
  destruct (decide (st = categorical)) as [->|Hst].
  2:{ right. apply (ttf_loop_keeps_entry _ _ _ _ _ _ _ _ _ Hloop Hg).
      intros index value Hin' _ _.
      destruct Hst. by apply (keys_functional cts c). }
  destruct (PyDict.get COUNT cs) as [[index value|x]|] eqn:Hcount.
  - destruct (decide (length index = 2)) as [Hlen|Hlen].
    + left. split; [done|]. split; [done|]. by exists index, value.
    + right. apply (ttf_loop_keeps_entry _ _ _ _ _ _ _ _ _ Hloop Hg).
      intros index' value' _ _ Hc'. rewrite Hcount in Hc'.
      by injection Hc' as <- <-.
  - right. apply (ttf_loop_keeps_entry _ _ _ _ _ _ _ _ _ Hloop Hg).
    intros index' value' _ _ Hc'. by rewrite Hcount in Hc'.
  - right. apply (ttf_loop_keeps_entry _ _ _ _ _ _ _ _ _ Hloop Hg).
    intros index' value' _ _ Hc'. by rewrite Hcount in Hc'.
Qed.

(** ** [col_select] *)

(** [col_select] from the heap [h0] in which its argument is the list
    [r0]: [h] itself for a list argument, [h] with the new one-element
    list for a string. *)
Lemma col_select_cases h self d cts arg cols :
  datasets h !! self = Some d →
  _is_materialized d = false →
  stype_dicts h !! col_to_stype d = Some cts →
  arg_columns h arg = Some cols →
  ∃ h0 r0,
    col_select arg self h = col_select_outcome h0 d cts r0 cols ∧
    stype_dicts h0 = stype_dicts h ∧
    stats_dicts h0 = stats_dicts h ∧
    datasets h0 = datasets h ∧
    str_lists h0 !! r0 = Some cols ∧
    match arg with
    | CStr _ => h0 = add_list h cols ∧ r0 = length (str_lists h)
    | CList r => h0 = h ∧ r0 = r
    end.
Proof.
  intros Hd Hmat Hcts Harg.
  rewrite (col_select_run _ _ _ _ _ _ Hd Hmat Hcts Harg).
  destruct arg as [c|r]; simpl in Harg.
  - injection Harg as <-. eexists _, _. split; [done|].
    repeat (split; [done|]). split; [|done].
    simpl. by rewrite lookup_app_r, Nat.sub_diag.
  - by eexists _, _.
Qed.

Lemma col_select_outcome_inr h0 d cts r0 cols r h' :
  col_select_outcome h0 d cts r0 cols = (inr r, h') →
  ∃ df' cts',
    Pandas.getitem_list (df d) (with_target (target_col d) cols) = inr df' ∧
    project cts (with_target (target_col d) cols) [] = inr cts' ∧
    r = length (datasets h0) ∧
    h' = add_stype_dict
           (add_dataset
              (with_list h0 r0 (with_target (target_col d) cols))
              (set_col_to_stype (set_df d df') (length (stype_dicts h0))))
           cts'.
Proof.
  unfold col_select_outcome.
  destruct (Pandas.getitem_list _ _) as [e|df']; [done|].
  destruct (project _ _ _) as [e|cts']; [done|].
  intros [= <- <-]. by exists df', cts'.
Qed.

(** X8: what the copy shares.  When [col_select] returns, it has made one
    new dataset and one new [col_to_stype] dictionary and changed no
    dataset and no dictionary that existed: the original keeps its own
    column types.  The new dataset has its own dictionary of column types
    but refers to the same statistics dictionary as the original. *)
Theorem col_select_shares_statistics h self d cts arg cols r h' :
  datasets h !! self = Some d →
  _is_materialized d = false →
  stype_dicts h !! col_to_stype d = Some cts →
  arg_columns h arg = Some cols →
  col_select arg self h = (inr r, h') →
  ∃ d' cts',
    datasets h' = datasets h ++ [d'] ∧
    r = length (datasets h) ∧
    stype_dicts h' = stype_dicts h ++ [cts'] ∧
    stats_dicts h' = stats_dicts h ∧
    col_to_stype d' = length (stype_dicts h) ∧
    col_to_stype d' ≠ col_to_stype d ∧
    _col_stats d' = _col_stats d ∧
    target_col d' = target_col d ∧
    _is_materialized d' = false.
Proof.
  intros Hd Hmat Hcts Harg.
  destruct (col_select_cases _ _ _ _ _ _ Hd Hmat Hcts Harg)
    as (h0 & r0 & -> & Hst & Hss & Hds & _ & _).
  intros (df' & cts' & _ & _ & -> & ->)%col_select_outcome_inr.
  eexists _, cts'. simpl. rewrite Hst, Hss, Hds.
  repeat (split; [done|]). split; [|done].
  apply lookup_lt_Some in Hcts. simpl. lia.
Qed.

(** *** The projected frame *)

Lemma get_locs_lookup cols have js c k :
  Pandas.get_locs cols have = inr js →
  Pandas.get_loc c cols = Some k →
  ∃ j, Pandas.get_loc c have = Some j ∧ js !! k = Some j.
Proof.
  revert js k. induction cols as [|c0 cols IH]; intros js k; simpl; [done|].
  destruct (Pandas.get_loc c0 have) as [j0|] eqn:Hj0; [|done].
  destruct (Pandas.get_locs cols have) as [e|js'] eqn:Hjs; [done|].
  intros [= <-].
  destruct (decide (c = c0)) as [->|Hne].
  - intros [= <-]. by exists j0.
  - destruct (Pandas.get_loc c cols) as [k'|] eqn:Hk; [|done].
    intros [= <-]. by apply (IH js' k').
Qed.

Lemma getitem_list_getitem df0 cols df' c :
  Pandas.getitem_list df0 cols = inr df' →
  c ∈ cols →
  Pandas.getitem df' c = Pandas.getitem df0 c.
Proof.
  unfold Pandas.getitem_list.
  destruct (Pandas.get_locs cols (columns df0)) as [e|js] eqn:Hjs; [done|].
  intros [= <-] Hin. unfold Pandas.getitem. simpl.
  destruct (get_loc_is_Some _ _ Hin) as [k Hk]. rewrite Hk.
  destruct (get_locs_lookup _ _ _ _ _ Hjs Hk) as (j & -> & Hj).
  f_equal. rewrite <-list_fmap_compose. apply list_fmap_ext.
  intros _ row _. simpl. by rewrite list_lookup_fmap, Hj.
Qed.

Lemma getitem_list_inr df0 cols df' :
  Pandas.getitem_list df0 cols = inr df' →
  columns df' = cols ∧ Pandas.len df' = Pandas.len df0.
Proof.
  unfold Pandas.getitem_list.
  destruct (Pandas.get_locs cols (columns df0)) as [e|js]; [done|].
  intros [= <-]. split; [done|]. unfold Pandas.len. simpl.
  by rewrite length_fmap.
Qed.

(** X9: the frame of the selection.  When [col_select] returns, the new
    dataset has as many rows as the original, its frame has the requested
    columns followed by the target if that was not requested, and each of
    these columns holds the values it holds in the original. *)
Theorem col_select_frame h self d cts arg cols r h' :
  datasets h !! self = Some d →
  _is_materialized d = false →
  stype_dicts h !! col_to_stype d = Some cts →
  arg_columns h arg = Some cols →
  col_select arg self h = (inr r, h') →
  ∃ d',
    datasets h' !! r = Some d' ∧
    len r h' = (inr (Pandas.len (df d)), h') ∧
    columns (df d') = with_target (target_col d) cols ∧
    ∀ c, c ∈ with_target (target_col d) cols →
         Pandas.getitem (df d') c = Pandas.getitem (df d) c.
Proof.
  intros Hd Hmat Hcts Harg.
  destruct (col_select_cases _ _ _ _ _ _ Hd Hmat Hcts Harg)
    as (h0 & r0 & -> & Hst & Hss & Hds & _ & _).
  intros (df' & cts' & Hdf' & _ & -> & ->)%col_select_outcome_inr.
  destruct (getitem_list_inr _ _ _ Hdf') as [Hcols Hlen].
  eexists.
  assert (∀ x, datasets (add_stype_dict
             (add_dataset (with_list h0 r0 (with_target (target_col d) cols))
                x) cts') !! length (datasets h0) = Some x) as Hnew.
  { intros x. simpl. by rewrite lookup_app_r, Nat.sub_diag. }
  split; [apply Hnew|].
  split; [by rewrite (len_run _ _ _ (Hnew _)); simpl; rewrite Hlen|].
  split; [done|].
  intros c Hc. simpl. by eapply getitem_list_getitem.
Qed.

(** *** The projected column types *)

Lemma dict_set_fresh {K V : Type} `{EqDecision K} (k : K) (v : V)
    (d : list (K * V)) :
  k ∉ PyDict.keys d → PyDict.set k v d = d ++ [(k, v)].
Proof.
  unfold PyDict.keys. induction d as [|[k0 v0] d IH]; simpl; [done|].
  intros [Hne Hnin]%not_elem_of_cons.
  rewrite decide_False by done. by rewrite IH.
Qed.

Lemma project_suffix cts suf : ∀ pre,
  NoDup (PyDict.keys (pre ++ suf)) →
  (∀ c st, (c, st) ∈ suf → PyDict.get c cts = Some st) →
  project cts (PyDict.keys suf) pre = inr (pre ++ suf).
Proof.
  unfold PyDict.keys.
  induction suf as [|[c st] suf IH]; intros pre Hnd Hget; simpl.
  { by rewrite app_nil_r. }
  rewrite (Hget c st) by apply list_elem_of_here.
  rewrite dict_set_fresh.
  - rewrite (cons_middle _ pre suf), app_assoc. apply IH.
    + by rewrite <-app_assoc.
    + intros c' st' Hin. by apply Hget, list_elem_of_further.
  - rewrite fmap_app in Hnd. apply NoDup_app in Hnd as (_ & Hdisj & _).
    intros Hin. apply (Hdisj c Hin). simpl. apply list_elem_of_here.
Qed.

Lemma project_all cts :
  NoDup (PyDict.keys cts) → project cts (PyDict.keys cts) [] = inr cts.
Proof.
  intros Hnd. apply (project_suffix cts cts []); [done|].
  intros c st Hin. by apply dict_get_elem_of.
Qed.

Lemma with_target_id (target : option string) (cols : list string) :
  (∀ t, target = Some t → t ∈ cols) → with_target target cols = cols.
Proof.
  intros Hin. unfold with_target. destruct target as [t|]; [|done].
  by rewrite decide_True by by apply Hin.
Qed.

(** X10: selecting every column.  On a well-formed dataset that is not
    materialized, [col_select] with the list of all the keys of
    [col_to_stype], in their order, returns a dataset whose [col_to_stype]
    is a new dictionary equal to the original's, whose frame has exactly
    those columns, and the list is left as it was. *)
Theorem col_select_all_columns h self d cts r0 :
  datasets h !! self = Some d →
  _is_materialized d = false →
  wf h d cts →
  str_lists h !! r0 = Some (PyDict.keys cts) →
  ∃ r h' d',
    col_select (CList r0) self h = (inr r, h') ∧
    datasets h' !! r = Some d' ∧
    stype_dicts h' !! col_to_stype d' = Some cts ∧
    col_to_stype d' ≠ col_to_stype d ∧
    columns (df d') = PyDict.keys cts ∧
    str_lists h' = str_lists h.
Proof.
  intros Hd Hmat [Hcts _ Hnd Hcols Htarget] Hl.
  rewrite (col_select_run _ _ _ _ (CList r0) _ Hd Hmat Hcts Hl).
  unfold col_select_outcome.
  rewrite (with_target_id _ _ Htarget), (project_all _ Hnd).
  destruct (getitem_list_ok (df d) (PyDict.keys cts) Hcols)
    as (df' & -> & Hcolumns).
  eexists _, _, _. split; [done|]. simpl.
  split; [by rewrite lookup_app_r, Nat.sub_diag|].
  split; [by rewrite lookup_app_r, Nat.sub_diag|].
  split; [apply lookup_lt_Some in Hcts; simpl; lia|].
  split; [done|]. by rewrite list_insert_id.
Qed.

(** X11: the caller's lists.  Whether it returns or raises, [col_select]
    with a list changes no other list, and leaves in the list the
    requested columns with the target appended if it was missing: the
    list is unchanged when the dataset has no target or the list names it
    already. *)
Theorem col_select_lists h self d cts r0 cols res h' :
  datasets h !! self = Some d →
  _is_materialized d = false →
  stype_dicts h !! col_to_stype d = Some cts →
  str_lists h !! r0 = Some cols →
  col_select (CList r0) self h = (res, h') →
  str_lists h' !! r0 = Some (with_target (target_col d) cols) ∧
  (∀ r, r ≠ r0 → str_lists h' !! r = str_lists h !! r) ∧
  ((∀ t, target_col d = Some t → t ∈ cols) → str_lists h' = str_lists h).
Proof.
  intros Hd Hmat Hcts Hl.
  rewrite (col_select_run _ _ _ _ (CList r0) _ Hd Hmat Hcts Hl).
  unfold col_select_outcome.
  assert (str_lists (with_list h r0 (with_target (target_col d) cols)) !! r0
          = Some (with_target (target_col d) cols)) as Hl'
    by by eapply with_list_lookup.
  assert (∀ r, r ≠ r0 →
    str_lists (with_list h r0 (with_target (target_col d) cols)) !! r
    = str_lists h !! r) as Hother.
  { intros r Hr. simpl. by rewrite list_lookup_insert_ne. }
  assert ((∀ t, target_col d = Some t → t ∈ cols) →
    str_lists (with_list h r0 (with_target (target_col d) cols))
    = str_lists h) as Hsame.
  { intros Hin. rewrite (with_target_id _ _ Hin). simpl.
    by rewrite list_insert_id. }
  destruct (Pandas.getitem_list _ _) as [e|df']; [by intros [= <- <-]|].
  destruct (project _ _ _) as [e|cts']; by intros [= <- <-].
Qed.

Lemma dict_set_NoDup {K V : Type} `{EqDecision K} (k : K) (v : V)
    (d : list (K * V)) :
  NoDup (PyDict.keys d) → NoDup (PyDict.keys (PyDict.set k v d)).
Proof.
  unfold PyDict.keys. induction d as [|[k0 v0] d IH]; simpl.
  { intros _. apply NoDup_singleton. }
  intros [Hk0 Hnd]%NoDup_cons. destruct (decide (k = k0)) as [->|Hne]; simpl.
  - by apply NoDup_cons.
  - apply NoDup_cons. split; [|by apply IH].
    pose proof (proj1 (dict_keys_set_elem_of k k0 v d)) as Hk.
    unfold PyDict.keys in Hk. intros [?|?]%Hk; [congruence|done].
Qed.

Lemma project_NoDup cts cols : ∀ acc cts',
  NoDup (PyDict.keys acc) →
  project cts cols acc = inr cts' →
  NoDup (PyDict.keys cts').
Proof.
  induction cols as [|c cols IH]; intros acc cts' Hnd; simpl.
  { by intros [= <-]. }
  destruct (PyDict.get c cts) as [st|]; [|done].
  apply IH. by apply dict_set_NoDup.
Qed.

Lemma with_target_elem_of (target : option string) cols t :
  target = Some t → t ∈ with_target target cols.
Proof.
  intros ->. unfold with_target. destruct (decide (t ∈ cols)); [done|].
  apply elem_of_app. right. apply list_elem_of_here.
Qed.

(** X12: [col_select] keeps datasets well-formed.  When [col_select]
    returns on a well-formed dataset, the new dataset is well-formed with
    its new column types: their keys are distinct, are columns of the
    projected frame and include the target.  So the selection can be
    materialized in its turn. *)
Theorem col_select_wf h self d cts arg cols r h' :
  datasets h !! self = Some d →
  _is_materialized d = false →
  wf h d cts →
  arg_columns h arg = Some cols →
  col_select arg self h = (inr r, h') →
  ∃ d' cts',
    datasets h' !! r = Some d' ∧
    _is_materialized d' = false ∧
    wf h' d' cts'.
Proof.
  intros Hd Hmat [Hcts [stats Hstats] Hnd Hcols Htarget] Harg.
  destruct (col_select_cases _ _ _ _ _ _ Hd Hmat Hcts Harg)
    as (h0 & r0 & -> & Hst & Hss & Hds & _ & _).
  intros (df' & cts' & Hdf' & Hp & -> & ->)%col_select_outcome_inr.
  destruct (getitem_list_inr _ _ _ Hdf') as [Hcolumns _].
  eexists _, cts'. simpl.
  split; [by rewrite lookup_app_r, Nat.sub_diag|].
  split; [done|]. split; simpl.
  - by rewrite lookup_app_r, Nat.sub_diag.
  - rewrite Hss. by eexists.
  - eapply project_NoDup; [|done]. constructor.
  - intros c Hc. rewrite Hcolumns.
    apply (project_keys _ _ _ _ c Hp) in Hc as [?|Hc]; [done|].
    by apply elem_of_nil in Hc.
  - intros t Ht. apply (project_keys _ _ _ _ t Hp). left.
    by apply with_target_elem_of.
Qed.

Lemma get_locs_inl cols have e :
  Pandas.get_locs cols have = inl e →
  ∃ c, c ∈ cols ∧ c ∉ have ∧ e = KeyError c.
Proof.
  induction cols as [|c0 cols IH]; simpl; [done|].
  destruct (Pandas.get_loc c0 have) as [j0|] eqn:Hj0.
  - destruct (Pandas.get_locs cols have) as [e'|js]; [|done].
    intros [= <-]. destruct (IH eq_refl) as (c & Hc & Hnin & ->).
    exists c. split; [by apply list_elem_of_further|done].
  - intros [= <-]. exists c0. split; [apply list_elem_of_here|].
    split; [|done]. intros Hin.
    destruct (get_loc_is_Some _ _ Hin) as [j Hj]. congruence.
Qed.

Lemma project_inl cts cols : ∀ acc e,
  project cts cols acc = inl e →
  ∃ c, c ∈ cols ∧ c ∉ PyDict.keys cts ∧ e = KeyError c.
Proof.
  induction cols as [|c0 cols IH]; intros acc e; simpl; [done|].
  destruct (PyDict.get c0 cts) as [st|] eqn:Hget.
  - intros (c & Hc & Hnin & ->)%IH.
    exists c. split; [by apply list_elem_of_further|done].
  - intros [= <-]. exists c0. split; [apply list_elem_of_here|].
    split; [|done]. intros Hin.
    destruct (dict_get_is_Some _ _ Hin) as [st Hst]. congruence.
Qed.

Lemma project_inr_subset cts cols : ∀ acc cts',
  project cts cols acc = inr cts' → ∀ c, c ∈ cols → c ∈ PyDict.keys cts.
Proof.
  induction cols as [|c0 cols IH]; intros acc cts'; simpl.
  { intros _ c Hc. by apply elem_of_nil in Hc. }
  destruct (PyDict.get c0 cts) as [st|] eqn:Hget; [|done].
  intros Hp c [->|Hc]%elem_of_cons; [by eapply dict_get_Some_keys|].
  by eapply IH.
Qed.

(** X13: when [col_select] returns.  On a well-formed dataset that is not
    materialized, [col_select] returns exactly when every requested
    column is a key of [col_to_stype]; otherwise it raises [KeyError] for
    a requested column that is not a key, and no dataset and no
    dictionary that existed has changed. *)
Theorem col_select_returns_iff_keys h self d cts arg cols :
  datasets h !! self = Some d →
  _is_materialized d = false →
  wf h d cts →
  arg_columns h arg = Some cols →
  ((∃ r h', col_select arg self h = (inr r, h')) ↔
   (∀ c, c ∈ cols → c ∈ PyDict.keys cts)) ∧
  (∀ e h', col_select arg self h = (inl e, h') →
     (∃ c, c ∈ cols ∧ c ∉ PyDict.keys cts ∧ e = KeyError c) ∧
     stype_dicts h' = stype_dicts h ∧
     stats_dicts h' = stats_dicts h ∧
     ∀ l d0, datasets h !! l = Some d0 → datasets h' !! l = Some d0).
Proof.
  intros Hd Hmat [Hcts _ Hnd Hcols Htarget] Harg.
  destruct (col_select_cases _ _ _ _ _ _ Hd Hmat Hcts Harg)
    as (h0 & r0 & -> & Hst & Hss & Hds & _ & _).
  assert (∀ c, c ∈ with_target (target_col d) cols →
               c ∉ PyDict.keys cts → c ∈ cols) as Hreq.
  { intros c Hc Hnin. unfold with_target in Hc.
    destruct (target_col d) as [t|] eqn:Ht; [|done].
    destruct (decide (t ∈ cols)); [done|].
    apply elem_of_app in Hc as [?|Hc%list_elem_of_singleton]; [done|].
    subst c. destruct Hnin. by apply Htarget. }
  split; [split|].
  - intros (r & h' & (df' & cts' & _ & Hp & _)%col_select_outcome_inr).
    intros c Hc. apply (project_inr_subset _ _ _ _ Hp).
    unfold with_target. destruct (target_col d) as [t|]; [|done].
    destruct (decide (t ∈ cols)); [done|]. apply elem_of_app. by left.
  - intros Hall. unfold col_select_outcome.
    assert (∀ c, c ∈ with_target (target_col d) cols → c ∈ PyDict.keys cts)
      as Hall'.
    { intros c Hc. destruct (decide (c ∈ PyDict.keys cts)); [done|].
      by apply Hall, Hreq. }
    destruct (getitem_list_ok (df d) (with_target (target_col d) cols))
      as (df' & -> & _).
    { intros c Hc. by apply Hcols, Hall'. }
    destruct (project_ok cts _ [] Hall') as [cts' ->]. by eexists _, _.
  - intros e h'. unfold col_select_outcome, Pandas.getitem_list.
    destruct (Pandas.get_locs _ _) as [e0|js] eqn:Hlocs.
    + intros [= <- <-].
      apply get_locs_inl in Hlocs as (c & Hc & Hnin & ->).
      split.
      { exists c. assert (c ∉ PyDict.keys cts) by (intros ?; by apply Hnin, Hcols).
        split; [by apply Hreq|done]. }
      simpl. rewrite Hst, Hss, Hds. repeat (split; [done|]).
      intros l d0 Hl. by apply lookup_app_l_Some.
    + destruct (project _ _ _) as [e0|cts'] eqn:Hp; [|done].
      intros [= <- <-].
      apply project_inl in Hp as (c & Hc & Hnin & ->).
      split; [exists c; split; [by apply Hreq|done]|].
      simpl. rewrite Hst, Hss, Hds. repeat (split; [done|]).
      intros l d0 Hl. by apply lookup_app_l_Some.
Qed.

(** ** [index_select] *)

Lemma position_inr n i p :
  Pandas.position n i = inr p →
  (- Z.of_nat n ≤ i < Z.of_nat n)%Z ∧ p = Z.to_nat (i mod Z.of_nat n) ∧ p < n.
Proof.
  unfold Pandas.position. repeat case_decide; [| |done]; intros [= <-].
  - rewrite Z.mod_small by lia. lia.
  - rewrite <-(Z.mod_add i 1 (Z.of_nat n)) by lia.
    rewrite Z.mod_small by lia. lia.
Qed.

Lemma position_inl n i e :
  Pandas.position n i = inl e →
  ¬ (- Z.of_nat n ≤ i < Z.of_nat n)%Z ∧ e = IndexError OutOfBounds.
Proof.
  unfold Pandas.position. repeat case_decide; [done..|].
  intros [= <-]. split; [lia|done].
Qed.

Lemma positions_inl n idx e :
  Pandas.positions n idx = inl e →
  e = IndexError OutOfBounds ∧
  ∃ i, i ∈ idx ∧ ¬ (- Z.of_nat n ≤ i < Z.of_nat n)%Z.
Proof.
  induction idx as [|i idx IH]; simpl; [done|].
  destruct (Pandas.position n i) as [e'|p] eqn:Hp.
  - intros [= <-]. apply position_inl in Hp as [Hi ->].
    split; [done|]. exists i. split; [apply list_elem_of_here|done].
  - destruct (Pandas.positions n idx) as [e'|ps]; [|done].
    intros [= <-]. destruct (IH eq_refl) as [-> (i' & Hin & Hi')].
    split; [done|]. exists i'. split; [by apply list_elem_of_further|done].
Qed.

Lemma positions_Forall n idx ps :
  Pandas.positions n idx = inr ps →
  Forall (λ i, - Z.of_nat n ≤ i < Z.of_nat n)%Z idx.
Proof.
  revert ps. induction idx as [|i idx IH]; intros ps; simpl; [by constructor|].
  destruct (Pandas.position n i) as [e|p] eqn:Hp; [done|].
  destruct (Pandas.positions n idx) as [e|ps'] eqn:Hps; [done|].
  intros _. constructor; [|by eapply IH].
  by apply position_inr in Hp as [? _].
Qed.

Lemma position_in_range n i :
  (- Z.of_nat n ≤ i < Z.of_nat n)%Z →
  Pandas.position n i = inr (Z.to_nat (i mod Z.of_nat n)).
Proof.
  intros Hi. unfold Pandas.position. repeat case_decide; [| |lia].
  - by rewrite Z.mod_small by lia.
  - rewrite <-(Z.mod_add i 1 (Z.of_nat n)) by lia.
    rewrite Z.mod_small by lia. do 2 f_equal. lia.
Qed.

(** X14: the bounds of a row index.  On a materialized dataset of [n]
    rows whose bundle has those rows, [index_select] with a list of
    integers returns exactly when every integer is within [-n, n); an
    integer outside makes it raise [IndexError], and then no object that
    existed has changed.  With one integer [i] within the bounds it
    returns a new dataset whose single row is the row at position
    [i mod n], so [-1] selects the last row; with one integer outside it
    raises [IndexError]. *)
Theorem index_select_bounds h self d tf idx :
  datasets h !! self = Some d →
  _is_materialized d = true →
  _tensor_frame d = Some tf →
  aligned tf (Pandas.len (df d)) →
  let n := Z.of_nat (Pandas.len (df d)) in
  ((∃ r h', index_select (IList idx) self h = (inr r, h')) ↔
   Forall (λ i, - n ≤ i < n)%Z idx) ∧
  (∀ e h', index_select (IList idx) self h = (inl e, h') →
     e = IndexError OutOfBounds ∧
     str_lists h' = str_lists h ∧ stype_dicts h' = stype_dicts h ∧
     stats_dicts h' = stats_dicts h ∧
     ∀ l d0, datasets h !! l = Some d0 → datasets h' !! l = Some d0) ∧
  (∀ i, (- n ≤ i < n)%Z →
     ∃ r h' d' row,
       index_select (IInt i) self h = (inr r, h') ∧
       datasets h' !! r = Some d' ∧
       rows (df d) !! Z.to_nat (i mod n) = Some row ∧
       rows (df d') = [row]) ∧
  (∀ i, ¬ (- n ≤ i < n)%Z →
     ∃ h', index_select (IInt i) self h = (inl (IndexError OutOfBounds), h')).
Proof.
  intros Hd Hmat Htf Hal n.
  rewrite !(index_select_positions _ _ _ _ _ Hd Hmat Htf Hal).
  cbn [resolve_index as_index index_positions].
  split; [split|split; [|split]].
  - intros (r & h' & Hrun). revert Hrun.
    destruct (Pandas.positions (Pandas.len (df d)) idx) as [e|ps] eqn:Hps;
      [done|]. intros _. by eapply positions_Forall.
  - intros Hall. destruct (positions_in_range _ _ Hall) as [ps ->].
    by eexists _, _.
  - intros e h'.
    destruct (Pandas.positions (Pandas.len (df d)) idx) as [e0|ps] eqn:Hps;
      [|done].
    intros [= <- <-]. apply positions_inl in Hps as [-> _].
    repeat (split; [done|]). intros l d0 Hl. by apply lookup_app_l_Some.
  - intros i Hi.
    rewrite (index_select_positions _ _ _ _ _ Hd Hmat Htf Hal).
    cbn [resolve_index as_index index_positions Pandas.positions].
    rewrite (position_in_range _ _ Hi). fold n.
    destruct (lookup_lt_is_Some_2 (rows (df d)) (Z.to_nat (i mod n)))
      as [row Hrow].
    { pose proof (Z.mod_pos_bound i n). unfold n, Pandas.len in *. lia. }
    eexists _, _, _, row. split; [done|].
    split; [apply add_dataset_lookup_new|].
    split; [done|]. cbn [df set_tensor_frame set_df rows].
    unfold Pandas.take. cbn [omap list_omap]. by rewrite Hrow.
  - intros i Hi.
    rewrite (index_select_positions _ _ _ _ _ Hd Hmat Htf Hal).
    cbn [resolve_index as_index index_positions Pandas.positions].
    unfold Pandas.position. fold n.
    rewrite decide_False by lia. rewrite decide_False by lia.
    by eexists.
Qed.

Lemma take_lookup {A : Type} (l : list A) ps p q :
  Forall (λ p, p < length l) ps →
  ps !! p = Some q → Pandas.take ps l !! p = l !! q.
Proof.
  unfold Pandas.take. intros Hall. revert p.
  induction Hall as [|p0 ps Hp0 _ IH]; intros p; [done|].
  destruct (lookup_lt_is_Some_2 l p0 Hp0) as [x Hx]. simpl. rewrite Hx. simpl.
  destruct p as [|p]; simpl; [by intros [= <-]|]. apply IH.
Qed.

Lemma take_cons {A : Type} (l : list A) p ps :
  Pandas.take (p :: ps) l =
    match l !! p with
    | Some x => x :: Pandas.take ps l
    | None => Pandas.take ps l
    end.
Proof. done. Qed.

(** Gathering twice is gathering once, at the gathered positions. *)
Lemma take_take {A : Type} (l : list A) ps1 ps2 :
  Forall (λ p, p < length l) ps1 →
  Pandas.take ps2 (Pandas.take ps1 l) = Pandas.take (Pandas.take ps2 ps1) l.
Proof.
  intros Hall. induction ps2 as [|p ps2 IH]; [done|].
  rewrite (take_cons (Pandas.take ps1 l)), (take_cons ps1).
  destruct (ps1 !! p) as [q|] eqn:Hq.
  - rewrite (take_lookup l ps1 p q Hall Hq), take_cons.
    destruct (l !! q); by rewrite IH.
  - apply lookup_ge_None in Hq.
    pose proof (take_length l ps1 Hall) as Hlen.
    rewrite (proj2 (lookup_ge_None _ p)) by lia. done.
Qed.

Lemma take_Forall_lt ps2 (ps1 : list nat) n :
  Forall (λ p, p < n) ps1 → Forall (λ p, p < n) (Pandas.take ps2 ps1).
Proof.
  intros Hall. unfold Pandas.take. apply Forall_forall. intros q Hq.
  apply list_elem_of_omap in Hq as (p & _ & Hq).
  apply list_elem_of_lookup_2 in Hq. by eapply (proj1 (Forall_forall _ _)) in Hall.
Qed.

Lemma positions_of_nat n ps :
  Forall (λ p, p < n) ps → Pandas.positions n (Z.of_nat <$> ps) = inr ps.
Proof.
  induction 1 as [|p ps Hp _ IH]; [done|].
  rewrite fmap_cons. cbn [Pandas.positions]. unfold Pandas.position.
  rewrite decide_True by lia. by rewrite IH, Nat2Z.id.
Qed.

Lemma select_rows_select_rows tf n ps1 ps2 :
  aligned tf n → Forall (λ p, p < n) ps1 →
  select_rows ps2 (select_rows ps1 tf) = select_rows (Pandas.take ps2 ps1) tf.
Proof.
  intros [Hx Hy] Hps. unfold select_rows. simpl. f_equal.
  - rewrite <-list_fmap_compose.
    apply list_eq_Forall2, Forall2_fmap, Forall_Forall2_diag.
    eapply Forall_impl; [exact Hx|]. intros [s x] Hlen. simpl in *.
    rewrite take_take; [done|]. by rewrite Hlen.
  - destruct (y tf) as [t|]; [|done]. simpl.
    rewrite take_take; [done|]. by rewrite (Hy t eq_refl).
Qed.

(** X15: selecting rows twice composes.  On a materialized dataset whose
    bundle has the frame's rows, selecting the rows [idx1] and then, from
    the result, the rows [idx2] gives the frame and the tensors that one
    selection from the original gives, with the index list obtained by
    looking the second positions up in the first. *)
Theorem index_select_compose h self d tf idx1 idx2 r1 h1 r2 h2 :
  datasets h !! self = Some d →
  _is_materialized d = true →
  _tensor_frame d = Some tf →
  aligned tf (Pandas.len (df d)) →
  index_select (IList idx1) self h = (inr r1, h1) →
  index_select (IList idx2) r1 h1 = (inr r2, h2) →
  ∃ ps1 ps2 r3 h3 d2 d3,
    Pandas.positions (Pandas.len (df d)) idx1 = inr ps1 ∧
    Pandas.positions (length idx1) idx2 = inr ps2 ∧
    index_select (IList (Z.of_nat <$> Pandas.take ps2 ps1)) self h
      = (inr r3, h3) ∧
    datasets h2 !! r2 = Some d2 ∧
    datasets h3 !! r3 = Some d3 ∧
    df d2 = df d3 ∧
    _tensor_frame d2 = _tensor_frame d3.
Proof.
  intros Hd Hmat Htf Hal Hrun1 Hrun2.
  destruct (index_select_aligned _ _ _ _ _ _ _ Hd Hmat Htf Hal Hrun1)
    as (d1 & tf1 & Hd1 & Hmat1 & Htf1 & Hal1).
  rewrite (index_select_positions _ _ _ _ _ Hd1 Hmat1 Htf1 Hal1) in Hrun2.
  rewrite (index_select_positions _ _ _ _ _ Hd Hmat Htf Hal) in Hrun1.
  cbn [resolve_index as_index index_positions] in *.
  destruct (Pandas.positions (Pandas.len (df d)) idx1) as [e|ps1] eqn:Hps1;
    [done|].
  injection Hrun1 as <- <-.
  rewrite add_dataset_lookup_new in Hd1. injection Hd1 as <-.
  simpl in Htf1. injection Htf1 as <-.
  destruct (positions_inr _ _ _ Hps1) as [Hlen1 Hlt1].
  assert (Pandas.len
            (df (set_tensor_frame
                   (set_df d {| columns := columns (df d);
                                rows := Pandas.take ps1 (rows (df d)) |})
                   (Some (select_rows ps1 tf)))) = length idx1) as Hn1.
  { unfold Pandas.len. simpl. by rewrite take_length, Hlen1. }
  rewrite Hn1 in Hrun2.
  destruct (Pandas.positions (length idx1) idx2) as [e|ps2] eqn:Hps2; [done|].
  injection Hrun2 as <- <-.
  eexists ps1, ps2, _, _, _, _.
  split; [done|]. split; [done|].
  split.
  { rewrite (index_select_positions _ _ _ _ _ Hd Hmat Htf Hal).
    cbn [resolve_index as_index index_positions].
    rewrite positions_of_nat by by apply take_Forall_lt. done. }
  split; [exact (add_dataset_lookup_new (add_dataset h _) _)|].
  split; [apply add_dataset_lookup_new|]. simpl.
  split.
  - f_equal. by apply take_take.
  - f_equal. by eapply select_rows_select_rows.
Qed.

(** X16: what row selection keeps.  When [index_select] returns on a
    materialized dataset whose bundle has the frame's rows, the new
    dataset has the same column labels and the same column names per
    semantic type, tensors for the same semantic types and a target tensor
    exactly if there was one; its rows are rows of the original, the
    tensors are cut at the same positions as the frame, and frame and
    bundle again have the same number of rows. *)
Theorem index_select_keeps_schema h self d tf index r h' :
  datasets h !! self = Some d →
  _is_materialized d = true →
  _tensor_frame d = Some tf →
  aligned tf (Pandas.len (df d)) →
  index_select index self h = (inr r, h') →
  ∃ d' tf' ps,
    datasets h' !! r = Some d' ∧
    _tensor_frame d' = Some tf' ∧
    columns (df d') = columns (df d) ∧
    col_names_dict tf' = col_names_dict tf ∧
    (x_dict tf').*1 = (x_dict tf).*1 ∧
    (is_Some (y tf') ↔ is_Some (y tf)) ∧
    Forall (λ p, p < Pandas.len (df d)) ps ∧
    rows (df d') = Pandas.take ps (rows (df d)) ∧
    tf' = select_rows ps tf ∧
    (∀ row, row ∈ rows (df d') → row ∈ rows (df d)) ∧
    Pandas.len (df d') = length ps ∧
    aligned tf' (Pandas.len (df d')).
Proof.
  intros Hd Hmat Htf Hal.
  rewrite (index_select_positions _ _ _ _ _ Hd Hmat Htf Hal).
  destruct (resolve_index index (Pandas.len (df d))) as [e|index']; [done|].
  destruct (index_positions (as_index index') (Pandas.len (df d)))
    as [e|ps] eqn:Hps;
    [done|].
  intros [= <- <-].
  pose proof (index_positions_lt _ _ _ Hps) as Hlt.
  eexists _, _, ps. split; [apply add_dataset_lookup_new|]. simpl.
  split; [done|]. split; [done|]. split; [done|].
  split. { unfold select_rows. cbn [x_dict]. clear.
           induction (x_dict tf) as [|sx xd IH]; [reflexivity|].
           cbn [fmap list_fmap fst] in *. by rewrite IH. }
  split. { unfold select_rows. cbn [y]. apply fmap_is_Some. }
  split; [done|]. split; [done|]. split; [done|].
  split.
  { intros row Hrow. unfold Pandas.take in Hrow.
    apply list_elem_of_omap in Hrow as (p & _ & Hrow).
    by eapply list_elem_of_lookup_2. }
  assert (Pandas.len {| columns := columns (df d);
                        rows := Pandas.take ps (rows (df d)) |} = length ps)
    as Hlen.
  { unfold Pandas.len. simpl. by rewrite take_length. }
  split; [done|]. rewrite Hlen. by eapply select_rows_aligned.
Qed.

Lemma range_step_one a b :
  (0 ≤ a)%Z →
  Z.to_nat <$> PySlice.range a b 1 = seq (Z.to_nat a) (Z.to_nat (b - a)).
Proof.
  intros Ha. unfold PySlice.range, PySlice.range_len, seqZ.
  change (0 <? 1)%Z with true. cbn match.
  assert (Z.to_nat (if (a <? b)%Z then (b - a - 1) / 1 + 1 else 0)
          = Z.to_nat (b - a)) as ->.
  { destruct (Z.ltb_spec a b); [rewrite Z.div_1_r|]; lia. }
  rewrite <-!list_fmap_compose.
  replace (seq (Z.to_nat a)) with (seq (Z.to_nat a + 0))
    by (f_equal; lia).
  rewrite <-fmap_add_seq.
  apply list_fmap_ext. intros _ i _. simpl. lia.
Qed.

Lemma slice_prefix_positions n k :
  PySlice.positions None (Some k) None n = inr (seq 0 (clip k n)).
Proof.
  unfold PySlice.positions, PySlice.indices, PySlice.adjust, clip. simpl.
  rewrite range_step_one by done. by rewrite Z.sub_0_r.
Qed.

Lemma slice_suffix_positions n k :
  PySlice.positions (Some k) None None n
    = inr (seq (clip k n) (n - clip k n)).
Proof.
  unfold PySlice.positions, PySlice.indices, PySlice.adjust, clip. simpl.
  rewrite range_step_one by (case_match; lia).
  do 2 f_equal. case_match; lia.
Qed.

Lemma clip_le k n : (clip k n ≤ n)%nat.
Proof. unfold clip. case_match; lia. Qed.

Lemma take_seq_drop {A : Type} (l : list A) m :
  Pandas.take (seq m (length l - m)) l = drop m l.
Proof.
  revert l. induction m as [|m IH]; intros l.
  - rewrite Nat.sub_0_r, take_seq, firstn_all by done. done.
  - destruct l as [|x l]; [done|]. simpl.
    rewrite <-fmap_S_seq, take_S_fmap. apply IH.
Qed.

Lemma select_rows_seq_drop tf n m :
  aligned tf n → select_rows (seq m (n - m)) tf = drop_rows m tf.
Proof.
  intros [Hx Hy]. unfold select_rows, drop_rows. f_equal.
  - apply list_eq_Forall2, Forall2_fmap, Forall_Forall2_diag.
    eapply Forall_impl; [exact Hx|]. intros [s x] Hlen. simpl in *.
    by rewrite <-Hlen, take_seq_drop.
  - destruct (y tf) as [t|]; [|done]. simpl.
    by rewrite <-(Hy t eq_refl), take_seq_drop.
Qed.

(** X17: a split loses no row and duplicates none.  On a materialized
    dataset whose bundle has the frame's rows, for a bound [b] that is an
    integer [k], or a float [x] with [round(x * len(self)) = k],
    [self[:b]] and then [self[b:]] both return; the first has the first
    [m] rows of the frame and of every tensor and the second has the
    rest, where [m] is [k] counted from the end if negative and clipped to
    the number of rows.  So the two frames, one after the other, are the
    original frame. *)
Theorem index_select_split h self d tf b k :
  datasets h !! self = Some d →
  _is_materialized d = true →
  _tensor_frame d = Some tf →
  aligned tf (Pandas.len (df d)) →
  resolve_bound b (Pandas.len (df d)) = inr (BInt k) →
  let m := clip k (Pandas.len (df d)) in
  ∃ ra ha rb hb da db,
    index_select (ISlice BNone b None) self h = (inr ra, ha) ∧
    index_select (ISlice b BNone None) self ha = (inr rb, hb) ∧
    ra ≠ rb ∧
    datasets hb !! ra = Some da ∧
    datasets hb !! rb = Some db ∧
    datasets hb !! self = Some d ∧
    rows (df da) = take m (rows (df d)) ∧
    rows (df db) = drop m (rows (df d)) ∧
    _tensor_frame da = Some (first_rows m tf) ∧
    _tensor_frame db = Some (drop_rows m tf) ∧
    rows (df da) ++ rows (df db) = rows (df d).
Proof.
  intros Hd Hmat Htf Hal Hb m.
  pose proof (clip_le k (Pandas.len (df d))) as Hm. fold m in Hm.
  eexists _, _, _, _, _, _.
  split.
  { rewrite (index_select_positions _ _ _ _ _ Hd Hmat Htf Hal).
    cbn [resolve_index resolve_bound]. rewrite Hb.
    cbn [as_index index_positions bound_int].
    rewrite slice_prefix_positions. fold m. reflexivity. }
  split.
  { rewrite (index_select_positions _ _ d tf);
      [|by apply add_dataset_lookup|done..].
    cbn [resolve_index resolve_bound]. rewrite Hb.
    cbn [as_index index_positions bound_int].
    rewrite slice_suffix_positions. fold m. reflexivity. }
  split. { simpl. rewrite length_app. simpl. lia. }
  split. { apply add_dataset_lookup, add_dataset_lookup_new. }
  split. { exact (add_dataset_lookup_new (add_dataset h _) _). }
  split. { by do 2 apply add_dataset_lookup. }
  simpl.
  assert (Pandas.take (seq 0 m) (rows (df d)) = take m (rows (df d))) as ->.
  { by apply take_seq. }
  assert (Pandas.take (seq m (Pandas.len (df d) - m)) (rows (df d))
          = drop m (rows (df d))) as ->.
  { apply take_seq_drop. }
  split; [done|]. split; [done|].
  split. { f_equal. by eapply select_rows_seq. }
  split. { f_equal. by eapply select_rows_seq_drop. }
  apply take_drop.
Qed.

(** ** [__getitem__] and [shuffle] *)

(** X18: a list as the key of [__getitem__].  A list that is not empty
    selects columns, so on a materialized dataset it raises the error of
    [col_select] and changes nothing.  The empty list selects rows: on a
    dataset that is not materialized it raises the error of
    [index_select], and on a materialized one whose bundle has the frame's
    rows it returns a new dataset with the same columns and no row, and
    the caller's list is left as it was. *)
Theorem getitem_list_key h self d r l :
  datasets h !! self = Some d →
  str_lists h !! r = Some l →
  (l ≠ [] → _is_materialized d = true →
   Dataset_getitem (KStrList r) self h
     = (inl (AlreadyMaterializedError "col_select"), h)) ∧
  (l = [] → _is_materialized d = false →
   Dataset_getitem (KStrList r) self h
     = (inl (NotMaterializedError "index_select"), h)) ∧
  (l = [] → _is_materialized d = true →
   ∀ tf, _tensor_frame d = Some tf → aligned tf (Pandas.len (df d)) →
   ∃ r' h' d',
     Dataset_getitem (KStrList r) self h = (inr r', h') ∧
     datasets h' !! r' = Some d' ∧
     columns (df d') = columns (df d) ∧
     rows (df d') = [] ∧
     str_lists h' = str_lists h).
Proof.
  intros Hd Hl. unfold Dataset_getitem.
  rewrite (bind_run _ _ _ _ _ (get_list_run _ _ _ Hl)).
  split; [|split].
  - intros Hne Hmat. rewrite decide_True by (destruct l; [done|simpl; lia]).
    unfold col_select. by rewrite (requires_pre_run _ _ _ _ _ Hd), Hmat.
  - intros -> Hmat. rewrite decide_False by (simpl; lia).
    unfold index_select. by rewrite (requires_post_run _ _ _ _ _ Hd), Hmat.
  - intros -> Hmat tf Htf Hal. rewrite decide_False by (simpl; lia).
    rewrite (index_select_positions _ _ _ _ _ Hd Hmat Htf Hal).
    cbn [resolve_index as_index index_positions Pandas.positions].
    eexists _, _, _. split; [done|].
    split; [apply add_dataset_lookup_new|]. done.
Qed.

Lemma take_Permutation {A : Type} (l : list A) ps :
  ps ≡ₚ seq 0 (length l) → Pandas.take ps l ≡ₚ l.
Proof.
  intros Hps. unfold Pandas.take. rewrite Hps.
  fold (Pandas.take (seq 0 (length l)) l).
  by rewrite take_seq, firstn_all.
Qed.

Lemma seqZ_to_nat n : Z.to_nat <$> seqZ 0 (Z.of_nat n) = seq 0 n.
Proof.
  unfold seqZ. rewrite <-list_fmap_compose, Nat2Z.id.
  rewrite <-(list_fmap_id (seq 0 n)) at 2.
  apply list_fmap_ext. intros _ i _. simpl. lia.
Qed.

Lemma positions_nonneg n idx :
  Forall (λ i, 0 ≤ i < Z.of_nat n)%Z idx →
  Pandas.positions n idx = inr (Z.to_nat <$> idx).
Proof.
  induction 1 as [|i idx Hi _ IH]; [done|].
  rewrite fmap_cons. cbn [Pandas.positions]. unfold Pandas.position.
  rewrite decide_True by lia. by rewrite IH.
Qed.

(** X19: [shuffle] permutes the rows.  On a materialized dataset whose
    bundle has the frame's rows, for every permutation [perm] of
    [0 .. len(self) - 1] that [torch.randperm] draws, [shuffle] returns a
    new dataset, and the permutation with it exactly if [return_perm] is
    [True].  Row [i] of the new frame is row [perm[i]] of the original,
    every tensor is permuted in the same way, the rows are a permutation
    of the original rows, and the original dataset is unchanged. *)
Theorem shuffle_permutes h self d tf perm return_perm :
  datasets h !! self = Some d →
  _is_materialized d = true →
  _tensor_frame d = Some tf →
  aligned tf (Pandas.len (df d)) →
  perm ≡ₚ seqZ 0 (Z.of_nat (Pandas.len (df d))) →
  ∃ r h' d',
    shuffle perm return_perm self h
      = (inr (r, if return_perm then Some perm else None), h') ∧
    datasets h' !! r = Some d' ∧
    datasets h' !! self = Some d ∧
    r ≠ self ∧
    columns (df d') = columns (df d) ∧
    rows (df d') ≡ₚ rows (df d) ∧
    (∀ i p, perm !! i = Some p →
            rows (df d') !! i = rows (df d) !! Z.to_nat p) ∧
    _tensor_frame d' = Some (select_rows (Z.to_nat <$> perm) tf).
Proof.
  intros Hd Hmat Htf Hal Hperm.
  assert (Forall (λ i, 0 ≤ i < Z.of_nat (Pandas.len (df d)))%Z perm) as Hall.
  { apply Forall_forall. intros i Hi. rewrite Hperm in Hi.
    apply elem_of_seqZ in Hi. lia. }
  assert (Z.to_nat <$> perm ≡ₚ seq 0 (Pandas.len (df d))) as Hps.
  { by rewrite Hperm, seqZ_to_nat. }
  assert (Forall (λ p, p < length (rows (df d))) (Z.to_nat <$> perm)) as Hlt.
  { apply Forall_fmap. eapply Forall_impl; [exact Hall|].
    intros i Hi. simpl. unfold Pandas.len in Hi. lia. }
  unfold shuffle.
  rewrite (bind_run _ _ _ _ _ (len_run _ _ _ Hd)).
  unfold mbind at 1. unfold M_bind at 1.
  rewrite (index_select_positions _ _ _ _ _ Hd Hmat Htf Hal).
  cbn [resolve_index as_index index_positions].
  rewrite (positions_nonneg _ _ Hall).
  eexists _, _, _. split; [done|].
  split; [apply add_dataset_lookup_new|].
  split; [by apply add_dataset_lookup|].
  split. { apply lookup_lt_Some in Hd. lia. }
  simpl. split; [done|].
  split; [by apply take_Permutation|].
  split; [|done].
  intros i p Hi. apply take_lookup; [done|].
  by rewrite list_lookup_fmap, Hi.
Qed.

(** X20: a NaN bound.  On a materialized dataset a slice of which a
    bound is the float NaN makes [index_select] raise the [ValueError] of
    [round], whatever the other bound and the step are, as long as the
    start bound, which is converted first, converts; the error comes
    before the copy is made, so the heap is unchanged. *)
Theorem index_select_nan_bound h self d :
  datasets h !! self = Some d →
  _is_materialized d = true →
  (∀ stop step,
     index_select (ISlice (BFloat S754_nan) stop step) self h
       = (inl (ValueError FloatNaNToInteger), h)) ∧
  (∀ start start' step,
     resolve_bound start (Pandas.len (df d)) = inr start' →
     index_select (ISlice start (BFloat S754_nan) step) self h
       = (inl (ValueError FloatNaNToInteger), h)).
Proof.
  intros Hd Hmat. split.
  - intros stop step. by rewrite (index_select_run _ _ _ _ Hd Hmat).
  - intros start start' step Hstart.
    rewrite (index_select_run _ _ _ _ Hd Hmat).
    unfold index_select_outcome. cbn [resolve_index]. by rewrite Hstart.
Qed.
End dataset_facts.

(** * The claims on examples *)

(** The example datasets are well-formed: the fields of [wf] by
    evaluation. *)
Ltac example_wf :=
  split;
  [ reflexivity
  | by eexists
  | by apply (bool_decide_unpack _)
  | intros c Hc; exact Hc
  | intros t [= <-]; by apply (bool_decide_unpack _) ].

Lemma answers_wf : wf answers_new.2 (fresh_dataset answers "answer") answers_types.
Proof. example_wf. Defined.

Lemma notes_wf : wf notes_new.2 (fresh_dataset people "label") notes_types.
Proof. example_wf. Defined.

Lemma people_wf : wf people_new.2 (fresh_dataset people "label") people_types.
Proof. example_wf. Defined.

Lemma scores_wf : wf scores_new.2 (fresh_dataset scores "score") scores_types.
Proof. example_wf. Defined.

(** C1 on [answers] and on [scores].  In [answers] "yes" is the more
    frequent answer, and the stored categories are "no", "yes".  In
    [scores] 10 is the more frequent score, and the stored categories
    are 2, 10, the ints in the order of their values. *)
Lemma binary_target_sorted_witness :
  (Reference.stats [PyStr "yes"; PyStr "no"; PyStr "yes"] categorical
     = Some [(COUNT, CountStat (StrLabels ["yes"; "no"]) [2; 1]%Z)] ∧
   ∃ h1 tf stats1 cs1 index1 value1,
     materialize 0 None answers_new.2 = (inr 0, h1) ∧
     col_stats 0 h1 = (inr 0, h1) ∧
     stats_dicts h1 !! 0 = Some stats1 ∧
     PyDict.get "answer" stats1 = Some cs1 ∧
     PyDict.get COUNT cs1 = Some (CountStat index1 value1) ∧
     length index1 = 2 ∧
     Sorted cell_le index1 ∧
     zip index1 value1 ≡ₚ zip [PyStr "yes"; PyStr "no"] [2; 1]%Z ∧
     tensor_frame 0 h1 = (inr (Some tf), h1) ∧
     y tf = Some (Reference.categorical_forward index1
                    [PyStr "yes"; PyStr "no"; PyStr "yes"] None)) ∧
  (Reference.stats [PyInt 10; PyInt 2; PyInt 10] categorical
     = Some [(COUNT, CountStat (IntLabels [10; 2]%Z) [2; 1]%Z)] ∧
   ∃ h1 tf stats1 cs1 index1 value1,
     materialize 0 None scores_new.2 = (inr 0, h1) ∧
     col_stats 0 h1 = (inr 0, h1) ∧
     stats_dicts h1 !! 0 = Some stats1 ∧
     PyDict.get "score" stats1 = Some cs1 ∧
     PyDict.get COUNT cs1 = Some (CountStat index1 value1) ∧
     length index1 = 2 ∧
     Sorted cell_le index1 ∧
     zip index1 value1 ≡ₚ zip [PyInt 10; PyInt 2] [2; 1]%Z ∧
     tensor_frame 0 h1 = (inr (Some tf), h1) ∧
     y tf = Some (Reference.categorical_forward index1
                    [PyInt 10; PyInt 2; PyInt 10] None)).
Proof.
  split.
  - split; [reflexivity|].
    apply (binary_target_sorted answers_new.2 0
             (fresh_dataset answers "answer") answers_types None "answer"
             [PyStr "yes"; PyStr "no"; PyStr "yes"]
             [(COUNT, CountStat (StrLabels ["yes"; "no"]) [2; 1]%Z)]
             (StrLabels ["yes"; "no"]) [2; 1]%Z).
    + reflexivity.
    + reflexivity.
    + exact answers_wf.
    + intros c s Hin.
      by repeat (apply elem_of_cons in Hin as [[= -> ->]|Hin]);
        [..|apply elem_of_nil in Hin].
    + reflexivity.
    + reflexivity.
    + reflexivity.
    + reflexivity.
    + reflexivity.
    + reflexivity.
  - split; [reflexivity|].
    apply (binary_target_sorted scores_new.2 0
             (fresh_dataset scores "score") scores_types None "score"
             [PyInt 10; PyInt 2; PyInt 10]
             [(COUNT, CountStat (IntLabels [10; 2]%Z) [2; 1]%Z)]
             (IntLabels [10; 2]%Z) [2; 1]%Z).
    + reflexivity.
    + reflexivity.
    + exact scores_wf.
    + intros c s Hin.
      by repeat (apply elem_of_cons in Hin as [[= -> ->]|Hin]);
        [..|apply elem_of_nil in Hin].
    + reflexivity.
    + reflexivity.
    + reflexivity.
    + reflexivity.
    + reflexivity.
    + reflexivity.
Defined.

(** What [materialize] leaves for [answers] and for [scores]: the
    categories in ascending order with their counts, and the target
    encoded by it. *)
Example answers_materialized :
  (∃ h1 tf,
     materialize 0 None answers_new.2 = (inr 0, h1) ∧
     stats_dicts h1 !! 0
       = Some [("age", [(MEAN, FloatStat
                           (Reference.mean [PyInt 25; PyInt 30; PyInt 45]))]);
               ("answer",
                [(COUNT, CountStat (StrLabels ["no"; "yes"]) [1; 2]%Z)])] ∧
     tensor_frame 0 h1 = (inr (Some tf), h1) ∧
     y tf = Some [Reference.Long 1; Reference.Long 0; Reference.Long 1]) ∧
  (∃ h1 tf,
     materialize 0 None scores_new.2 = (inr 0, h1) ∧
     stats_dicts h1 !! 0
       = Some [("age", [(MEAN, FloatStat
                           (Reference.mean [PyInt 25; PyInt 30; PyInt 45]))]);
               ("score",
                [(COUNT, CountStat (IntLabels [2; 10]%Z) [1; 2]%Z)])] ∧
     tensor_frame 0 h1 = (inr (Some tf), h1) ∧
     y tf = Some [Reference.Long 1; Reference.Long 0; Reference.Long 1]).
Proof. split; eexists _, _; repeat split; reflexivity. Qed.

(** C2 on [people]. *)
Lemma materialize_idempotent_witness :
  materialize 0 None people_new.2 = people_materialized ∧
  people_materialized.1 = inr 0 ∧
  materialize 0 (Some "cuda") people_materialized.2
    = (inr 0, people_materialized.2).
Proof.
  assert (materialize 0 None people_new.2 = people_materialized) as Hrun
    by reflexivity.
  split; [exact Hrun|]. split; [reflexivity|].
  apply (materialize_idempotent people_new.2 0 None (Some "cuda") 0
           people_materialized.2).
  exact Hrun.
Defined.

(** C3 on [notes]. *)
Lemma materialize_unsupported_witness :
  ∃ s' h',
    materialize 0 None notes_new.2 = (inl (UnsupportedSemanticType s'), h') ∧
    supported s' = false ∧
    s' ∈ notes_types.*2 ∧
    datasets h' = datasets notes_new.2 ∧
    is_materialized 0 h' = (inr false, h') ∧
    tensor_frame 0 h' = (inl (NotMaterializedError "tensor_frame"), h') ∧
    col_stats 0 h' = (inl (NotMaterializedError "col_stats"), h').
Proof.
  apply (materialize_unsupported notes_new.2 0 (fresh_dataset people "label")
           notes_types None "city" (other_stype "text_embedded")).
  - reflexivity.
  - reflexivity.
  - exact notes_wf.
  - apply list_elem_of_further, list_elem_of_here.
  - reflexivity.
Defined.

(** C4 on [people], before and after [materialize]. *)
Lemma materialization_guards_witness :
  col_select (CStr "city") 0 people_materialized.2
    = (inl (AlreadyMaterializedError "col_select"), people_materialized.2) ∧
  index_select (IList [0%Z]) 0 people_new.2
    = (inl (NotMaterializedError "index_select"), people_new.2) ∧
  tensor_frame 0 people_new.2
    = (inl (NotMaterializedError "tensor_frame"), people_new.2) ∧
  col_stats 0 people_new.2
    = (inl (NotMaterializedError "col_stats"), people_new.2).
Proof.
  destruct (materialization_guards people_new.2 0
              (fresh_dataset people "label") eq_refl)
    as (_ & Hpost & Hafter).
  destruct (Hpost eq_refl) as (Hindex & Htf & Hcs).
  split; [|split; [apply Hindex|split; [exact Htf|exact Hcs]]].
  apply (Hafter None 0). reflexivity.
Defined.

Lemma ten_bundle_aligned : aligned ten_bundle 10.
Proof.
  split.
  - repeat constructor.
  - intros t [= <-]. reflexivity.
Defined.

(** C5 on [ten]: three indices, one of them twice and one negative, and
    the single index [-1], which selects the last row. *)
Lemma index_select_len_witness :
  (∃ r h', index_select (IList [3; 3; -1]%Z) 0 ten_materialized.2 = (inr r, h') ∧
           len r h' = (inr 3, h')) ∧
  ∃ r h' d',
    index_select (IInt (-1)) 0 ten_materialized.2 = (inr r, h') ∧
    len r h' = (inr 1, h') ∧
    datasets h' !! r = Some d' ∧
    rows (df d') = [[PyInt 9; PyStr "b"]].
Proof.
  destruct (index_select_len ten_materialized.2 0 ten_dataset [3; 3; -1]%Z
              eq_refl eq_refl) as (_ & _ & Htotal & Hint).
  split.
  - apply (Htotal ten_bundle eq_refl ten_bundle_aligned).
    repeat constructor; done.
  - destruct (Hint ten_bundle (-1)%Z eq_refl ten_bundle_aligned)
      as (r & h' & d' & row & Hrun & Hlen & Hd' & Hrow & Hrows); [done|].
    injection Hrow as <-.
    exists r, h', d'. done.
Defined.

(** C6 on [ten]: [slice(None, 0.5)] selects rows 0 to 4. *)
Lemma index_select_fractional_slice_witness :
  ∃ r h' d',
    index_select (ISlice BNone (BFloat PyFloat.half) None) 0 ten_materialized.2
      = (inr r, h') ∧
    datasets h' !! r = Some d' ∧
    columns (df d') = ["x"; "y"] ∧
    rows (df d') = [[PyInt 0; PyStr "a"]; [PyInt 1; PyStr "b"];
                    [PyInt 2; PyStr "a"]; [PyInt 3; PyStr "b"];
                    [PyInt 4; PyStr "a"]] ∧
    _tensor_frame d' = Some (first_rows 5 ten_bundle).
Proof.
  destruct (index_select_fractional_slice ten_materialized.2 0 ten_dataset
              eq_refl eq_refl) as (_ & _ & Hhalf).
  apply (Hhalf ten_bundle eq_refl eq_refl ten_bundle_aligned).
Defined.

(** C7 (amended) on [people]: the selection of row 0 has its own frame
    of that one row and a bundle, and the two dictionaries of the
    original. *)
Lemma index_select_shallow_copy_witness :
  index_select (IList [0%Z]) 0 people_materialized.2 = people_selected ∧
  people_selected.1 = inr 1 ∧
  stats_dicts people_selected.2 = stats_dicts people_materialized.2 ∧
  datasets people_selected.2 !! 0 = Some people_dataset ∧
  ∃ d', datasets people_selected.2 = datasets people_materialized.2 ++ [d'] ∧
        col_to_stype d' = col_to_stype people_dataset ∧
        _col_stats d' = _col_stats people_dataset ∧
        df d' = {| columns := ["age"; "city"; "label"];
                   rows := [[PyInt 25; PyStr "NY"; PyInt 0]] |} ∧
        is_Some (_tensor_frame d').
Proof.
  assert (index_select (IList [0%Z]) 0 people_materialized.2 = people_selected)
    as Hrun by reflexivity.
  split; [exact Hrun|]. split; [reflexivity|].
  destruct (index_select_shallow_copy people_materialized.2 0 people_dataset
              (IList [0%Z]) 1 people_selected.2 eq_refl eq_refl Hrun)
    as (_ & _ & _ & Hstats & Hold & d' & Hds & Hcts & Hcs & _ & _ & _
        & index' & ps & tf & tf' & Hindex & Hps & Hdf & _ & _ & Htf').
  split; [exact Hstats|]. split; [by apply Hold|].
  exists d'. split; [exact Hds|]. split; [exact Hcts|]. split; [exact Hcs|].
  injection Hindex as <-. injection Hps as <-.
  split; [exact Hdf|]. by eexists.
Defined.

(** C7 as stated fails: the dataset [index_select] returns shares both
    dictionaries with the original, and emptying the statistics the
    selection's [col_stats] gives empties the original's. *)
Lemma index_select_shares_dictionaries :
  ∃ h' d d',
    index_select (IList [0%Z]) 0 people_materialized.2 = (inr 1, h') ∧
    datasets h' !! 0 = Some d ∧
    datasets h' !! 1 = Some d' ∧
    shares_mutable_state d d' ∧
    col_to_stype d' = col_to_stype d ∧
    _col_stats d' = _col_stats d ∧
    (col_stats 0 ≫= get_stats_dict) h' ≠ (inr [], h') ∧
    ∃ h'', (col_stats 1 ≫= λ s, set_stats_dict s []) h' = (inr tt, h'') ∧
           (col_stats 0 ≫= get_stats_dict) h'' = (inr [], h'').
Proof.
  exists people_selected.2, people_dataset.
  eexists. split; [reflexivity|].
  split; [reflexivity|]. split; [reflexivity|].
  split; [by left|]. split; [reflexivity|]. split; [reflexivity|].
  split; [discriminate|].
  eexists. split; reflexivity.
Qed.

Lemma people_with_list_wf :
  wf people_with_list (fresh_dataset people "label") people_types.
Proof. example_wf. Defined.

(** C8 on [people]: [col_select(["age"])]. *)
Lemma col_select_keeps_target_witness :
  ∃ r h' d' cts',
    col_select (CList 0) 0 people_with_list = (inr r, h') ∧
    datasets h' !! r = Some d' ∧
    stype_dicts h' !! col_to_stype d' = Some cts' ∧
    cts' = [("age", numerical); ("label", categorical)] ∧
    target_col d' = Some "label" ∧
    _is_materialized d' = false.
Proof.
  destruct (col_select_keeps_target people_with_list 0
              (fresh_dataset people "label") people_types (CList 0) ["age"]
              "label" eq_refl eq_refl people_with_list_wf eq_refl eq_refl)
    as (r & h' & d' & cts' & Hrun & Hd' & Hcts' & _ & _ & Hone & Ht & Hm).
  - by apply (bool_decide_unpack _).
  - intros c ->%list_elem_of_singleton. by apply (bool_decide_unpack _).
  - exists r, h', d', cts'. repeat (split; [done|]).
    destruct (Hone "age" eq_refl) as (st & stt & [= <-] & [= <-] & ->).
    done.
Defined.

(** C10 on [people]: the caller's list ["age"] is ["age"; "label"] after
    the call. *)
Lemma col_select_appends_target_witness :
  str_lists people_with_list !! 0 = Some ["age"] ∧
  str_lists (col_select (CList 0) 0 people_with_list).2 !! 0
    = Some ["age"; "label"].
Proof.
  split; [reflexivity|].
  apply (col_select_appends_target people_with_list 0
           (fresh_dataset people "label") people_types 0 ["age"] "label"
           eq_refl eq_refl eq_refl eq_refl eq_refl)
    with (res := (col_select (CList 0) 0 people_with_list).1).
  - by apply (bool_decide_unpack _).
  - by destruct (col_select (CList 0) 0 people_with_list).
Defined.

(** C9 (amended) on the frame [answers] with the column types of
    [people]: "city" and "label" are missing. *)
Lemma Dataset_init_checks_columns_witness :
  let missing : gset string :=
    list_to_set ["age"; "city"; "label"] ∖ list_to_set ["age"; "answer"] in
  ("city" ∈ missing ∧ "label" ∈ missing ∧ "age" ∉ missing) ∧
  Dataset_init answers 0 (Some "label") (heap_of people_types)
    = (inl (MissingColumnError missing), heap_of people_types).
Proof.
  destruct (Dataset_init_checks_columns (heap_of people_types) answers 0
              people_types (Some "label") eq_refl)
    as (Hmissing & Hraise & _).
  { intros t [= <-]. by apply (bool_decide_unpack _). }
  split.
  - split; [|split]; by apply (bool_decide_unpack _).
  - apply Hraise. by apply (bool_decide_unpack _).
Defined.

(** C9 as stated fails: with a target that is a column of the frame but
    not a key of [col_to_stype], nothing is missing and yet the
    constructor raises, from [list.remove]; with a target that is neither,
    the error it raises is that same one, which names no column. *)
Lemma Dataset_init_target_not_a_key :
  let df1 := {| columns := ["a"; "y"]; rows := [[PyInt 1; PyInt 0]] |} in
  let df2 := {| columns := ["a"]; rows := [[PyInt 1]] |} in
  let h := heap_of [("a", numerical)] in
  (∀ c, c ∈ ["a"; "y"] → c ∈ columns df1) ∧
  Dataset_init df1 0 (Some "y") h = (inl (ValueError ListRemoveNotInList), h) ∧
  ("y" ∉ columns df2) ∧
  Dataset_init df2 0 (Some "y") h = (inl (ValueError ListRemoveNotInList), h) ∧
  ∀ missing, ValueError ListRemoveNotInList ≠ MissingColumnError missing.
Proof.
  simpl. split; [done|]. split; [reflexivity|].
  split; [by apply (bool_decide_unpack _)|]. split; [reflexivity|].
  intros missing. discriminate.
Qed.

(** With the second implementation of the collaborators, [materialize] on
    the table with the unsupported column fills the statistics of every
    column and then raises from [_to_tensor_frame]; the dataset is not
    materialized. *)
Section lenient.
#[local] Existing Instance lenient_collaborators | 0.

Example materialize_unsupported_in_to_tensor_frame :
  let started :=
    Dataset_init people 0 (Some "label")
      {| str_lists := []; stype_dicts := [notes_types]; stats_dicts := [];
         datasets := [] |} in
  ∃ h',
    materialize 0 None started.2
      = (inl (NotImplementedError (UnableToProcessStype "text_embedded")), h') ∧
    PyDict.keys <$> stats_dicts h' !! 0 = Some ["age"; "city"; "label"] ∧
    datasets h' = datasets started.2 ∧
    tensor_frame 0 h' = (inl (NotMaterializedError "tensor_frame"), h').
Proof.
  simpl. eexists. split; [reflexivity|]. split; [reflexivity|].
  split; reflexivity.
Qed.
End lenient.

(** * The further properties on examples *)

(** X1 on [people]: the feature columns are "age" and "city". *)
Lemma feat_cols_are_the_other_keys_witness :
  feat_cols 0 people_new.2 = (inr ["age"; "city"], people_new.2).
Proof.
  exact (feat_cols_are_the_other_keys people_new.2 0
           (fresh_dataset people "label") people_types eq_refl people_wf).
Defined.

(** X2 on [people] and on [notes]: the first materializes, the second,
    with its column of an unsupported type, does not. *)
Lemma materialize_returns_iff_supported_witness :
  (∃ h1, materialize 0 None people_new.2 = (inr 0, h1)) ∧
  ¬ (∃ h1, materialize 0 None notes_new.2 = (inr 0, h1)).
Proof.
  split.
  - apply (materialize_returns_iff_supported people_new.2 0
             (fresh_dataset people "label") people_types None
             eq_refl eq_refl people_wf).
    intros c s Hin. by repeat (apply elem_of_cons in Hin as [[= -> ->]|Hin]);
      [..|apply elem_of_nil in Hin].
  - intros Hret.
    apply (materialize_returns_iff_supported notes_new.2 0
             (fresh_dataset people "label") notes_types None
             eq_refl eq_refl notes_wf) with (c := "city")
             (s := other_stype "text_embedded") in Hret; [done|].
    apply list_elem_of_further, list_elem_of_here.
Defined.

(** X3 on [notes], where [materialize] raises. *)
Lemma materialize_frame_witness :
  let h1 := (materialize 0 None notes_new.2).2 in
  str_lists h1 = str_lists notes_new.2 ∧
  stype_dicts h1 = stype_dicts notes_new.2 ∧
  ∃ d1, datasets h1 !! 0 = Some d1 ∧
        df d1 = people ∧
        col_to_stype d1 = 0 ∧
        target_col d1 = Some "label" ∧
        _col_stats d1 = 0.
Proof.
  destruct (materialize_frame notes_new.2 0 (fresh_dataset people "label")
              notes_types None (materialize 0 None notes_new.2).1
              (materialize 0 None notes_new.2).2 eq_refl eq_refl notes_wf)
    as (Hl & Hs & _ & _ & Hd1).
  - by destruct (materialize 0 None notes_new.2).
  - split; [exact Hl|]. split; [exact Hs|]. exact Hd1.
Defined.

(** X4 on [people]: "age" under [numerical], "city" under
    [categorical]. *)
Lemma materialize_col_names_witness :
  ∃ tf,
    tensor_frame 0 people_materialized.2
      = (inr (Some tf), people_materialized.2) ∧
    PyDict.get numerical (col_names_dict tf) = Some ["age"] ∧
    PyDict.get categorical (col_names_dict tf) = Some ["city"] ∧
    PyDict.get (other_stype "text_embedded") (col_names_dict tf) = None.
Proof.
  destruct (materialize_col_names people_new.2 0 (fresh_dataset people "label")
              people_types None people_materialized.2
              eq_refl eq_refl people_wf eq_refl) as (tf & Htf & Hnames).
  exists tf. split; [exact Htf|].
  split; [apply Hnames|]. split; apply Hnames.
Defined.

(** X5 on [people]. *)
Lemma materialize_x_dict_shape_witness :
  ∃ tf,
    tensor_frame 0 people_materialized.2
      = (inr (Some tf), people_materialized.2) ∧
    (x_dict tf).*1 = (col_names_dict tf).*1 ∧
    ∀ st names,
      PyDict.get st (col_names_dict tf) = Some names →
      ∃ x, PyDict.get st (x_dict tf) = Some x ∧
           length x = 3 ∧
           Forall (λ row, length row = length names) x.
Proof.
  exact (materialize_x_dict_shape people_new.2 0 (fresh_dataset people "label")
           people_types None people_materialized.2
           eq_refl eq_refl people_wf eq_refl).
Defined.

(** X6 on [people]: a target tensor of three rows. *)
Lemma materialize_target_tensor_witness :
  ∃ tf,
    tensor_frame 0 people_materialized.2
      = (inr (Some tf), people_materialized.2) ∧
    (is_Some (y tf) ↔ is_Some (Some "label")) ∧
    (∀ t, y tf = Some t → length t = 3).
Proof.
  exact (materialize_target_tensor people_new.2 0 (fresh_dataset people "label")
           people_types None people_materialized.2
           eq_refl eq_refl people_wf eq_refl).
Defined.

(** X7 on [people]: the statistics of "age" are stored as computed. *)
Lemma materialize_col_stats_entries_witness :
  ∃ stats2 cs,
    stats_dicts people_materialized.2 !! 0 = Some stats2 ∧
    compute_col_stats [PyInt 25; PyInt 30; PyInt 45] numerical = Some cs ∧
    PyDict.get "age" stats2 = Some cs.
Proof.
  destruct (materialize_col_stats_entries people_new.2 0
              (fresh_dataset people "label") people_types None
              people_materialized.2 eq_refl eq_refl people_wf eq_refl)
    as (stats2 & _ & Hstats & Hall).
  destruct (Hall "age" numerical) as (ser & cs & Hser & Hcs & Hget).
  { apply list_elem_of_here. }
  injection Hser as <-.
  exists stats2, cs. split; [exact Hstats|]. split; [exact Hcs|].
  destruct Hget as [([=] & _)|Hget]. exact Hget.
Defined.

(** X8 on [people]: the selection has a dictionary of types of its own
    and the statistics dictionary of the original. *)
Lemma col_select_shares_statistics_witness :
  ∃ d' cts',
    datasets people_projected.2 = datasets people_with_list ++ [d'] ∧
    stype_dicts people_projected.2 = stype_dicts people_with_list ++ [cts'] ∧
    stats_dicts people_projected.2 = stats_dicts people_with_list ∧
    col_to_stype d' = 1 ∧
    _col_stats d' = 0.
Proof.
  destruct (col_select_shares_statistics people_with_list 0
              (fresh_dataset people "label") people_types (CList 0) ["age"]
              1 people_projected.2 eq_refl eq_refl eq_refl eq_refl eq_refl)
    as (d' & cts' & Hds & _ & Hst & Hss & Hc & _ & Hcs & _).
  exists d', cts'. done.
Defined.

(** X9 on [people]: the selection has the columns "age" and "label" and
    three rows. *)
Lemma col_select_frame_witness :
  ∃ d',
    datasets people_projected.2 !! 1 = Some d' ∧
    len 1 people_projected.2 = (inr 3, people_projected.2) ∧
    columns (df d') = ["age"; "label"] ∧
    Pandas.getitem (df d') "age" = inr [PyInt 25; PyInt 30; PyInt 45].
Proof.
  destruct (col_select_frame people_with_list 0
              (fresh_dataset people "label") people_types (CList 0) ["age"]
              1 people_projected.2 eq_refl eq_refl eq_refl eq_refl eq_refl)
    as (d' & Hd' & Hlen & Hcols & Hdata).
  exists d'. split; [exact Hd'|]. split; [exact Hlen|].
  split; [exact Hcols|]. apply Hdata. apply list_elem_of_here.
Defined.

Lemma people_with_all_wf :
  wf people_with_all (fresh_dataset people "label") people_types.
Proof. example_wf. Defined.

(** X10 on [people]. *)
Lemma col_select_all_columns_witness :
  ∃ r h' d',
    col_select (CList 0) 0 people_with_all = (inr r, h') ∧
    datasets h' !! r = Some d' ∧
    stype_dicts h' !! col_to_stype d' = Some people_types ∧
    col_to_stype d' ≠ 0 ∧
    columns (df d') = ["age"; "city"; "label"] ∧
    str_lists h' = str_lists people_with_all.
Proof.
  exact (col_select_all_columns people_with_all 0
           (fresh_dataset people "label") people_types 0
           eq_refl eq_refl people_with_all_wf eq_refl).
Defined.

(** X11 on [people]: the list ["age"] has the target after the call. *)
Lemma col_select_lists_witness :
  str_lists people_projected.2 !! 0 = Some ["age"; "label"].
Proof.
  destruct (col_select_lists people_with_list 0
              (fresh_dataset people "label") people_types 0 ["age"]
              people_projected.1 people_projected.2
              eq_refl eq_refl eq_refl eq_refl eq_refl) as (Hl & _).
  exact Hl.
Defined.

(** X12 on [people]. *)
Lemma col_select_wf_witness :
  ∃ d' cts',
    datasets people_projected.2 !! 1 = Some d' ∧
    _is_materialized d' = false ∧
    wf people_projected.2 d' cts'.
Proof.
  exact (col_select_wf people_with_list 0 (fresh_dataset people "label")
           people_types (CList 0) ["age"] 1 people_projected.2
           eq_refl eq_refl people_with_list_wf eq_refl eq_refl).
Defined.

Lemma people_with_unknown_wf :
  wf people_with_unknown (fresh_dataset people "label") people_types.
Proof. example_wf. Defined.

(** X13 on [people]: "height" is no column, and the call raises
    [KeyError] for it. *)
Lemma col_select_returns_iff_keys_witness :
  ¬ (∃ r h', col_select (CList 0) 0 people_with_unknown = (inr r, h')) ∧
  ∃ c, c ∈ ["age"; "height"] ∧ c ∉ PyDict.keys people_types ∧
       (col_select (CList 0) 0 people_with_unknown).1 = inl (KeyError c).
Proof.
  destruct (col_select_returns_iff_keys people_with_unknown 0
              (fresh_dataset people "label") people_types (CList 0)
              ["age"; "height"] eq_refl eq_refl people_with_unknown_wf eq_refl)
    as [Hiff Herr].
  split.
  - intros Hret.
    pose proof (proj1 Hiff Hret "height"
                  ltac:(apply list_elem_of_further, list_elem_of_here))
      as Hkey.
    revert Hkey. by apply (bool_decide_unpack _).
  - destruct (Herr (KeyError "height")
                (col_select (CList 0) 0 people_with_unknown).2 eq_refl)
      as ((c & Hc & Hnot & He) & _).
    exists c. split; [exact Hc|]. split; [exact Hnot|].
    injection He as <-. reflexivity.
Defined.

(** X14 on [ten]: [-10] is the smallest index that selects a row, [10]
    selects none, and the single index [-1] selects the last row. *)
Lemma index_select_bounds_witness :
  (∃ r h', index_select (IList [-10; 9]%Z) 0 ten_materialized.2 = (inr r, h')) ∧
  ¬ (∃ r h', index_select (IList [0; 10]%Z) 0 ten_materialized.2 = (inr r, h')) ∧
  (∃ r h' d',
     index_select (IInt (-1)) 0 ten_materialized.2 = (inr r, h') ∧
     datasets h' !! r = Some d' ∧
     rows (df d') = [[PyInt 9; PyStr "b"]]) ∧
  ∃ h', index_select (IInt 10) 0 ten_materialized.2
          = (inl (IndexError OutOfBounds), h').
Proof.
  split; [|split; [|split]].
  - apply (index_select_bounds ten_materialized.2 0 ten_dataset ten_bundle
             [-10; 9]%Z eq_refl eq_refl eq_refl ten_bundle_aligned).
    repeat constructor; done.
  - intros Hret.
    apply (index_select_bounds ten_materialized.2 0 ten_dataset ten_bundle
             [0; 10]%Z eq_refl eq_refl eq_refl ten_bundle_aligned) in Hret.
    apply Forall_cons in Hret as [_ Hret].
    apply Forall_cons in Hret as [[_ Hlt] _]. revert Hlt. done.
  - destruct (index_select_bounds ten_materialized.2 0 ten_dataset ten_bundle
                [] eq_refl eq_refl eq_refl ten_bundle_aligned)
      as (_ & _ & Hint & _).
    destruct (Hint (-1)%Z) as (r & h' & d' & row & Hrun & Hd' & Hrow & Hrows);
      [done|].
    injection Hrow as <-. exists r, h', d'. done.
  - destruct (index_select_bounds ten_materialized.2 0 ten_dataset ten_bundle
                [] eq_refl eq_refl eq_refl ten_bundle_aligned)
      as (_ & _ & _ & Hout).
    apply (Hout 10%Z). intros [_ Hlt]. revert Hlt. done.
Defined.

(** X15 on [ten]: rows 3, 3, 9 and of these the third and the first are
    rows 9 and 3. *)
Lemma index_select_compose_witness :
  ∃ r3 h3 d2 d3,
    index_select (IList [9; 3]%Z) 0 ten_materialized.2 = (inr r3, h3) ∧
    datasets ten_selected_twice.2 !! 2 = Some d2 ∧
    datasets h3 !! r3 = Some d3 ∧
    df d2 = df d3 ∧
    _tensor_frame d2 = _tensor_frame d3.
Proof.
  destruct (index_select_compose ten_materialized.2 0 ten_dataset ten_bundle
              [3; 3; -1]%Z [2; 0]%Z 1 ten_selected.2 2 ten_selected_twice.2
              eq_refl eq_refl eq_refl ten_bundle_aligned eq_refl eq_refl)
    as (ps1 & ps2 & r3 & h3 & d2 & d3 & Hps1 & Hps2 & Hrun & Hrest).
  injection Hps1 as <-. injection Hps2 as <-.
  exists r3, h3, d2, d3. split; [exact Hrun|]. exact Hrest.
Defined.

(** X16 on [ten]. *)
Lemma index_select_keeps_schema_witness :
  ∃ d' tf',
    datasets ten_selected.2 !! 1 = Some d' ∧
    _tensor_frame d' = Some tf' ∧
    columns (df d') = ["x"; "y"] ∧
    col_names_dict tf' = col_names_dict ten_bundle ∧
    aligned tf' (Pandas.len (df d')).
Proof.
  destruct (index_select_keeps_schema ten_materialized.2 0 ten_dataset
              ten_bundle (IList [3; 3; -1]%Z) 1 ten_selected.2
              eq_refl eq_refl eq_refl ten_bundle_aligned eq_refl)
    as (d' & tf' & ps & Hd' & Htf' & Hcols & Hnames & _ & _ & _ & _ & _ & _
        & _ & Hal).
  exists d', tf'. done.
Defined.

(** X17 on [ten]: [ten[:0.5]] and [ten[0.5:]] are the first and the last
    five rows. *)
Lemma index_select_split_witness :
  ∃ ra ha rb hb da db,
    index_select (ISlice BNone (BFloat PyFloat.half) None) 0
      ten_materialized.2 = (inr ra, ha) ∧
    index_select (ISlice (BFloat PyFloat.half) BNone None) 0 ha
      = (inr rb, hb) ∧
    datasets hb !! ra = Some da ∧
    datasets hb !! rb = Some db ∧
    rows (df da) = take 5 (rows ten) ∧
    rows (df db) = drop 5 (rows ten) ∧
    rows (df da) ++ rows (df db) = rows ten.
Proof.
  destruct (index_select_split ten_materialized.2 0 ten_dataset ten_bundle
              (BFloat PyFloat.half) 5 eq_refl eq_refl eq_refl
              ten_bundle_aligned eq_refl)
    as (ra & ha & rb & hb & da & db & Ha & Hb & _ & Hda & Hdb & _ & Hra & Hrb
        & _ & _ & Happ).
  exists ra, ha, rb, hb, da, db. done.
Defined.

(** X18 on [ten] and [people]: a list of one column on the materialized
    [ten], the empty list on [people] before materialization and on the
    materialized [ten]. *)
Lemma getitem_list_key_witness :
  Dataset_getitem (KStrList 0) 0 ten_with_list
    = (inl (AlreadyMaterializedError "col_select"), ten_with_list) ∧
  Dataset_getitem (KStrList 0) 0 people_with_empty
    = (inl (NotMaterializedError "index_select"), people_with_empty) ∧
  ∃ r' h' d',
    Dataset_getitem (KStrList 0) 0 ten_with_empty = (inr r', h') ∧
    datasets h' !! r' = Some d' ∧
    columns (df d') = ["x"; "y"] ∧
    rows (df d') = [] ∧
    str_lists h' = str_lists ten_with_empty.
Proof.
  split; [|split].
  - by apply (getitem_list_key ten_with_list 0 ten_dataset 0 ["x"]
                eq_refl eq_refl).
  - by apply (getitem_list_key people_with_empty 0
                (fresh_dataset people "label") 0 [] eq_refl eq_refl).
  - destruct (getitem_list_key ten_with_empty 0 ten_dataset 0 []
                eq_refl eq_refl) as (_ & _ & Hempty).
    exact (Hempty eq_refl eq_refl ten_bundle eq_refl ten_bundle_aligned).
Defined.

(** X19 on [ten]: the permutation that moves the last row to the
    front. *)
Lemma shuffle_permutes_witness :
  ∃ r h' d',
    shuffle [9; 0; 1; 2; 3; 4; 5; 6; 7; 8]%Z true 0 ten_materialized.2
      = (inr (r, Some [9; 0; 1; 2; 3; 4; 5; 6; 7; 8]%Z), h') ∧
    datasets h' !! r = Some d' ∧
    rows (df d') ≡ₚ rows ten ∧
    rows (df d') !! 0 = Some [PyInt 9; PyStr "b"].
Proof.
  destruct (shuffle_permutes ten_materialized.2 0 ten_dataset ten_bundle
              [9; 0; 1; 2; 3; 4; 5; 6; 7; 8]%Z true
              eq_refl eq_refl eq_refl ten_bundle_aligned)
    as (r & h' & d' & Hrun & Hd' & _ & _ & _ & Hperm & Hrow & _).
  { by apply (bool_decide_unpack _). }
  exists r, h', d'. split; [exact Hrun|]. split; [exact Hd'|].
  split; [exact Hperm|]. exact (Hrow 0 9%Z eq_refl).
Defined.

(** X20 on [ten]: [ten[:nan]] and [ten[nan:]]. *)
Lemma index_select_nan_bound_witness :
  index_select (ISlice (BFloat S754_nan) BNone None) 0 ten_materialized.2
    = (inl (ValueError FloatNaNToInteger), ten_materialized.2) ∧
  index_select (ISlice BNone (BFloat S754_nan) None) 0 ten_materialized.2
    = (inl (ValueError FloatNaNToInteger), ten_materialized.2).
Proof.
  destruct (index_select_nan_bound ten_materialized.2 0 ten_dataset
              eq_refl eq_refl) as [Hstart Hstop].
  split; [apply Hstart|]. by apply (Hstop BNone BNone).
Defined.
